(** * mikeio: generic file transforms, regular grids and dfsu selection

    A shallow embedding of
      - [mikeio/generic.py]           (sum, diff, concat, extract, avg_time),
      - [mikeio/spatial/grid_geometry.py] (Grid1D, Grid2D, Grid3D),
      - [mikeio/dfsu/_dfsu.py]        (spatial selection of [_Dfsu._read]),
    together with the properties stated about them.

    Conventions of the embedding:
      - a finite float is the rational it stands for ([Q]) and NaN a
        separate constructor that propagates through arithmetic; the
        arithmetic of the file transforms is exact, so
        [astype(np.float32)] and [astype(np.float64)] keep the value,
        while [Grid2D._create_in_bbox], whose cell counts depend on it,
        rounds every operation to the nearest double ([float64]);
      - a [datetime] is the rational number of seconds since
        [datetime(1, 1, 1)], a [timedelta] a rational number of seconds;
      - a raised Python exception is the [Raise] case of [result];
      - [warnings.warn] appends to an explicit list of messages. *)

From Stdlib Require Import String ZArith QArith Qround Qabs Lqa List Bool Lia.
Import ListNotations.

Open Scope Z_scope.

(** ** Python exceptions and the error monad *)

Inductive exn : Type :=
| ValueError (msg : string)
| NotImplementedError (msg : string)
| Exception (msg : string)
| IndexError
| TypeError
| ZeroDivisionError
| BackendError.

Inductive result (A : Type) : Type :=
| Ok (a : A)
| Raise (e : exn).

Arguments Ok {A} a.
Arguments Raise {A} e.

Definition bind {A B : Type} (c : result A) (k : A -> result B) : result B :=
  match c with
  | Ok a => k a
  | Raise e => Raise e
  end.

Notation "x <- c ;; k" := (bind c (fun x => k))
  (at level 61, c at next level, right associativity).
Notation "' pat <- c ;; k" :=
  (bind c (fun x => match x with pat => k end))
  (at level 61, pat pattern, c at next level, right associativity).
Notation "c ;;; k" := (bind c (fun _ => k))
  (at level 61, right associativity).

Definition is_ok {A : Type} (r : result A) : bool :=
  match r with Ok _ => true | Raise _ => false end.

(** [for x in l: s = f(s, x)] where the body may raise. *)
Fixpoint foldM {A S : Type} (f : S -> A -> result S) (l : list A) (s : S)
  : result S :=
  match l with
  | [] => Ok s
  | x :: l' => s' <- f s x ;; foldM f l' s'
  end.

(** The [n] consecutive integers from [a] on. *)
Fixpoint count_from (n : nat) (a : Z) : list Z :=
  match n with
  | O => []
  | S n' => a :: count_from n' (a + 1)
  end.

(** [range(n)] as Python integers. *)
Definition range (n : nat) : list Z := count_from n 0.

(** [range(a, b)]. *)
Definition range_from (a b : Z) : list Z := count_from (Z.to_nat (b - a)) a.

(** ** Floats *)

Inductive fval : Type :=
| NaN
| Num (q : Q).

(** [a == b] on floats: NaN equals nothing. *)
Definition feqb (a b : fval) : bool :=
  match a, b with
  | Num x, Num y => Qeq_bool x y
  | _, _ => false
  end.

(** [a != b]. *)
Definition fneb (a b : fval) : bool := negb (feqb a b).

Definition fadd (a b : fval) : fval :=
  match a, b with
  | Num x, Num y => Num (x + y)
  | _, _ => NaN
  end.

Definition fsub (a b : fval) : fval :=
  match a, b with
  | Num x, Num y => Num (x - y)
  | _, _ => NaN
  end.

Definition fdiv (a b : fval) : fval :=
  match a, b with
  | Num x, Num y => if Qeq_bool y 0 then NaN else Num (x / y)
  | _, _ => NaN
  end.

(** Element-wise binary operation of two arrays; shapes must agree
    (broadcasting of length-one arrays is not modelled). *)
Fixpoint arr_zip (op : fval -> fval -> fval) (a b : list fval)
  : result (list fval) :=
  match a, b with
  | [], [] => Ok []
  | x :: a', y :: b' => r <- arr_zip op a' b' ;; Ok (op x y :: r)
  | _, _ => Raise (ValueError "operands could not be broadcast together")
  end.

(** [d[d == deletevalue] = np.nan] *)
Definition null_delete (deletevalue : Q) (d : list fval) : list fval :=
  map (fun v => if feqb v (Num deletevalue) then NaN else v) d.

(** [darray = outdata.astype(np.float32)] *)
Definition astype_float32 (d : list fval) : list fval := d.

(** ** The file backend

    A dfs file is its header (time axis, delete value, item list) and one
    row per time step holding one record (time, data) per item. *)

Record ItemData : Type := mkItemData { Time : Q; Data : list fval }.

Record TemporalAxis : Type := mkAxis {
  TimeAxisType : Z;
  StartDateTime : Q;
  StartTimeOffset : Q;
  TimeStep : Q;
  TimeSpan : Q
}.

Record DfsFile : Type := mkDfs {
  TimeAxis : TemporalAxis;
  DeleteValueFloat : Q;
  ItemInfo : list string;
  steps : list (list ItemData)
}.

Definition NumberOfTimeSteps (f : DfsFile) : nat := length (steps f).

(** [dfs.ReadItemTimeStep(itemNumber, timestep)], [itemNumber] 1-based. *)
Definition ReadItemTimeStep (f : DfsFile) (itemNumber timestep : Z)
  : result ItemData :=
  if (itemNumber <? 1) || (timestep <? 0) then Raise BackendError
  else match nth_error (steps f) (Z.to_nat timestep) with
       | None => Raise BackendError
       | Some row =>
           match nth_error row (Z.to_nat (itemNumber - 1)) with
           | None => Raise BackendError
           | Some d => Ok d
           end
       end.

(** Replace element [n] of a list; [None] when out of range. *)
Fixpoint list_set {A : Type} (l : list A) (n : nat) (x : A) : option (list A) :=
  match l, n with
  | [], _ => None
  | _ :: l', O => Some (x :: l')
  | y :: l', S n' =>
      match list_set l' n' x with
      | Some r => Some (y :: r)
      | None => None
      end
  end.

(** [dfs.WriteItemTimeStep(itemNumber, timestep, time, data)] on a file
    opened for editing: overwrites an existing record. *)
Definition WriteItemTimeStep (f : DfsFile) (itemNumber timestep : Z)
  (time : Q) (data : list fval) : result DfsFile :=
  if (itemNumber <? 1) || (timestep <? 0) then Raise BackendError
  else match nth_error (steps f) (Z.to_nat timestep) with
       | None => Raise BackendError
       | Some row =>
           match list_set row (Z.to_nat (itemNumber - 1)) (mkItemData time data) with
           | None => Raise BackendError
           | Some row' =>
               match list_set (steps f) (Z.to_nat timestep) row' with
               | None => Raise BackendError
               | Some st =>
                   Ok (mkDfs (TimeAxis f) (DeleteValueFloat f) (ItemInfo f) st)
               end
           end
       end.

Module Generic.

(** *** sum / diff *)

(** Body of the item loop of [sum]. *)
Definition sum_item (a b : DfsFile) (deletevalue : Q) (timestep : Z)
  (o : DfsFile) (item : Z) : result DfsFile :=
  itemdata_a <- ReadItemTimeStep a (item + 1) timestep ;;
  let d_a := Data itemdata_a in
  let d_a := null_delete deletevalue d_a in
  itemdata_b <- ReadItemTimeStep b (item + 1) timestep ;;
  let d_b := Data itemdata_b in
  let d_a := null_delete deletevalue d_a in
  let time := Time itemdata_a in
  outdata <- arr_zip fadd d_a d_b ;;
  let darray := astype_float32 outdata in
  WriteItemTimeStep o (item + 1) timestep time darray.

(** [sum(infilename_a, infilename_b, outfilename)]: the contents of the
    output file, which starts as a copy of file a. *)
Definition sum (a b : DfsFile) : result DfsFile :=
  let deletevalue := DeleteValueFloat a in
  let n_time_steps := NumberOfTimeSteps a in
  let n_items := length (ItemInfo a) in
  foldM (fun o timestep =>
           foldM (sum_item a b deletevalue timestep) (range n_items) o)
        (range n_time_steps) a.

(** Body of the item loop of [diff]. *)
Definition diff_item (a b : DfsFile) (deletevalue : Q) (timestep : Z)
  (o : DfsFile) (item : Z) : result DfsFile :=
  itemdata_a <- ReadItemTimeStep a (item + 1) timestep ;;
  let d_a := Data itemdata_a in
  let d_a := null_delete deletevalue d_a in
  itemdata_b <- ReadItemTimeStep b (item + 1) timestep ;;
  let d_b := Data itemdata_b in
  let d_b := null_delete deletevalue d_b in
  let time := Time itemdata_a in
  outdata <- arr_zip fsub d_a d_b ;;
  let darray := astype_float32 outdata in
  WriteItemTimeStep o (item + 1) timestep time darray.

(** [diff(infilename_a, infilename_b, outfilename)]. *)
Definition diff (a b : DfsFile) : result DfsFile :=
  let deletevalue := DeleteValueFloat a in
  let n_time_steps := NumberOfTimeSteps a in
  let n_items := length (ItemInfo a) in
  foldM (fun o timestep =>
           foldM (diff_item a b deletevalue timestep) (range n_items) o)
        (range n_time_steps) a.

(** *** Output files under construction *)

(** A file created by a builder and written sequentially: the completed
    rows are in [w_file]; [w_row] is the row being filled. *)
Record DfsWriter : Type := mkWriter { w_file : DfsFile; w_row : list ItemData }.

Definition append_step (f : DfsFile) (row : list ItemData) : DfsFile :=
  mkDfs (TimeAxis f) (DeleteValueFloat f) (ItemInfo f) (steps f ++ [row]).

(** [dfs.WriteItemTimeStepNext(time, data)]: the next record in file order. *)
Definition WriteItemTimeStepNext (w : DfsWriter) (time : Q) (data : list fval)
  : DfsWriter :=
  let row := w_row w ++ [mkItemData time data] in
  if (length row =? length (ItemInfo (w_file w)))%nat
  then mkWriter (append_step (w_file w) row) []
  else mkWriter (w_file w) row.

(** [dfs.WriteItemTimeStep(itemNumber, timestep, time, data)] on a file
    under construction: the addressed record must be the next one in file
    order, or one that is already in a completed row. *)
Definition WriteItemTimeStepAt (w : DfsWriter) (itemNumber timestep : Z)
  (time : Q) (data : list fval) : result DfsWriter :=
  if (timestep =? Z.of_nat (length (steps (w_file w))))
     && (itemNumber =? Z.of_nat (length (w_row w)) + 1)
  then Ok (WriteItemTimeStepNext w time data)
  else f' <- WriteItemTimeStep (w_file w) itemNumber timestep time data ;;
       Ok (mkWriter f' (w_row w)).

(** [dfs.Close()] of a file under construction. *)
Definition Close (w : DfsWriter) : DfsFile := w_file w.

(** Modelled from the spec: [dfsutil._valid_item_numbers] is not among the
    sources; [items=None] stands for all items of the original file (the
    docstring of [_clone]), a list of integers for the items it names, each
    of which must exist.  Selection by name is not modelled. *)
Definition _valid_item_numbers (info : list string) (items : option (list Z))
  : result (list Z) :=
  match items with
  | None => Ok (range (length info))
  | Some l =>
      if forallb (fun i => (0 <=? i) && (i <? Z.of_nat (length info))) l
      then Ok l
      else Raise (ValueError "item number out of range")
  end.

(** [source.ItemInfo[item]] *)
Definition item_info_at (info : list string) (item : Z) : result string :=
  if item <? 0 then Raise IndexError
  else match nth_error info (Z.to_nat item) with
       | Some x => Ok x
       | None => Raise IndexError
       end.

Fixpoint mapM {A B : Type} (f : A -> result B) (l : list A) : result (list B) :=
  match l with
  | [] => Ok []
  | x :: l' => y <- f x ;; r <- mapM f l' ;; Ok (y :: r)
  end.

(** [_clone(infilename, outfilename, start_time, items)] for [items] given
    as [None] or as a list of item numbers: the header of the source with
    the selected items, and no time step. *)
Definition _clone (source : DfsFile) (start_time : option Q)
  (items : option (list Z)) : result DfsWriter :=
  let fi := TimeAxis source in
  let time_axis :=
    match start_time with
    | Some t => mkAxis (TimeAxisType fi) t (StartTimeOffset fi)
                       (TimeStep fi) (TimeSpan fi)
    | None => fi
    end in
  (* isinstance(items, (list, tuple)) and isinstance(items[0], ItemInfo) *)
  match items with
  | Some [] => Raise IndexError
  | _ => Ok tt
  end ;;;
  item_numbers <- _valid_item_numbers (ItemInfo source) items ;;
  items' <- mapM (item_info_at (ItemInfo source)) item_numbers ;;
  Ok (mkWriter (mkDfs time_axis (DeleteValueFloat source) items' []) []).

(** *** concat *)

Definition Qlt_bool (x y : Q) : bool := negb (Qle_bool y x).








(** Every step of the file holds [n] records. *)
Definition conformant (n : nat) (f : DfsFile) : Prop :=
  Forall (fun row => length row = n) (steps f).





(** *** extract *)

(** The [start] and [end] arguments: a step (int), seconds (float), a
    string or a datetime.  A string is given by its comma-separated parts,
    each as [pd.to_datetime] reads it ([None]: it raises); a string of
    several parts is taken not to parse as one datetime. *)
Inductive bound : Type :=
| BInt (z : Z)
| BFloat (q : Q)
| BStr (parts : list (option Q))
| BDatetime (t : Q).

(** [int(x)]: truncation towards zero. *)
Definition py_int (x : Q) : Z := Z.quot (Qnum x) (Zpos (Qden x)).

(** What [_parse_start_end] returns. *)
Record start_end : Type := mkSE {
  file_start_new : option Q;
  start_step : Z;
  start_sec : Q;
  end_step : Z;
  end_sec : Q
}.

(** Lines 410-423 of [_parse_start_end]: the start argument by type; a
    string may also replace the end argument. *)
Definition parse_start (start end_ : bound)
  (file_start_datetime file_start_sec : Q) : result (Z * Q * bound) :=
  match start with
  | BInt z => Ok (z, file_start_sec, end_)
  | BFloat q => Ok (0, q, end_)
  | BStr parts =>
      match parts with
      | [] => Raise IndexError
      | p0 :: ps =>
          let end_ := match ps with [p1] => BStr [p1] | _ => end_ end in
          match p0 with
          | Some t => Ok (0, (t - file_start_datetime)%Q, end_)
          | None => Raise (ValueError "Unknown datetime string format")
          end
      end
  | BDatetime t => Ok (0, (t - file_start_datetime)%Q, end_)
  end.

(** Lines 425-436: the end argument by type. *)
Definition parse_end (end_ : bound) (n_time_steps : Z)
  (file_start_datetime file_end_sec : Q) : result (Z * Q) :=
  let end_step := n_time_steps in
  match end_ with
  | BInt e =>
      let e := if e <? 0 then end_step + e + 1 else e in
      Ok (e, file_end_sec)
  | BFloat q => Ok (end_step, q)
  | BStr [Some t] => Ok (end_step, (t - file_start_datetime)%Q)
  | BStr _ => Raise (ValueError "Unknown datetime string format")
  | BDatetime t => Ok (end_step, (t - file_start_datetime)%Q)
  end.

(** Lines 438-468: clamping, the order check and the new file start; the
    second component collects the warnings. *)
Definition clamp_start_end (axis : TemporalAxis) (n_time_steps : Z)
  (file_end_sec : Q) (start_step : Z) (start_sec : Q) (end_step : Z)
  (end_sec : Q) : result (start_end * list string) :=
  let file_start_datetime := StartDateTime axis in
  let file_start_sec := StartTimeOffset axis in
  let '(start_step, w1) :=
    if start_step <? 0
    then (0, ["start cannot be before start of file"%string])
    else (start_step, []) in
  let '(start_sec, w2) :=
    if Qlt_bool start_sec file_start_sec
    then (file_start_sec, ["start cannot be before start of file"%string])
    else (start_sec, []) in
  if Qlt_bool end_sec start_sec || (end_step <? start_step)
  then Raise (ValueError "end must be after start")
  else
    let '(end_step, w3) :=
      if n_time_steps <? end_step
      then (n_time_steps, ["end cannot be after end of file"%string])
      else (end_step, []) in
    let '(end_sec, w4) :=
      if Qlt_bool file_end_sec end_sec
      then (file_end_sec, ["end cannot be after end of file"%string])
      else (end_sec, []) in
    let warnings := w1 ++ w2 ++ w3 ++ w4 in
    if TimeAxisType axis =? 3 then
      let dt := TimeStep axis in
      if Qlt_bool file_start_sec start_sec && (start_step =? 0) then
        if Qeq_bool dt 0 then Raise ZeroDivisionError
        else
          let start_step := py_int ((start_sec - file_start_sec) / dt) in
          Ok (mkSE (Some (file_start_datetime + inject_Z start_step * dt)%Q)
                   start_step start_sec end_step end_sec, warnings)
      else
        Ok (mkSE (Some (file_start_datetime + inject_Z start_step * dt)%Q)
                 start_step start_sec end_step end_sec, warnings)
    else if TimeAxisType axis =? 4 then
      if Qlt_bool file_start_sec start_sec
      then Ok (mkSE (Some (file_start_datetime + start_sec)%Q)
                    start_step start_sec end_step end_sec, warnings)
      else Ok (mkSE None start_step start_sec end_step end_sec, warnings)
    else Ok (mkSE None start_step start_sec end_step end_sec, warnings).

(** [_parse_start_end(dfs_i, start, end)] *)
Definition _parse_start_end (dfs_i : DfsFile) (start end_ : bound)
  : result (start_end * list string) :=
  let axis := TimeAxis dfs_i in
  let n_time_steps := Z.of_nat (NumberOfTimeSteps dfs_i) in
  let file_start_datetime := StartDateTime axis in
  let file_start_sec := StartTimeOffset axis in
  timespan <-
    (if TimeAxisType axis =? 3
     then Ok (TimeStep axis * inject_Z (n_time_steps - 1))%Q
     else if TimeAxisType axis =? 4
     then Ok (TimeSpan axis)
     else Raise (ValueError "TimeAxisType not supported")) ;;
  let file_end_sec := (file_start_sec + timespan)%Q in
  '(start_step, start_sec, end_) <-
    parse_start start end_ file_start_datetime file_start_sec ;;
  '(end_step, end_sec) <-
    parse_end end_ n_time_steps file_start_datetime file_end_sec ;;
  clamp_start_end axis n_time_steps file_end_sec
                  start_step start_sec end_step end_sec.

(** The state of the loops of [extract]; [es_returned] records the early
    [return]. *)
Record extract_state : Type := mkES {
  es_out : DfsWriter;
  es_timestep_out : Z;
  es_returned : bool
}.

(** [enumerate(items)] *)
Definition enumerate (items : list Z) : list (Z * Z) :=
  combine (range (length items)) items.

(** Body of the item loop of [extract]. *)
Definition extract_item (dfs_i : DfsFile) (items0 : Z) (start_sec end_sec : Q)
  (file_start_shift : Q) (timestep : Z) (st : extract_state) (p : Z * Z)
  : result extract_state :=
  let '(item_out, item) := p in
  if es_returned st then Ok st
  else
    itemdata <- ReadItemTimeStep dfs_i (item + 1) timestep ;;
    let time_sec := Time itemdata in
    if Qlt_bool end_sec time_sec
    then Ok (mkES (es_out st) (es_timestep_out st) true)
    else if Qle_bool start_sec time_sec then
      let timestep_out :=
        if item =? items0 then es_timestep_out st + 1 else es_timestep_out st in
      let time_sec_out := (time_sec - file_start_shift)%Q in
      let outdata := Data itemdata in
      o <- WriteItemTimeStepAt (es_out st) (item_out + 1) timestep_out
                               time_sec_out outdata ;;
      Ok (mkES o timestep_out false)
    else Ok st.

(** [extract(infilename, outfilename, start, end, items)]: the output file
    and the warnings. *)
Definition extract (dfs_i : DfsFile) (start end_ : bound)
  (items : option (list Z)) : result (DfsFile * list string) :=
  '(se, warnings) <- _parse_start_end dfs_i start end_ ;;
  items <- _valid_item_numbers (ItemInfo dfs_i) items ;;
  dfs_o <- _clone dfs_i (file_start_new se) (Some items) ;;
  let file_start_shift :=
    match file_start_new se with
    | Some t => (t - StartDateTime (TimeAxis dfs_i))%Q
    | None => 0%Q
    end in
  let items0 := hd 0 items in
  st <- foldM (fun st timestep =>
                 foldM (extract_item dfs_i items0 (start_sec se) (end_sec se)
                                     file_start_shift timestep)
                       (enumerate items) st)
              (range_from (start_step se) (end_step se))
              (mkES dfs_o (-1) false) ;;
  Ok (Close (es_out st), warnings).

(** The record written by [extract] for a record read: the time is moved
    by [file_start_shift]. *)
Definition shift_record (file_start_shift : Q) (d : ItemData) : ItemData :=
  mkItemData (Time d - file_start_shift)%Q (Data d).

(** Two records with the same data and the same time, up to the
    representation of the rational. *)
Definition same_record (a b : ItemData) : Prop :=
  Qeq (Time a) (Time b) /\ Data a = Data b.

(** Two files with the same items, delete value, time axis and records. *)
Definition same_file (a b : DfsFile) : Prop :=
  ItemInfo a = ItemInfo b
  /\ DeleteValueFloat a = DeleteValueFloat b
  /\ TimeAxisType (TimeAxis a) = TimeAxisType (TimeAxis b)
  /\ Qeq (StartDateTime (TimeAxis a)) (StartDateTime (TimeAxis b))
  /\ StartTimeOffset (TimeAxis a) = StartTimeOffset (TimeAxis b)
  /\ TimeStep (TimeAxis a) = TimeStep (TimeAxis b)
  /\ TimeSpan (TimeAxis a) = TimeSpan (TimeAxis b)
  /\ Forall2 (Forall2 same_record) (steps a) (steps b).

(** The end of the file in seconds, as [_parse_start_end] computes it for
    the two supported axis types. *)
Definition file_end_sec (f : DfsFile) : Q :=
  let axis := TimeAxis f in
  (StartTimeOffset axis +
   (if TimeAxisType axis =? 3
    then TimeStep axis * inject_Z (Z.of_nat (NumberOfTimeSteps f) - 1)
    else TimeSpan axis))%Q.

(** A file as the backend delivers it: a supported time axis, at least one
    item and one time step, one record per item in every step, and record
    times between the start offset and the end of the file. *)
Definition well_formed (f : DfsFile) : Prop :=
  (TimeAxisType (TimeAxis f) = 3 \/ TimeAxisType (TimeAxis f) = 4)
  /\ ItemInfo f <> []
  /\ steps f <> []
  /\ Forall (fun row => length row = length (ItemInfo f)) (steps f)
  /\ Forall (Forall (fun d => (StartTimeOffset (TimeAxis f) <= Time d)%Q
                              /\ (Time d <= file_end_sec f)%Q))
            (steps f).

(** *** avg_time *)

(** [a[i]] for a Python list; [IndexError] out of range. *)
Definition list_get {A : Type} (l : list A) (i : Z) : result A :=
  if i <? 0 then Raise IndexError
  else match nth_error l (Z.to_nat i) with
       | Some x => Ok x
       | None => Raise IndexError
       end.

(** [a[i] = x] for a Python list. *)
Definition list_put {A : Type} (l : list A) (i : Z) (x : A) : result (list A) :=
  if i <? 0 then Raise IndexError
  else match list_set l (Z.to_nat i) x with
       | Some r => Ok r
       | None => Raise IndexError
       end.

(** [has_value = d != deletevalue] *)
Definition has_value_mask (deletevalue : Q) (d : list fval) : list bool :=
  map (fun v => fneb v (Num deletevalue)) d.

(** [out[mask] += d[mask]]; the mask must have the shape of both arrays. *)
Fixpoint masked_add (mask : list bool) (out d : list fval)
  : result (list fval) :=
  match mask, out, d with
  | [], [], [] => Ok []
  | m :: mask', o :: out', x :: d' =>
      r <- masked_add mask' out' d' ;;
      Ok ((if m then fadd o x else o) :: r)
  | _, _, _ => Raise IndexError
  end.

(** [steps[mask] += 1] *)
Fixpoint masked_incr (mask : list bool) (steps : list Z) : result (list Z) :=
  match mask, steps with
  | [], [] => Ok []
  | m :: mask', s :: steps' =>
      r <- masked_incr mask' steps' ;;
      Ok ((if m then s + 1 else s) :: r)
  | _, _ => Raise IndexError
  end.

(** The accumulators [outdatalist] and [steps_list]. *)
Record avg_acc : Type := mkAcc {
  outdatalist : list (list fval);
  steps_list : list (list Z)
}.

(** Body of the loop over the items at step 0. *)
Definition avg_step0 (dfs_i : DfsFile) (deletevalue : Q) (acc : avg_acc)
  (item : Z) : result avg_acc :=
  indatatime <- ReadItemTimeStep dfs_i (item + 1) 0 ;;
  let indata := Data indatatime in
  let has_value := has_value_mask deletevalue indata in
  (* indata[~has_value] = np.nan *)
  let indata :=
    map (fun p : bool * fval => if fst p then snd p else NaN)
        (combine has_value indata) in
  (* step0 = zeros_like(indata); step0[has_value] = 1 *)
  let step0 := map (fun h : bool => if h then 1 else 0) has_value in
  Ok (mkAcc (outdatalist acc ++ [indata]) (steps_list acc ++ [step0])).

(** Body of the item loop for the later time steps. *)
Definition avg_accumulate (dfs_i : DfsFile) (deletevalue : Q)
  (item_numbers : list Z) (timestep : Z) (acc : avg_acc) (item : Z)
  : result avg_acc :=
  item_number <- list_get item_numbers item ;;
  itemdata <- ReadItemTimeStep dfs_i (item_number + 1) timestep ;;
  let d := Data itemdata in
  let has_value := has_value_mask deletevalue d in
  out <- list_get (outdatalist acc) item ;;
  out' <- masked_add has_value out d ;;
  outdatalist' <- list_put (outdatalist acc) item out' ;;
  st <- list_get (steps_list acc) item ;;
  st' <- masked_incr has_value st ;;
  steps_list' <- list_put (steps_list acc) item st' ;;
  Ok (mkAcc outdatalist' steps_list').

(** Body of the final loop: the averaged array of one item. *)
Definition avg_item (deletevalue : Q) (n_time_steps : Z) (skipna : bool)
  (acc : avg_acc) (dfs_o : DfsWriter) (item : Z) : result DfsWriter :=
  out <- list_get (outdatalist acc) item ;;
  st <- list_get (steps_list acc) item ;;
  let darray :=
    map (fun p : fval * Z =>
           let has_value :=
             if skipna then snd p =? n_time_steps else 0 <? snd p in
           if has_value
           then fdiv (fst p) (Num (inject_Z (snd p)))
           else Num deletevalue)
        (combine out st) in
  Ok (WriteItemTimeStepNext dfs_o 0 darray).

(** [avg_time(infilename, outfilename, skipna)]: the output file. *)
Definition avg_time (dfs_i : DfsFile) (skipna : bool) : result DfsFile :=
  dfs_o <- _clone dfs_i None None ;;
  let n_items := length (ItemInfo dfs_i) in
  let item_numbers := range n_items in
  let n_time_steps := Z.of_nat (NumberOfTimeSteps dfs_i) in
  let deletevalue := DeleteValueFloat dfs_i in
  acc <- foldM (avg_step0 dfs_i deletevalue) item_numbers (mkAcc [] []) ;;
  acc <- foldM (fun acc timestep =>
                  foldM (avg_accumulate dfs_i deletevalue item_numbers timestep)
                        (range n_items) acc)
               (range_from 1 n_time_steps) acc ;;
  dfs_o <- foldM (avg_item deletevalue n_time_steps skipna acc)
                 (range n_items) dfs_o ;;
  Ok (Close dfs_o).

(** *** Example files *)

Definition axis_eq (start dt : Q) : TemporalAxis := mkAxis 3 start 0 dt 0.

(** A file with one item, one element per record, on an equidistant axis;
    the time of step [k] is [k * dt]. *)
Definition file1 (start dt deletevalue : Q) (vals : list fval) : DfsFile :=
  mkDfs (axis_eq start dt) deletevalue ["item"%string]
        (map (fun p : nat * fval =>
                [mkItemData (inject_Z (Z.of_nat (fst p)) * dt)%Q [snd p]])
             (combine (seq 0 (length vals)) vals)).

(** The data of a file, row by row, without the times. *)
Definition file_data (f : DfsFile) : list (list (list fval)) :=
  map (map Data) (steps f).

(** *** scale *)

Definition fmul (a b : fval) : fval :=
  match a, b with
  | Num x, Num y => Num (x * y)
  | _, _ => NaN
  end.

(** [outdata[np.isnan(outdata)] = deletevalue] *)
Definition fill_nan (deletevalue : Q) (d : list fval) : list fval :=
  map (fun v => match v with NaN => Num deletevalue | Num _ => v end) d.

(** Body of the item loop of [scale]; the file is read and written in
    place. *)
Definition scale_item (item_numbers : list Z) (deletevalue offset factor : Q)
  (timestep : Z) (dfs : DfsFile) (item : Z) : result DfsFile :=
  item_number <- list_get item_numbers item ;;
  itemdata <- ReadItemTimeStep dfs (item_number + 1) timestep ;;
  let time := Time itemdata in
  let d := Data itemdata in
  let d := null_delete deletevalue d in
  let outdata := map (fun v => fadd (fmul v (Num factor)) (Num offset)) d in
  let outdata := fill_nan deletevalue outdata in
  let darray := astype_float32 outdata in
  WriteItemTimeStep dfs (item_number + 1) timestep time darray.

(** [scale(infilename, outfilename, offset, factor, items)]: the contents
    of the output file, which starts as a copy of the input file. *)
Definition scale (infile : DfsFile) (offset factor : Q)
  (items : option (list Z)) : result DfsFile :=
  let dfs := infile in
  item_numbers <- _valid_item_numbers (ItemInfo dfs) items ;;
  let n_items := length item_numbers in
  let n_time_steps := NumberOfTimeSteps dfs in
  let deletevalue := DeleteValueFloat dfs in
  foldM (fun dfs timestep =>
           foldM (scale_item item_numbers deletevalue offset factor timestep)
                 (range n_items) dfs)
        (range n_time_steps) dfs.

(** *** Notions used to state file-level properties *)

(** Element-wise combination of two lists of the same length. *)
Fixpoint map2 {A B C : Type} (f : A -> B -> C) (l1 : list A) (l2 : list B)
  : list C :=
  match l1, l2 with
  | a :: l1', b :: l2' => f a b :: map2 f l1' l2'
  | _, _ => []
  end.

(** The record of item [j] (0-based) at step [t], if there is one. *)
Definition record_at {A : Type} (rows : list (list A)) (t j : nat) : option A :=
  match nth_error rows t with
  | Some row => nth_error row j
  | None => None
  end.

(** An element that is the delete value or NaN. *)
Definition no_data (deletevalue : Q) (v : fval) : bool :=
  match v with
  | NaN => true
  | Num x => Qeq_bool x deletevalue
  end.

(** Two files with as many steps, as many records per step and as many
    elements per record. *)
Definition same_shape (a b : DfsFile) : Prop :=
  Forall2 (Forall2 (fun da db => length (Data da) = length (Data db)))
          (steps a) (steps b).

(** What the loops of [avg_time] do to one element: [has_value] is the
    test [d != deletevalue]; the sum starts at step 0 with the value or
    NaN, the count with 1 or 0, and each later step that has a value is
    added and counted. *)
Definition has_value (deletevalue : Q) (v : fval) : bool :=
  fneb v (Num deletevalue).

Definition first_value (deletevalue : Q) (v : fval) : fval :=
  if has_value deletevalue v then v else NaN.

Definition first_count (deletevalue : Q) (v : fval) : Z :=
  if has_value deletevalue v then 1 else 0.

Definition add_value (deletevalue : Q) (s v : fval) : fval :=
  if has_value deletevalue v then fadd s v else s.

Definition count_value (deletevalue : Q) (c : Z) (v : fval) : Z :=
  if has_value deletevalue v then c + 1 else c.

(** Every step of the file holds, item by item, records with as many
    elements as the records of step 0. *)
Definition uniform (f : DfsFile) : Prop :=
  Forall (Forall2 (fun d0 d => length (Data d0) = length (Data d))
                  (hd [] (steps f)))
         (steps f).

(** *** quantile: the chunks of elements *)

(** The loop of [quantile] over the chunks, as far as the element ranges
    go: the pairs [(e1, e2)] of the [chunks] iterations still to run. *)
Fixpoint chunk_ranges (chunks : nat) (e1 chunk_size n_data : Z)
  : list (Z * Z) :=
  match chunks with
  | O => []
  | S chunks' =>
      let e2 := Z.min (e1 + chunk_size) n_data in
      (e1, e2) :: chunk_ranges chunks' e2 chunk_size n_data
  end.

(** The chunking of [quantile]: [n_chunks], [chunk_size] and the element
    range [e1:e2] of every chunk, for a file with [n_items] items of
    together [n_data] elements and [n_time_steps] steps.  Reading the
    data and [np.quantile] are not modelled. *)
Definition quantile_chunks (n_items n_data n_time_steps : Z) (buffer_size : Q)
  : result (Z * Z * list (Z * Z)) :=
  let mem_need := (8 * n_time_steps * n_data)%Z in
  n_chunks <- (if Qeq_bool buffer_size 0 then Raise ZeroDivisionError
               else Ok (Qceiling (inject_Z mem_need / buffer_size))) ;;
  n_data <- (if (n_items =? 0)%Z then Raise ZeroDivisionError
             else Ok (py_int (inject_Z n_data / inject_Z n_items))) ;;
  chunk_size <- (if (n_chunks =? 0)%Z then Raise ZeroDivisionError
                 else Ok (Qceiling (inject_Z n_data / inject_Z n_chunks))) ;;
  Ok (n_chunks, chunk_size,
      chunk_ranges (Z.to_nat n_chunks) 0 chunk_size n_data).

End Generic.

Module Grid.

Open Scope Q_scope.

(** *** numpy helpers *)

(** [np.diff(x)] *)
Fixpoint np_diff (x : list Q) : list Q :=
  match x with
  | a :: (b :: _) as t => (b - a) :: np_diff t
  | _ => []
  end.

Definition rtol : Q := 1 # 100000.
Definition atol : Q := 1 # 100000000.

(** [np.allclose(a, b)] for an array [a] and a scalar [b], with numpy's
    default tolerances: [|a - b| <= atol + rtol * |b|] element-wise. *)
Definition allclose (a : list Q) (b : Q) : bool :=
  forallb (fun v => Qle_bool (Qabs (v - b)) (atol + rtol * Qabs b)) a.

(** [np.any(d < 1)] *)
Definition any_lt_1 (d : list Q) : bool :=
  existsb (fun v => Generic.Qlt_bool v 1) d.

(** [a[i]] for a Python sequence: negative indices count from the end. *)
Definition py_index {A : Type} (l : list A) (i : Z) : result A :=
  let n := Z.of_nat (length l) in
  let j := if (i <? 0)%Z then (i + n)%Z else i in
  if ((j <? 0) || (n <=? j))%Z then Raise IndexError
  else match nth_error l (Z.to_nat j) with
       | Some v => Ok v
       | None => Raise IndexError
       end.

(** [a[idx]] for an index array. *)
Definition py_take {A : Type} (l : list A) (idx : list Z) : result (list A) :=
  Generic.mapM (py_index l) idx.

(** [np.linspace(start, stop, num)]; the last point is [stop] up to the
    representation of the rational. *)
Definition linspace (start stop : Q) (num : Z) : result (list Q) :=
  if (num <? 0)%Z
  then Raise (ValueError "Number of samples must be non-negative")
  else if (num =? 1)%Z then Ok [start]
  else
    let step := (stop - start) / inject_Z (num - 1) in
    Ok (map (fun i => start + inject_Z i * step) (range (Z.to_nat num))).

(** *** Doubles

    Where the result depends on it, the arithmetic of Python floats is
    modelled with its rounding: a float is the rational it stands for, and
    every operation returns the double nearest to the exact result. *)

(** [d * 2^k <= n] *)
Definition scaled_leb (d : positive) (k : Z) (n : positive) : bool :=
  if (0 <=? k)%Z then (Zpos d * 2 ^ k <=? Zpos n)%Z
  else (Zpos d <=? Zpos n * 2 ^ (- k))%Z.

(** The positive rational [n / d] rounded to [prec] significant bits, to
    nearest with ties to even, as IEEE 754 arithmetic rounds; the range of
    the exponent is taken as unbounded (neither overflow nor subnormal
    numbers). *)
Definition round_pos (prec : Z) (n d : positive) : Q :=
  let k := (Z.log2 (Zpos n) - Z.log2 (Zpos d))%Z in
  (* floor (log2 (n / d)) *)
  let lg := if scaled_leb d k n then k else (k - 1)%Z in
  (* the unit of the last of the [prec] bits is 2^e *)
  let e := (lg - (prec - 1))%Z in
  let N := (Zpos n * 2 ^ Z.max 0 (- e))%Z in
  let D := (Zpos d * 2 ^ Z.max 0 e)%Z in
  let m := (N / D)%Z in
  let r := (N mod D)%Z in
  let m := if ((D <? 2 * r) || ((2 * r =? D) && Z.odd m))%Z
           then (m + 1)%Z else m in
  if (0 <=? e)%Z then inject_Z (m * 2 ^ e)
  else Qred (Qmake m (Z.to_pos (2 ^ (- e)))).

Definition round_to (prec : Z) (q : Q) : Q :=
  match Qnum (Qred q) with
  | Z0 => 0
  | Zpos n => round_pos prec n (Qden (Qred q))
  | Zneg n => - round_pos prec n (Qden (Qred q))
  end.

(** The double (binary64) nearest to [q]. *)
Definition float64 (q : Q) : Q := round_to 53 q.

(** [a / b] for Python numbers. *)
Definition py_div (a b : Q) : result Q :=
  if Qeq_bool b 0 then Raise ZeroDivisionError else Ok (a / b).

(** [a / b] for Python floats: the rounded quotient. *)
Definition float_div (a b : Q) : result Q :=
  r <- py_div a b ;;
  Ok (float64 r).

(** [_check_equidistant(x)] *)
Definition _check_equidistant (x : list Q) : result unit :=
  let d := np_diff x in
  match d with
  | [] => Ok tt
  | d0 :: _ =>
      if negb (allclose d d0)
      then Raise (NotImplementedError "values must be equidistant")
      else Ok tt
  end.

(** [len(x) > 1 and x[0] > x[-1]] *)
Definition decreasing (x : list Q) : bool :=
  match x with
  | a :: _ :: _ => Generic.Qlt_bool (last x 0) a
  | _ => false
  end.

(** [x[1] - x[0] if len(x) > 1 else 1.0] *)
Definition spacing_of (x : list Q) : Q :=
  match x with
  | a :: b :: _ => b - a
  | _ => 1
  end.

(** *** Grid1D *)

Record Grid1D : Type := mkGrid1D {
  g1_x : list Q;
  g1_dx : Q;
  g1_projection : string;
  g1_origin : Q * Q;
  g1_orientation : Q;
  g1_nc : option (list (list Q));
  g1_axis_name : string
}.

(** [Grid1D.__init__] *)
Definition Grid1D_init (x : option (list Q)) (x0 : Q) (dx : option Q)
  (n : option Z) (projection : string) (origin : Q * Q) (orientation : Q)
  (node_coordinates : option (list (list Q))) (axis_name : string)
  : result Grid1D :=
  '(xs, dx') <-
    match x with
    | Some x =>
        _check_equidistant x ;;;
        if decreasing x then Raise (ValueError "x values must be increasing")
        else Ok (x, spacing_of x)
    | None =>
        match n with
        | None => Raise (ValueError "n must be provided")
        | Some n =>
            match dx with
            | None => Raise (ValueError "dx must be provided")
            | Some dx =>
                let x1 := x0 + dx * inject_Z (n - 1) in
                xs <- linspace x0 x1 n ;;
                Ok (xs, dx)
            end
        end
    end ;;
  match node_coordinates with
  | Some nc =>
      if negb (length nc =? length xs)%nat
      then Raise (ValueError "Length of node_coordinates must be n")
      else Ok tt
  | None => Ok tt
  end ;;;
  Ok (mkGrid1D xs dx' projection origin orientation node_coordinates axis_name).

(** *** Grid2D *)

Record Grid2D : Type := mkGrid2D {
  _x0 : Q;
  _dx : Q;
  _nx : Z;
  _y0 : Q;
  _dy : Q;
  _ny : Z;
  _projection : string
}.

(** The [dx] argument: a number, or a sequence. *)
Inductive spacing : Type :=
| Scalar (d : Q)
| Seq (l : list Q).

(** [_create_axis(x0, dx, nx)] *)
Definition _create_axis (x0 dx : Q) (nx : Z) : result (list Q) :=
  let x1 := x0 + dx * inject_Z (nx - 1) in
  linspace x0 x1 nx.

(** The properties [x] and [y]. *)
Definition x (g : Grid2D) : result (list Q) := _create_axis (_x0 g) (_dx g) (_nx g).
Definition y (g : Grid2D) : result (list Q) := _create_axis (_y0 g) (_dy g) (_ny g).

(** [int(np.ceil(v))] for a double [v]: no rounding, the result is an
    integer. *)
Definition ceil (v : Q) : Z := Qceiling v.

(** [_create_in_bbox(bbox, dxdy, shape)], in double arithmetic: the
    extents, the quotients, the products and the cell centres are each
    rounded. *)
Definition _create_in_bbox (projection : string) (bbox : list Q)
  (dxdy : option spacing) (shape : option (list (option Z)))
  : result Grid2D :=
  left <- py_index bbox 0 ;;
  bottom <- py_index bbox 1 ;;
  right <- py_index bbox 2 ;;
  top <- py_index bbox 3 ;;
  (if Generic.Qlt_bool right left
   then Raise (ValueError "Invalid x axis, left must be smaller than right")
   else Ok tt) ;;;
  (if Generic.Qlt_bool top bottom
   then Raise (ValueError "Invalid y axis, bottom must be smaller than top")
   else Ok tt) ;;;
  let xr := float64 (right - left) in
  let yr := float64 (top - bottom) in
  '(nx, ny, dx, dy) <-
    match dxdy, shape with
    | None, None =>
        '(nx, ny) <-
          (if Qle_bool xr yr
           then r <- float_div (float64 (10 * yr)) xr ;; Ok (10%Z, ceil r)
           else r <- float_div (float64 (10 * xr)) yr ;; Ok (ceil r, 10%Z)) ;;
        dx <- float_div xr (inject_Z nx) ;;
        dy <- float_div yr (inject_Z ny) ;;
        Ok (nx, ny, dx, dy)
    | _, Some shape =>
        match shape with
        | [nx; ny] =>
            match nx, ny with
            | None, None => Raise (ValueError "nx and ny cannot both be None")
            | _, _ =>
                nx <- match nx, ny with
                      | Some nx, _ => Ok nx
                      | None, Some ny =>
                          r <- float_div (float64 (inject_Z ny * xr)) yr ;;
                          Ok (ceil r)
                      | None, None => Raise TypeError
                      end ;;
                ny <- match ny with
                      | Some ny => Ok ny
                      | None =>
                          r <- float_div (float64 (inject_Z nx * yr)) xr ;;
                          Ok (ceil r)
                      end ;;
                dx <- float_div xr (inject_Z nx) ;;
                dy <- float_div yr (inject_Z ny) ;;
                Ok (nx, ny, dx, dy)
            end
        | _ => Raise (ValueError "shape must be (nx,ny)")
        end
    | Some dxdy, None =>
        '(dx, dy) <-
          match dxdy with
          | Scalar d => Ok (d, d)
          | Seq [dx; dy] => Ok (dx, dy)
          | Seq _ => Raise (ValueError "cannot unpack dxdy")
          end ;;
        rx <- float_div xr dx ;;
        ry <- float_div yr dy ;;
        Ok (ceil rx, ceil ry, dx, dy)
    end ;;
  Ok (mkGrid2D (float64 (left + float64 (dx / 2))) dx nx
               (float64 (bottom + float64 (dy / 2))) dy ny projection).

(** [x[0]] *)
Definition first (x : list Q) : result Q := py_index x 0.

(** [_create_from_x_and_y(x, y)] *)
Definition _create_from_x_and_y (projection : string) (x y : list Q)
  : result Grid2D :=
  _check_equidistant x ;;;
  _check_equidistant y ;;;
  (if decreasing x then Raise (ValueError "x values must be increasing")
   else Ok tt) ;;;
  (if decreasing y then Raise (ValueError "y values must be increasing")
   else Ok tt) ;;;
  x0 <- first x ;;
  y0 <- first y ;;
  Ok (mkGrid2D x0 (spacing_of x) (Z.of_nat (length x))
               y0 (spacing_of y) (Z.of_nat (length y)) projection).

(** [_create_from_nx_ny_dx_dy(x0, dx, nx, y0, dy, ny)]; a sequence given
    as [dx] cannot be multiplied with the axis length. *)
Definition _create_from_nx_ny_dx_dy (projection : string) (x0 : option Q)
  (dx : option spacing) (nx : option Z) (y0 : option Q) (dy : option Q)
  (ny : option Z) : result Grid2D :=
  nx <- match nx with
        | Some nx => Ok nx
        | None => Raise (ValueError "nx must be provided")
        end ;;
  dx <- match dx with
        | Some (Scalar d) => Ok d
        | Some (Seq _) => Raise TypeError
        | None => Raise (ValueError "dx must be provided")
        end ;;
  let x0 := match x0 with Some v => v | None => 0 end in
  _create_axis x0 dx nx ;;;
  ny <- match ny with
        | Some ny => Ok ny
        | None => Raise (ValueError "ny must be provided")
        end ;;
  let y0 := match y0 with Some v => v | None => 0 end in
  let dy := match dy with Some v => v | None => dx end in
  _create_axis y0 dy ny ;;;
  Ok (mkGrid2D x0 dx nx y0 dy ny projection).

(** [Grid2D.__init__] *)
Definition Grid2D_init (x y bbox : option (list Q)) (dx : option spacing)
  (dy : option Q) (shape : option (list (option Z))) (x0 y0 : option Q)
  (nx ny : option Z) (projection : string) : result Grid2D :=
  '(dx, dxdy) <-
    match dy with
    | Some dy =>
        dx <- match dx with
              | None => Raise TypeError
              | Some (Scalar d) => Ok d
              | Some (Seq l) => py_index l 0
              end ;;
        if Qle_bool dx 0 then Raise (ValueError "dx must be a positive number")
        else if Qle_bool dy 0
        then Raise (ValueError "dy must be a positive number")
        else Ok (Some (Scalar dx), Some (Seq [dx; dy]))
    | None => Ok (dx, dx)
    end ;;
  let '(bbox, x) :=
    match x with
    | Some l =>
        if (length l =? 4)%nat then
          match y, dxdy, shape with
          | Some _, None, None => (bbox, x)
          | _, _, _ => (x, bbox)
          end
        else (bbox, x)
    | None => (bbox, x)
    end in
  match bbox with
  | Some bbox => _create_in_bbox projection bbox dxdy shape
  | None =>
      match x, y with
      | Some x, Some y => _create_from_x_and_y projection x y
      | _, _ =>
          match nx, ny with
          | Some _, Some _ =>
              _create_from_nx_ny_dx_dy projection x0 dx nx y0 dy ny
          | _, _ =>
              Raise (ValueError
                "Please provide either bbox or both x and y, or x0, dx, nx, y0, dy, ny")
          end
      end
  end.

(** *** Geometries returned by selections *)

Inductive geometry : Type :=
| GeometryUndefined
| GeometryPoint2D (px py : Q)
| GeometryPoint3D (px py pz : Q)
| GGrid1D (g : Grid1D)
| GGrid2D (g : Grid2D).

(** An index: a Python integer, or an array of integers. *)
Inductive index : Type :=
| IScalar (i : Z)
| IArray (idx : list Z).

(** [np.any(d < 1) or not np.allclose(d, d[0])] for [d = np.diff(idx)];
    [d[0]] is evaluated only when no step is smaller than 1. *)
Definition not_equidistant (idx : list Z) : result bool :=
  let d := np_diff (map inject_Z idx) in
  if any_lt_1 d then Ok true
  else d0 <- py_index d 0 ;; Ok (negb (allclose d d0)).

(** [Grid2D.isel(idx, axis)], with the warnings it emits. *)
Definition isel (g : Grid2D) (idx : index) (axis : Z)
  : result (geometry * list string) :=
  match idx with
  | IArray idx =>
      undefined <- not_equidistant idx ;;
      if undefined then Ok (GeometryUndefined, [])
      else
        xs <- (if (axis =? 0)%Z then x g
               else (xs <- x g ;; py_take xs idx)) ;;
        ys <- (if (axis =? 1)%Z then y g
               else (ys <- y g ;; py_take ys idx)) ;;
        g' <- Grid2D_init (Some xs) (Some ys) None None None None None None
                          None None (_projection g) ;;
        Ok (GGrid2D g', [])
  | IScalar idx =>
      if (axis =? 0)%Z then
        xs <- x g ;;
        ys <- y g ;;
        yi <- py_index ys idx ;;
        (* nc = np.column_stack([self.x, self.y[idx] * np.ones_like(self.x)]) *)
        let nc := map (fun xv => [xv; yi * 1]) xs in
        g' <- Grid1D_init (Some xs) 0 None None (_projection g) (0, 0) 0
                          (Some nc) "x" ;;
        Ok (GGrid1D g', [])
      else
        xs <- x g ;;
        xi <- py_index xs idx ;;
        ys <- y g ;;
        (* nc = np.column_stack([self.x[idx] * np.ones_like(self.y), self.y]) *)
        let nc := map (fun yv => [xi * 1; yv]) ys in
        g' <- Grid1D_init (Some ys) 0 None None (_projection g) (0, 0) 0
                          (Some nc) "x" ;;
        Ok (GGrid1D g', [])
  end.

(** [Grid2D._index_to_geometry(ii, jj)], with the warnings it emits. *)
Definition _index_to_geometry (g : Grid2D) (ii jj : list Z)
  : result (geometry * list string) :=
  ui <- not_equidistant ii ;;
  undefined <- (if ui then Ok true else not_equidistant jj) ;;
  if undefined
  then Ok (GeometryUndefined,
           ["Axis not equidistant! Will return GeometryUndefined()"%string])
  else
    xs <- x g ;;
    xi <- py_take xs ii ;;
    xs <- x g ;;
    xj <- py_take xs jj ;;
    g' <- Grid2D_init (Some xi) (Some xj) None None None None None None
                      None None (_projection g) ;;
    Ok (GGrid2D g', []).

(** *** Grid3D *)

Record Grid3D : Type := mkGrid3D {
  g3_x : list Q;
  g3_y : list Q;
  g3_z : list Q;
  g3_projection : string;
  g3_origin : Q * Q;
  g3_orientation : Q
}.

(** [Grid3D._parse_axis(name, x, x0, dx, nx)] *)
Definition _parse_axis (name : string) (x : option (list Q)) (x0 : Q)
  (dx : option Q) (nx : option Z) : result (list Q) :=
  match x with
  | Some x =>
      _check_equidistant x ;;;
      if decreasing x then Raise (ValueError "{name} values must be increasing")
      else Ok x
  | None =>
      match nx with
      | None => Raise (ValueError "n must be provided")
      | Some nx =>
          match dx with
          | None => Raise (ValueError "d must be provided")
          | Some dx =>
              let x1 := x0 + dx * inject_Z (nx - 1) in
              linspace x0 x1 nx
          end
      end
  end.

(** [Grid3D.__init__] *)
Definition Grid3D_init (x : option (list Q)) (x0 : Q) (dx : option Q)
  (nx : option Z) (y : option (list Q)) (y0 : Q) (dy : option Q)
  (ny : option Z) (z : option (list Q)) (z0 : Q) (dz : option Q)
  (nz : option Z) (projection : string) (origin : Q * Q) (orientation : Q)
  : result Grid3D :=
  xs <- _parse_axis "x" x x0 dx nx ;;
  ys <- _parse_axis "y" y y0 dy ny ;;
  zs <- _parse_axis "z" z z0 dz nz ;;
  Ok (mkGrid3D xs ys zs projection origin orientation).

(** The properties [dx], [dy] and [dz] of a Grid3D. *)
Definition g3_dx (g : Grid3D) : Q := spacing_of (g3_x g).
Definition g3_dy (g : Grid3D) : Q := spacing_of (g3_y g).
Definition g3_dz (g : Grid3D) : Q := spacing_of (g3_z g).

(** *** Index arrays that are not equidistant *)

(** Two consecutive indices [a], [b] at position [k]. *)
Definition consecutive (idx : list Z) (k : nat) (a b : Z) : Prop :=
  nth_error idx k = Some a /\ nth_error idx (S k) = Some b.

(** The index array contains a step smaller than 1. *)
Definition has_step_below_1 (idx : list Z) : Prop :=
  exists k a b, consecutive idx k a b /\ (b - a < 1)%Z.

(** Some step of the index array is not close to the first step, in the
    sense of [np.allclose]. *)
Definition has_step_not_close (idx : list Z) : Prop :=
  exists a0 a1 k a b,
    consecutive idx 0 a0 a1 /\ consecutive idx k a b
    /\ atol + rtol * Qabs (inject_Z (a1 - a0))
       < Qabs (inject_Z (b - a) - inject_Z (a1 - a0)).

(** *** Example grids *)

Definition grid_5x4 : Grid2D := mkGrid2D 0 1 5 0 1 4 "LONG/LAT".

Definition grid_wide : Grid2D := mkGrid2D 0 1 200002 0 1 1 "LONG/LAT".

(** *** Nearest grid points *)




Record BoundingBox : Type := mkBoundingBox {
  left : Q;
  bottom : Q;
  right : Q;
  top : Q
}.

(** The properties [x1] and [y1]: [self.x[-1]] and [self.y[-1]]. *)
Definition x1 (g : Grid2D) : result Q := xs <- x g ;; py_index xs (-1).
Definition y1 (g : Grid2D) : result Q := ys <- y g ;; py_index ys (-1).

(** The property [bbox]. *)
Definition bbox (g : Grid2D) : result BoundingBox :=
  let left := _x0 g - _dx g / 2 in
  let bottom := _y0 g - _dy g / 2 in
  x1v <- x1 g ;;
  let right := x1v + _dx g / 2 in
  y1v <- y1 g ;;
  let top := y1v + _dy g / 2 in
  Ok (mkBoundingBox left bottom right top).

(** One row of [contains(xy)]: the test of one point against [bbox]. *)
Definition point_inside (b : BoundingBox) (p : Q * Q) : bool :=
  let xinside := Qle_bool (left b) (fst p) && Qle_bool (fst p) (right b) in
  let yinside := Qle_bool (bottom b) (snd p) && Qle_bool (snd p) (top b) in
  xinside && yinside.




(** *** Element table and nodes *)

(** [Grid2D._to_element_table(index_base)] *)
Definition _to_element_table (g : Grid2D) (index_base : Z) : list (list Z) :=
  flat_map
    (fun elx =>
       map (fun ely =>
              let n1 := (ely * _nx g + elx + index_base)%Z in
              let n2 := ((ely + 1) * _nx g + elx + index_base)%Z in
              [n1; (n1 + 1)%Z; (n2 + 1)%Z; n2])
           (range (Z.to_nat (_ny g - 1))))
    (range (Z.to_nat (_nx g - 1))).

(** [(a[1:] + a[:-1]) / 2]: the mid-points of neighbours. *)
Fixpoint midpoints (a : list Q) : list Q :=
  match a with
  | u :: (v :: _) as t => ((v + u) / 2) :: midpoints t
  | _ => []
  end.

(** [Grid2D._centers_to_nodes(x)] *)
Definition _centers_to_nodes (xc : list Q) : result (list Q) :=
  let xinner := midpoints xc in
  c0 <- py_index xc 0 ;;
  c1 <- py_index xc 1 ;;
  let left := c0 - (c1 - c0) / 2 in
  l1 <- py_index xc (-1) ;;
  l2 <- py_index xc (-2) ;;
  let right := l1 + (l1 - l2) / 2 in
  Ok (left :: xinner ++ [right]).

(** [Grid2D._nodes_to_centers(xn)] *)
Definition _nodes_to_centers (xn : list Q) : list Q := midpoints xn.

(** [min] and [max] of an array; [ValueError] when it is empty. *)
Definition np_min (a : list Q) : result Q :=
  match a with
  | [] => Raise (ValueError "zero-size array to reduction operation minimum")
  | v :: a' => Ok (fold_left (fun m u => if Generic.Qlt_bool u m then u else m) a' v)
  end.

Definition np_max (a : list Q) : result Q :=
  match a with
  | [] => Raise (ValueError "zero-size array to reduction operation maximum")
  | v :: a' => Ok (fold_left (fun m u => if Generic.Qlt_bool m u then u else m) a' v)
  end.

(** [Grid2D.xy_to_bbox(xy, buffer)] *)
Definition xy_to_bbox (xy : list (Q * Q)) (buffer : option Q)
  : result BoundingBox :=
  let buffer := match buffer with Some b => b | None => 0 end in
  l <- np_min (map fst xy) ;;
  b <- np_min (map snd xy) ;;
  r <- np_max (map fst xy) ;;
  t <- np_max (map snd xy) ;;
  Ok (mkBoundingBox (l - buffer) (b - buffer) (r + buffer) (t + buffer)).

(** *** Node coordinates and mesh export *)

(** The property [xy]: the rows of [np.meshgrid(x, y)], one per grid
    point, the x index running fastest. *)
Definition xy (g : Grid2D) : result (list (Q * Q)) :=
  xs <- x g ;;
  ys <- y g ;;
  Ok (flat_map (fun yv => map (fun xv => (xv, yv)) xs) ys).

(** The property [n]. *)
Definition n (g : Grid2D) : Z := (_nx g * _ny g)%Z.

(** The node based grid [gn] of [get_node_coordinates] and [to_mesh]. *)
Definition node_grid (g : Grid2D) : result Grid2D :=
  xs <- x g ;;
  xn <- _centers_to_nodes xs ;;
  ys <- y g ;;
  yn <- _centers_to_nodes ys ;;
  Grid2D_init (Some xn) (Some yn) None None None None None None None None
              "LONG/LAT".

(** [Grid2D.get_node_coordinates()] *)
Definition get_node_coordinates (g : Grid2D) : result (list (Q * Q)) :=
  gn <- node_grid g ;;
  xy gn.

(** The argument [z] of [to_mesh]. *)
Inductive z_arg : Type :=
| ZNone
| ZScalar (z : Q)
| ZArray (z : list Q).

(** What [to_mesh] hands to the mesh builder. *)
Record MeshInput : Type := mkMeshInput {
  m_x : list Q;
  m_y : list Q;
  m_z : list Q;
  m_codes : list Z;
  m_elem_table : list (list Z);
  m_projection : string
}.

(** The code of one node after the five masked assignments of [to_mesh]. *)
Definition node_code (b : BoundingBox) (p : Q * Q) : Z :=
  let c := 0%Z in
  let c := if Qeq_bool (snd p) (top b) then 5%Z else c in
  let c := if Qeq_bool (fst p) (right b) then 4%Z else c in
  let c := if Qeq_bool (snd p) (bottom b) then 3%Z else c in
  let c := if Qeq_bool (fst p) (left b) then 2%Z else c in
  if Qeq_bool (snd p) (top b) && Qeq_bool (fst p) (left b) then 5%Z else c.

(** [Grid2D.to_mesh(outfilename, projection, z)] up to the calls on the
    mesh builder. *)
Definition to_mesh (g : Grid2D) (projection : option string) (z : z_arg)
  : result MeshInput :=
  let projection :=
    match projection with Some p => p | None => "LONG/LAT"%string end in
  gn <- node_grid g ;;
  gxy <- xy gn ;;
  let xv := map fst gxy in
  let yv := map snd gxy in
  z <- match z with
       | ZNone => Ok (repeat 0 (Z.to_nat (n gn)))
       | ZScalar z => Ok (repeat (z * 1) (Z.to_nat (n gn)))
       | ZArray z =>
           if negb (Z.of_nat (length z) =? n gn)%Z
           then Raise (ValueError
                  "z must either be scalar or have length of nodes ((nx+1)*(ny+1))")
           else Ok z
       end ;;
  b <- bbox gn ;;
  let codes := map (node_code b) gxy in
  let elem_table := _to_element_table gn 1 in
  Ok (mkMeshInput xv yv z codes elem_table projection).

End Grid.

Module Dfsu.

(** The [elements] argument of [read]: one element id or a collection. *)
Inductive elements_arg : Type :=
| EScalar (e : Z)
| EList (l : list Z).

(** [[elements] if np.isscalar(elements) else list(elements)] *)
Definition elements_list (e : elements_arg) : list Z :=
  match e with
  | EScalar e => [e]
  | EList l => l
  end.

(** [len(elements)] of what the geometry returned. *)
Definition elements_len (e : elements_arg) : result nat :=
  match e with
  | EScalar _ => Raise TypeError
  | EList l => Ok (length l)
  end.

(** What [_read] returns: the data of every item (one array per selected
    step), the shape of each item's block, the selected steps, the items,
    the geometry and the names of the dimensions. *)
Record Dataset (Geometry : Type) : Type := mkDataset {
  ds_data : list (list (list fval));
  ds_shape : list nat;
  ds_time : list Z;
  ds_items : list Z;
  ds_geometry : Geometry;
  ds_dims : list string
}.

Arguments mkDataset {Geometry}.
Arguments ds_data {Geometry}.
Arguments ds_shape {Geometry}.
Arguments ds_time {Geometry}.
Arguments ds_items {Geometry}.
Arguments ds_geometry {Geometry}.
Arguments ds_dims {Geometry}.

Section Read.

(** The flexible-mesh geometry of the file and its methods are not part
    of the sources read here; they are parameters of [_read]. *)
Variable Geometry : Type.
Variable Area : Type.
Variable Coord : Type.

(** [self.geometry] and [geometry.n_elements] *)
Variable self_geometry : Geometry.
Variable n_elements : Geometry -> nat.
(** [geometry._elements_in_area(area)] ([None] stands for Python's None) *)
Variable _elements_in_area : Area -> result (option elements_arg).
(** [geometry.find_index(x=x, y=y)] *)
Variable find_index : option Coord -> option Coord -> result (option elements_arg).
(** [geometry.elements_to_geometry(elements)] *)
Variable elements_to_geometry : list Z -> result Geometry.
(** [_read_item_time_step(..., item, it, ...)]: one record of the file,
    or the exception raised for corrupt data. *)
Variable _read_item_time_step : Z -> Z -> result (list fval).

(** [_validate_elements_and_geometry_sel(elements, area=, x=, y=)] *)
Definition _validate_elements_and_geometry_sel
  (elements : option elements_arg) (area : option Area)
  (x y : option Coord) : result unit :=
  let used_kwargs :=
    (match area with Some _ => ["area"%string] | None => [] end)
    ++ (match x with Some _ => ["x"%string] | None => [] end)
    ++ (match y with Some _ => ["y"%string] | None => [] end) in
  (match elements, used_kwargs with
   | Some _, kw :: _ =>
       Raise (ValueError ("Cannot select both " ++ kw ++ " and elements!"))
   | _, _ => Ok tt
   end) ;;;
  if existsb (String.eqb "area") used_kwargs
     && (existsb (String.eqb "x") used_kwargs
         || existsb (String.eqb "y") used_kwargs)
  then Raise (ValueError "Cannot select both x,y and area!")
  else Ok tt.

(** [_parse_geometry_sel(area, x, y)] *)
Definition _parse_geometry_sel (area : option Area) (x y : option Coord)
  : result (option elements_arg) :=
  let elements : option elements_arg := None in
  elements <- match area with
              | Some a => _elements_in_area a
              | None => Ok elements
              end ;;
  elements <- match x, y with
              | None, None => Ok elements
              | _, _ => find_index x y
              end ;;
  match x, y, area with
  | None, None, None => Ok elements
  | _, _, _ =>
      (* selection was attempted *)
      match elements with
      | None => Raise (ValueError "No elements in selection!")
      | Some e =>
          n <- elements_len e ;;
          if (n =? 0)%nat then Raise (ValueError "No elements in selection!")
          else Ok elements
      end
  end.

(** The loop of [_read] over the selected steps and items: the arrays
    read, per item, and the number of records read from the file. *)
Fixpoint read_steps (elements : option (list Z)) (item_numbers : list Z)
  (time_steps : list Z) (count : nat)
  : result (list (list (list fval))) * nat :=
  match time_steps with
  | [] => (Ok (map (fun _ => []) item_numbers), count)
  | it :: rest =>
      let row :=
        Generic.mapM (fun item =>
                d <- _read_item_time_step item it ;;
                match elements with
                | Some el => Grid.py_take d el
                | None => Ok d
                end) item_numbers in
      match row with
      | Raise e => (Raise e, (count + 1)%nat)
      | Ok row =>
          let '(r, c) := read_steps elements item_numbers rest
                                    (count + length item_numbers)%nat in
          (data <- r ;;
           Ok (map (fun p : list fval * list (list fval) => fst p :: snd p)
                   (combine row data)), c)
      end
  end.

(** [_Dfsu._read]; [dtype_ok] tells whether [dtype] is float32 or
    float64, [valid_timesteps] and [valid_items] are the outcomes of
    [_valid_timesteps(dfs, time)] and [_valid_item_numbers(...)].  The
    second component counts the records read from the file. *)
Definition _read (dtype_ok : bool)
  (valid_timesteps : result (bool * list Z))
  (valid_items : result (list Z))
  (elements : option elements_arg) (area : option Area)
  (x y : option Coord) (keepdims : bool)
  : result (Dataset Geometry) * nat :=
  let before_loop :=
    (if negb dtype_ok
     then Raise (ValueError "Invalid data type. Choose np.float32 or np.float64")
     else Ok tt) ;;;
    '(single_time_selected, time_steps) <- valid_timesteps ;;
    _validate_elements_and_geometry_sel elements area x y ;;;
    elements <- match elements with
                | None => _parse_geometry_sel area x y
                | Some _ => Ok elements
                end ;;
    '(geometry, n_elems, elements) <-
      match elements with
      | None => Ok (self_geometry, n_elements self_geometry, None)
      | Some e =>
          let l := elements_list e in
          g <- elements_to_geometry l ;;
          Ok (g, length l, Some l)
      end ;;
    item_numbers <- valid_items ;;
    Ok (single_time_selected, time_steps, geometry, n_elems, elements,
        item_numbers) in
  match before_loop with
  | Raise e => (Raise e, O)
  | Ok (single_time_selected, time_steps, geometry, n_elems, elements,
        item_numbers) =>
      let n_steps := length time_steps in
      let squeeze_time := single_time_selected && negb keepdims in
      let shape := if squeeze_time then [n_elems] else [n_steps; n_elems] in
      let '(data, count) := read_steps elements item_numbers time_steps O in
      (data_list <- data ;;
       let dims :=
         if squeeze_time then ["element"%string]
         else ["time"%string; "element"%string] in
       let one_element :=
         match elements with
         | Some [_] => true
         | _ => false
         end in
       let dims :=
         if one_element
         then filter (fun d => negb (String.eqb d "element")) dims
         else dims in
       let shape := if one_element then removelast shape else shape in
       Ok (mkDataset data_list shape time_steps item_numbers geometry dims),
       count)
  end.

End Read.

(** More than one of elements, area and (x, y) is given. *)
Definition several_selectors {Area Coord : Type}
  (elements : option elements_arg) (area : option Area)
  (x y : option Coord) : Prop :=
  (elements <> None /\ (area <> None \/ x <> None \/ y <> None))
  \/ (area <> None /\ (x <> None \/ y <> None)).

End Dfsu.

(** ** Concrete inputs used below *)

Module Examples.

Open Scope Q_scope.

Definition deletevalue : Q := -999.

(** One step, one item, one element: a value in file a, the delete value
    in file b. *)
Definition sum_a : DfsFile := Generic.file1 0 1 deletevalue [Num 1].
Definition sum_b : DfsFile := Generic.file1 0 1 deletevalue [Num deletevalue].

(** Two steps; the element is deleted at step 0 and 5 at step 1. *)
Definition avg_in : DfsFile :=
  Generic.file1 0 1 deletevalue [Num deletevalue; Num 5].

(** Three steps, one item with two elements; the second element is
    deleted at step 2 (the middle one). *)
Definition avg_three : DfsFile :=
  mkDfs (Generic.axis_eq 0 1) deletevalue ["item"%string]
        [[mkItemData 0 [Num 1; Num 4]];
         [mkItemData 1 [Num 2; Num deletevalue]];
         [mkItemData 2 [Num 6; Num 5]]].

(** Ten steps of one second, one item, one element. *)
Definition ten_steps : DfsFile :=
  Generic.file1 0 1 deletevalue
    [Num 0; Num 1; Num 2; Num 3; Num 4; Num 5; Num 6; Num 7; Num 8; Num 9].




End Examples.

(** * Properties *)

Import Generic Grid.

(** ** sum and diff *)

(** Where either operand of [diff] holds the delete value, the combined
    array holds NaN. *)
Lemma diff_arrays_null_delete (dv : Q) (d_a d_b out : list fval) :
  arr_zip fsub (null_delete dv d_a) (null_delete dv d_b) = Ok out ->
  forall (k : nat) (va vb : fval),
    nth_error d_a k = Some va -> nth_error d_b k = Some vb ->
    feqb va (Num dv) = true \/ feqb vb (Num dv) = true ->
    nth_error out k = Some NaN.
Proof.
  revert d_b out.
  induction d_a as [|a d_a IH]; intros [|b d_b] out H k va vb Ha Hb Hdel;
    simpl in H; try discriminate.
  - destruct k; discriminate.
  - destruct (arr_zip fsub (null_delete dv d_a) (null_delete dv d_b))
      as [r|e] eqn:Hr; simpl in H; [|discriminate].
    injection H as <-.
    destruct k as [|k]; simpl in Ha, Hb |- *.
    + injection Ha as ->. injection Hb as ->.
      destruct Hdel as [Hd|Hd]; rewrite Hd; simpl.
      * reflexivity.
      * destruct (if feqb va (Num dv) then NaN else va); reflexivity.
    + eapply IH; eauto.
Qed.

(** C1, the defect in [sum]: file a holds 1 and file b the delete value
    -999 at the same element; [sum] writes their arithmetic sum -998
    instead of NaN, because the delete values of b are never nulled. *)
Lemma sum_combines_delete_value_of_b :
  exists out,
    sum Examples.sum_a Examples.sum_b = Ok out /\
    file_data out = [[[Num (-998)]]].
Proof. eexists. split; vm_compute; reflexivity. Qed.

(** On the same input [diff] writes NaN. *)
Lemma diff_nulls_delete_value_of_b :
  exists out,
    diff Examples.sum_a Examples.sum_b = Ok out /\
    file_data out = [[[NaN]]].
Proof. eexists. split; vm_compute; reflexivity. Qed.

(** ** avg_time *)

(** C3, the defect in [avg_time]: with skipna=False an element deleted at
    step 0 and valid (5) at step 1 gets NaN, not the mean 5 of its valid
    steps and not the delete value: the NaN stored at step 0 absorbs every
    later addition. *)
Lemma avg_time_delete_at_step0_gives_nan :
  exists out,
    avg_time Examples.avg_in false = Ok out /\
    file_data out = [[[NaN]]].
Proof. eexists. split; vm_compute; reflexivity. Qed.

(** The scenario with skipna=True: three steps, the second element deleted
    at the middle step; it gets the delete value, the first element its
    mean (1 + 2 + 6) / 3. *)
Lemma avg_time_skipna_scenario :
  exists out m,
    avg_time Examples.avg_three true = Ok out /\
    file_data out = [[[Num m; Num Examples.deletevalue]]] /\
    Qeq m 3.
Proof. eexists. eexists. split; [|split]; vm_compute; reflexivity. Qed.

(** ** Axes given by a single value *)

Lemma first_cons (a : Q) (l : list Q) : first (a :: l) = Ok a.
Proof.
  unfold first, py_index.
  change (0 <? 0)%Z with false. cbv iota.
  replace ((0 <? 0)%Z || (Z.of_nat (length (a :: l)) <=? 0)%Z) with false.
  - reflexivity.
  - symmetry. apply orb_false_iff. split; [reflexivity|].
    apply Z.leb_gt. simpl length. lia.
Qed.

(** What [_create_from_x_and_y] builds from two accepted axes. *)
Lemma create_from_x_and_y_accepted (proj : string) (xs ys : list Q)
  (a b : Q) (xs' ys' : list Q) :
  xs = a :: xs' -> ys = b :: ys' ->
  _check_equidistant xs = Ok tt -> decreasing xs = false ->
  _check_equidistant ys = Ok tt -> decreasing ys = false ->
  _create_from_x_and_y proj xs ys =
  Ok (mkGrid2D a (spacing_of xs) (Z.of_nat (length xs))
               b (spacing_of ys) (Z.of_nat (length ys)) proj).
Proof.
  intros -> -> Hex Hdx Hey Hdy.
  unfold _create_from_x_and_y.
  rewrite Hex, Hey, Hdx, Hdy. cbn [bind].
  rewrite !first_cons. reflexivity.
Qed.

(** C10: an axis given by exactly one coordinate is accepted and has
    spacing 1.  For Grid2D and Grid3D the other axes [ys] and [zs] must be
    acceptable on their own: equidistant, not decreasing, and not empty. *)
Theorem single_value_axis_has_spacing_one (v : Q) (ys zs : list Q)
  (proj name : string) (origin : Q * Q) (orientation : Q) :
  _check_equidistant ys = Ok tt -> decreasing ys = false -> ys <> [] ->
  _check_equidistant zs = Ok tt -> decreasing zs = false -> zs <> [] ->
  (exists g, Grid1D_init (Some [v]) 0 None None proj origin orientation
                         None name = Ok g
             /\ g1_dx g = 1%Q /\ g1_x g = [v])
  /\ (exists g, Grid2D_init (Some [v]) (Some ys) None None None None None
                            None None None proj = Ok g
                /\ _dx g = 1%Q /\ _nx g = 1%Z /\ _x0 g = v)
  /\ (exists g, Grid2D_init (Some ys) (Some [v]) None None None None None
                            None None None proj = Ok g
                /\ _dy g = 1%Q /\ _ny g = 1%Z /\ _y0 g = v)
  /\ (exists g, Grid3D_init (Some [v]) 0 None None (Some ys) 0 None None
                            (Some zs) 0 None None proj origin orientation
                = Ok g
                /\ g3_dx g = 1%Q /\ g3_x g = [v])
  /\ (exists g, Grid3D_init (Some ys) 0 None None (Some [v]) 0 None None
                            (Some zs) 0 None None proj origin orientation
                = Ok g
                /\ g3_dy g = 1%Q /\ g3_y g = [v])
  /\ (exists g, Grid3D_init (Some ys) 0 None None (Some zs) 0 None None
                            (Some [v]) 0 None None proj origin orientation
                = Ok g
                /\ g3_dz g = 1%Q /\ g3_z g = [v]).
Proof.
  intros Hey Hdy Hny Hez Hdz Hnz.
  destruct ys as [|b ys']; [contradiction Hny; reflexivity|].
  split; [|split; [|split; [|split; [|split]]]].
  - eexists. split; [reflexivity|]. split; reflexivity.
  - eexists. split.
    + unfold Grid2D_init. simpl.
      apply (create_from_x_and_y_accepted proj [v] (b :: ys') v b [] ys');
        auto.
    + repeat split; reflexivity.
  - eexists. split.
    + unfold Grid2D_init. cbn [bind].
      destruct (length (b :: ys') =? 4)%nat;
        apply (create_from_x_and_y_accepted proj (b :: ys') [v] b v ys' []);
        auto.
    + repeat split; reflexivity.
  - eexists. split.
    + unfold Grid3D_init, _parse_axis.
      rewrite Hey, Hez, Hdy, Hdz. reflexivity.
    + split; reflexivity.
  - eexists. split.
    + unfold Grid3D_init, _parse_axis.
      rewrite Hey, Hez, Hdy, Hdz. reflexivity.
    + split; reflexivity.
  - eexists. split.
    + unfold Grid3D_init, _parse_axis.
      rewrite Hey, Hez, Hdy, Hdz. reflexivity.
    + split; reflexivity.
Qed.

(** The theorem at [v = 7], [ys = [0; 1; 2]] and [zs = [5]]. *)
Lemma single_value_axis_has_spacing_one_witness :
  exists g, Grid2D_init (Some [7]%Q) (Some [0; 1; 2]%Q) None None None None
                        None None None None "LONG/LAT" = Ok g
            /\ _dx g = 1%Q /\ _nx g = 1%Z /\ _x0 g = 7%Q.
Proof.
  apply (single_value_axis_has_spacing_one 7 [0; 1; 2]%Q [5]%Q "LONG/LAT" "x"
           (0, 0)%Q 0%Q);
    try reflexivity; discriminate.
Defined.

(** ** Grid2D in a bounding box *)

Lemma Qlt_bool_false (a b : Q) : (b <= a)%Q -> Qlt_bool a b = false.
Proof.
  intros H. unfold Qlt_bool. apply negb_false_iff. apply Qle_bool_iff. exact H.
Qed.

Lemma Qlt_bool_true (a b : Q) : (a < b)%Q -> Qlt_bool a b = true.
Proof.
  intros H. unfold Qlt_bool. apply negb_true_iff.
  destruct (Qle_bool b a) eqn:E; [|reflexivity].
  apply Qle_bool_iff in E. exfalso. apply (Qlt_irrefl a).
  eapply Qlt_le_trans; eauto.
Qed.

Lemma py_div_nonzero (a b : Q) : ~ (b == 0)%Q -> py_div a b = Ok (a / b)%Q.
Proof.
  intros H. unfold py_div.
  destruct (Qeq_bool b 0) eqn:E; [|reflexivity].
  apply Qeq_bool_iff in E. contradiction.
Qed.



Lemma float_div_nonzero (a b : Q) :
  ~ (b == 0)%Q -> float_div a b = Ok (float64 (a / b)).
Proof.
  intros Hb. unfold float_div. rewrite (py_div_nonzero a b Hb). reflexivity.
Qed.

(** The grid [_create_in_bbox] builds for a scalar spacing. *)
Lemma create_in_bbox_scalar (left bottom right top d : Q) (proj : string) :
  (left <= right)%Q -> (bottom <= top)%Q -> ~ (d == 0)%Q ->
  _create_in_bbox proj [left; bottom; right; top] (Some (Scalar d)) None
  = Ok (mkGrid2D (float64 (left + float64 (d / 2))) d
                 (ceil (float64 (float64 (right - left) / d)))
                 (float64 (bottom + float64 (d / 2))) d
                 (ceil (float64 (float64 (top - bottom) / d))) proj).
Proof.
  intros Hx Hy Hd.
  unfold _create_in_bbox. cbn [bind].
  change (py_index [left; bottom; right; top] 0) with (Ok left).
  change (py_index [left; bottom; right; top] 1) with (Ok bottom).
  change (py_index [left; bottom; right; top] 2) with (Ok right).
  change (py_index [left; bottom; right; top] 3) with (Ok top).
  cbn [bind].
  rewrite (Qlt_bool_false right left Hx), (Qlt_bool_false top bottom Hy).
  cbn [bind].
  rewrite !(float_div_nonzero _ d Hd). cbn [bind]. reflexivity.
Qed.






(** ** The first positional argument of Grid2D *)

(** C9: a first positional argument [l] of length 4 is taken for the
    bounding box when [y] is omitted or a spacing or a shape is given.
    Whatever was passed as [bbox], the call builds what the call with
    [bbox=l] builds; that is the grid [_create_in_bbox] makes in the box
    [l], for a scalar spacing the grid with its first cell centre half a
    cell from (l[0], l[1]) and [ceil] of extent over spacing cells per
    axis.  [Grid2D([0,0,10,20], dx=2)] is the grid with nx=5, ny=10 and
    first cell centre (1, 1), where the four values read as x-coordinates
    are refused for every [y], not being equidistant.  With [y] given and
    neither spacing nor shape nor [bbox], [l] is read as x-coordinates. *)
Theorem Grid2D_first_argument_taken_as_bbox :
  (forall (l : list Q) (y bbox : option (list Q)) (dx : option spacing)
          (dy : option Q) (shape : option (list (option Z)))
          (x0 y0 : option Q) (nx ny : option Z) (projection : string),
      length l = 4%nat ->
      y = None \/ dx <> None \/ dy <> None \/ shape <> None ->
      Grid2D_init (Some l) y bbox dx dy shape x0 y0 nx ny projection =
      Grid2D_init None y (Some l) dx dy shape x0 y0 nx ny projection)
  /\ (forall (l : list Q) (y bbox : option (list Q)) (dx : option spacing)
             (shape : option (list (option Z)))
             (x0 y0 : option Q) (nx ny : option Z) (projection : string),
        length l = 4%nat ->
        y = None \/ dx <> None \/ shape <> None ->
        Grid2D_init (Some l) y bbox dx None shape x0 y0 nx ny projection =
        _create_in_bbox projection l dx shape)
  /\ (forall (l : list Q) (y bbox : option (list Q)) (d dyv : Q)
             (shape : option (list (option Z)))
             (x0 y0 : option Q) (nx ny : option Z) (projection : string),
        length l = 4%nat -> (0 < d)%Q -> (0 < dyv)%Q ->
        Grid2D_init (Some l) y bbox (Some (Scalar d)) (Some dyv) shape
                    x0 y0 nx ny projection =
        _create_in_bbox projection l (Some (Seq [d; dyv])) shape)
  /\ (forall (left bottom right top d : Q) (y bbox : option (list Q))
             (x0 y0 : option Q) (nx ny : option Z) (projection : string),
        (left <= right)%Q -> (bottom <= top)%Q -> ~ (d == 0)%Q ->
        Grid2D_init (Some [left; bottom; right; top]) y bbox
                    (Some (Scalar d)) None None x0 y0 nx ny projection =
        Ok (mkGrid2D (float64 (left + float64 (d / 2))) d
                     (Qceiling (float64 (float64 (right - left) / d)))
                     (float64 (bottom + float64 (d / 2))) d
                     (Qceiling (float64 (float64 (top - bottom) / d)))
                     projection))
  /\ ((exists g,
         Grid2D_init (Some [0; 0; 10; 20]%Q) None None (Some (Scalar 2))
                     None None None None None None "LONG/LAT" = Ok g
         /\ Grid2D_init None None (Some [0; 0; 10; 20]%Q) (Some (Scalar 2))
                        None None None None None None "LONG/LAT" = Ok g
         /\ _nx g = 5%Z /\ _ny g = 10%Z
         /\ (_x0 g == 1)%Q /\ (_y0 g == 1)%Q
         /\ (_dx g == 2)%Q /\ (_dy g == 2)%Q)
      /\ forall yv : list Q,
           _create_from_x_and_y "LONG/LAT" [0; 0; 10; 20]%Q yv
           = Raise (NotImplementedError "values must be equidistant"))
  /\ (forall (l yv : list Q) (x0 y0 : option Q) (nx ny : option Z)
             (projection : string),
        Grid2D_init (Some l) (Some yv) None None None None x0 y0 nx ny
                    projection =
        _create_from_x_and_y projection l yv).
Proof.
  assert (Swap : forall (l : list Q) (y bbox : option (list Q))
                        (dx : option spacing)
                        (shape : option (list (option Z)))
                        (x0 y0 : option Q) (nx ny : option Z)
                        (projection : string),
             length l = 4%nat ->
             y = None \/ dx <> None \/ shape <> None ->
             Grid2D_init (Some l) y bbox dx None shape x0 y0 nx ny projection
             = _create_in_bbox projection l dx shape).
  { intros l y bbox dx shape x0 y0 nx ny projection Hlen Hsel.
    unfold Grid2D_init. cbn [bind]. rewrite Hlen. simpl Nat.eqb. cbv iota.
    destruct y as [yv|]; [|reflexivity].
    destruct dx as [d|]; [reflexivity|].
    destruct shape as [sh|]; [reflexivity|].
    exfalso. destruct Hsel as [H|[H|H]];
      [discriminate | |]; apply H; reflexivity. }
  split; [|split; [|split; [|split; [|split]]]].
  - intros l y bbox dx dy shape x0 y0 nx ny projection Hlen Hsel.
    unfold Grid2D_init. rewrite Hlen. simpl Nat.eqb. cbv iota.
    destruct dy as [dyv|].
    + destruct dx as [[d|ls]|]; simpl; try reflexivity.
      * destruct (Qle_bool d 0); [reflexivity|].
        destruct (Qle_bool dyv 0); [reflexivity|].
        simpl. destruct y; reflexivity.
      * destruct (py_index ls 0) as [d|e]; simpl; [|reflexivity].
        destruct (Qle_bool d 0); [reflexivity|].
        destruct (Qle_bool dyv 0); [reflexivity|].
        simpl. destruct y; reflexivity.
    + simpl. destruct y as [yv|]; [|reflexivity].
      destruct dx as [d|].
      * reflexivity.
      * destruct shape as [sh|]; [reflexivity|].
        exfalso. destruct Hsel as [H|[H|[H|H]]];
          [discriminate | | |]; apply H; reflexivity.
  - exact Swap.
  - intros l y bbox d dyv shape x0 y0 nx ny projection Hlen Hd Hdy.
    unfold Grid2D_init. cbn [bind].
    assert (E1 : Qle_bool d 0 = false).
    { destruct (Qle_bool d 0) eqn:E; [|reflexivity].
      apply Qle_bool_iff in E. exfalso. lra. }
    assert (E2 : Qle_bool dyv 0 = false).
    { destruct (Qle_bool dyv 0) eqn:E; [|reflexivity].
      apply Qle_bool_iff in E. exfalso. lra. }
    rewrite E1, E2. rewrite Hlen. simpl Nat.eqb. cbv iota.
    destruct y; reflexivity.
  - intros left bottom right top d y bbox x0 y0 nx ny projection Hx Hy Hd.
    rewrite (Swap [left; bottom; right; top] y bbox (Some (Scalar d)) None
                  x0 y0 nx ny projection eq_refl).
    + exact (create_in_bbox_scalar left bottom right top d projection
                                   Hx Hy Hd).
    + right. left. discriminate.
  - split.
    + eexists. split; [vm_compute; reflexivity|].
      split; [vm_compute; reflexivity|].
      repeat split; vm_compute; reflexivity.
    + intros yv. reflexivity.
  - intros l yv x0 y0 nx ny projection.
    unfold Grid2D_init. cbn [bind].
    destruct (length l =? 4)%nat; reflexivity.
Qed.

(** [Grid2D([0,0,10,20], [5,6], dx=2, bbox=[0,0,1,1])]: the grid in the
    box [0, 0, 10, 20], neither [y] nor [bbox] being used. *)
Lemma Grid2D_first_argument_taken_as_bbox_witness :
  Grid2D_init (Some [0; 0; 10; 20]%Q) (Some [5; 6]%Q) (Some [0; 0; 1; 1]%Q)
              (Some (Scalar 2)) None None None None None None "LONG/LAT" =
  Ok (mkGrid2D (float64 (0 + float64 (2 / 2))) 2
               (Qceiling (float64 (float64 (10 - 0) / 2)))
               (float64 (0 + float64 (2 / 2))) 2
               (Qceiling (float64 (float64 (20 - 0) / 2))) "LONG/LAT").
Proof.
  apply (proj1 (proj2 (proj2 (proj2 Grid2D_first_argument_taken_as_bbox)))
               0%Q 0%Q 10%Q 20%Q 2%Q (Some [5; 6]%Q) (Some [0; 0; 1; 1]%Q)
               None None None None "LONG/LAT"%string).
  - discriminate.
  - discriminate.
  - discriminate.
Defined.

(** ** Spatial selection of a dfsu read *)

Section ReadSelection.

Import Dfsu.

Variables (Geometry Area Coord : Type).
Variable self_geometry : Geometry.
Variable n_elements : Geometry -> nat.
Variable _elements_in_area : Area -> result (option elements_arg).
Variable find_index :
  option Coord -> option Coord -> result (option elements_arg).
Variable elements_to_geometry : list Z -> result Geometry.
Variable _read_item_time_step : Z -> Z -> result (list fval).

Let validate := @_validate_elements_and_geometry_sel Area Coord.
Let parse := _parse_geometry_sel Area Coord _elements_in_area find_index.
Let read := _read Geometry Area Coord self_geometry n_elements
                  _elements_in_area find_index elements_to_geometry
                  _read_item_time_step.

Lemma validate_several elements area x y :
  several_selectors elements area x y ->
  exists msg, validate elements area x y = Raise (ValueError msg).
Proof.
  unfold several_selectors, validate, _validate_elements_and_geometry_sel.
  intros [[He Hs]|[Ha Hs]].
  - destruct elements as [e|]; [|contradiction He; reflexivity].
    destruct area as [a|]; [eexists; reflexivity|].
    destruct x as [xv|]; [eexists; reflexivity|].
    destruct y as [yv|]; [eexists; reflexivity|].
    exfalso. destruct Hs as [H|[H|H]]; apply H; reflexivity.
  - destruct area as [a|]; [|contradiction Ha; reflexivity].
    destruct elements as [e|]; [eexists; reflexivity|].
    destruct x as [xv|]; [eexists; reflexivity|].
    destruct y as [yv|]; [eexists; reflexivity|].
    exfalso. destruct Hs as [H|H]; apply H; reflexivity.
Qed.

(** When every read succeeds, the loop returns one block per item and
    has read one record per selected step and item. *)
Lemma read_steps_all_ok (elements : option (list Z)) (items steps : list Z)
  (count : nat) :
  elements = None ->
  (forall item it, In item items -> In it steps ->
                   is_ok (_read_item_time_step item it) = true) ->
  exists data,
    read_steps _read_item_time_step elements items steps count
    = (Ok data, (count + length steps * length items)%nat)
    /\ length data = length items.
Proof.
  intros -> Hok. revert count.
  induction steps as [|it rest IH]; intros count.
  - eexists. split.
    + simpl. rewrite Nat.add_0_r. reflexivity.
    + apply length_map.
  - assert (Hrow : exists row,
               mapM (fun item => d <- _read_item_time_step item it ;; Ok d)
                    items = Ok row /\ length row = length items).
    { assert (Hit : forall item, In item items ->
                      is_ok (_read_item_time_step item it) = true)
        by (intros item Hi; apply Hok; [exact Hi | left; reflexivity]).
      clear IH Hok. induction items as [|item items IHi].
      - eexists. split; reflexivity.
      - destruct IHi as (row & Hr & Hl).
        { intros i Hi. apply Hit. right. exact Hi. }
        specialize (Hit item (or_introl eq_refl)).
        destruct (_read_item_time_step item it) as [d|e] eqn:Ed;
          [|discriminate].
        exists (d :: row). split.
        + simpl. rewrite Ed. simpl. rewrite Hr. reflexivity.
        + simpl. rewrite Hl. reflexivity. }
    destruct Hrow as (row & Hrow & Hlen).
    destruct (IH (fun item it' Hi Ht => Hok item it' Hi (or_intror Ht))
                 (count + length items)%nat) as (data & Hd & Hdl).
    eexists. split.
    + simpl. rewrite Hrow. rewrite Hd. simpl.
      f_equal. lia.
    + rewrite length_map, length_combine. lia.
Qed.

(** C6: (1) with more than one of elements, area and (x, y) the
    validation raises a ValueError, and [_read] raises without having
    read a record; (2) an area or (x, y) selection that the geometry
    resolves to no element raises "No elements in selection!", again
    before any record is read; (3) with no selector at all the
    selection succeeds with the full geometry, and [_read] returns a
    Dataset over it with all its elements when the rest of the call
    (dtype, time steps, items, the reads) is in order. *)
Theorem read_spatial_selection :
  (forall elements area x y,
      several_selectors elements area x y ->
      (exists msg, validate elements area x y = Raise (ValueError msg))
      /\ forall dtype_ok ts items keepdims,
          exists e, read dtype_ok ts items elements area x y keepdims
                    = (Raise e, O))
  /\ (forall area x y,
        (area <> None \/ x <> None \/ y <> None) ->
        (forall a, area = Some a ->
                   _elements_in_area a = Ok (Some (EList []))
                   \/ _elements_in_area a = Ok None) ->
        (x <> None \/ y <> None ->
         find_index x y = Ok (Some (EList []))
         \/ find_index x y = Ok None) ->
        parse area x y = Raise (ValueError "No elements in selection!")
        /\ forall dtype_ok ts items keepdims,
            exists e, read dtype_ok ts items None area x y keepdims
                      = (Raise e, O))
  /\ (validate None None None None = Ok tt
      /\ parse None None None = Ok None
      /\ forall single steps items keepdims,
          (forall item it, In item items -> In it steps ->
                           is_ok (_read_item_time_step item it) = true) ->
          exists ds,
            read true (Ok (single, steps)) (Ok items) None None None None
                 keepdims
            = (Ok ds, (length steps * length items)%nat)
            /\ ds_geometry ds = self_geometry
            /\ last (ds_shape ds) O = n_elements self_geometry
            /\ In "element"%string (ds_dims ds)).
Proof.
  split; [|split].
  - intros elements area x y Hsev.
    destruct (validate_several _ _ _ _ Hsev) as (msg & Hv).
    split; [exists msg; exact Hv|].
    intros dtype_ok ts items keepdims.
    unfold read, _read. fold validate. rewrite Hv.
    destruct dtype_ok; cbn [negb bind]; [|eexists; reflexivity].
    destruct ts as [[s t]|e]; cbn [bind]; eexists; reflexivity.
  - intros area x y Hsel Harea Hxy.
    assert (Hp : parse area x y
                 = Raise (ValueError "No elements in selection!")).
    { unfold parse, _parse_geometry_sel.
      destruct area as [a|].
      - destruct (Harea a eq_refl) as [Ha|Ha]; rewrite Ha; cbn [bind].
        + destruct x as [xv|]; [|destruct y as [yv|]];
            try (destruct Hxy as [Hf|Hf];
                 [left; discriminate
                 | rewrite Hf; reflexivity
                 | rewrite Hf; reflexivity]);
            try (destruct Hxy as [Hf|Hf];
                 [right; discriminate
                 | rewrite Hf; reflexivity
                 | rewrite Hf; reflexivity]).
          reflexivity.
        + destruct x as [xv|]; [|destruct y as [yv|]];
            try (destruct Hxy as [Hf|Hf];
                 [left; discriminate
                 | rewrite Hf; reflexivity
                 | rewrite Hf; reflexivity]);
            try (destruct Hxy as [Hf|Hf];
                 [right; discriminate
                 | rewrite Hf; reflexivity
                 | rewrite Hf; reflexivity]).
          reflexivity.
      - cbn [bind].
        destruct x as [xv|]; [|destruct y as [yv|]].
        + destruct Hxy as [Hf|Hf]; [left; discriminate| |];
            rewrite Hf; reflexivity.
        + destruct Hxy as [Hf|Hf]; [right; discriminate| |];
            rewrite Hf; reflexivity.
        + exfalso. destruct Hsel as [H|[H|H]]; apply H; reflexivity. }
    split; [exact Hp|].
    intros dtype_ok ts items keepdims.
    unfold read, _read. fold parse. rewrite Hp.
    destruct dtype_ok; cbn [negb bind]; [|eexists; reflexivity].
    destruct ts as [[s t]|e]; cbn [bind]; [|eexists; reflexivity].
    destruct (_validate_elements_and_geometry_sel Area Coord None area x y);
      cbn [bind]; eexists; reflexivity.
  - split; [reflexivity|]. split; [reflexivity|].
    intros single steps items keepdims Hok.
    destruct (read_steps_all_ok None items steps O eq_refl Hok)
      as (data & Hd & Hl).
    unfold read, _read. cbn [negb bind].
    change (_validate_elements_and_geometry_sel Area Coord None None None None)
      with (@Ok unit tt).
    cbn [bind].
    change (_parse_geometry_sel Area Coord _elements_in_area find_index
                                None None None)
      with (@Ok (option elements_arg) None).
    cbn [bind]. rewrite Hd. cbn [bind Nat.add].
    eexists. split; [reflexivity|].
    cbn [ds_geometry ds_shape ds_dims].
    split; [reflexivity|].
    destruct (single && negb keepdims); simpl; auto.
Qed.

End ReadSelection.

(** The first part of the theorem for a geometry of three elements whose
    queries find nothing: elements and an area are both given. *)
Lemma read_spatial_selection_witness :
  (exists msg,
      Dfsu._validate_elements_and_geometry_sel unit Q
        (Some (Dfsu.EList [1%Z])) (Some tt) None None
      = Raise (ValueError msg))
  /\ forall dtype_ok ts items keepdims,
      exists e,
        Dfsu._read nat unit Q 3%nat (fun n => n)
                   (fun _ => Ok (Some (Dfsu.EList [])))
                   (fun _ _ => Ok None)
                   (fun l => Ok (length l))
                   (fun _ _ => Ok [NaN])
                   dtype_ok ts items (Some (Dfsu.EList [1%Z])) (Some tt)
                   None None keepdims
        = (Raise e, O).
Proof.
  apply (proj1 (read_spatial_selection nat unit Q 3%nat (fun n => n)
                  (fun _ => Ok (Some (Dfsu.EList [])))
                  (fun _ _ => Ok None)
                  (fun l => Ok (length l))
                  (fun _ _ => Ok [NaN]))).
  left. split; [discriminate|]. left. discriminate.
Defined.

(** ** Selections of a Grid2D *)

Lemma count_from_length (n : nat) (a : Z) : length (count_from n a) = n.
Proof.
  revert a. induction n as [|n IH]; intros a; simpl; [reflexivity|].
  rewrite IH. reflexivity.
Qed.

Lemma count_from_last (n : nat) (a d : Z) :
  last (count_from (S n) a) d = (a + Z.of_nat n)%Z.
Proof.
  revert a. induction n as [|n IH]; intros a.
  - simpl. lia.
  - change (count_from (S (S n)) a) with (a :: count_from (S n) (a + 1)).
    change (last (a :: count_from (S n) (a + 1)) d)
      with (last (count_from (S n) (a + 1)) d).
    rewrite IH. lia.
Qed.

Lemma last_map {A B : Type} (f : A -> B) (l : list A) (a : A) (b : B) :
  l <> [] -> last (map f l) b = f (last l a).
Proof.
  induction l as [|x l IH]; intros Hne; [contradiction Hne; reflexivity|].
  destruct l as [|y l]; [reflexivity|].
  change (last (map f (x :: y :: l)) b) with (last (map f (y :: l)) b).
  change (last (x :: y :: l) a) with (last (y :: l) a).
  apply IH. discriminate.
Qed.

(** The differences of [np_diff], position by position. *)
Lemma np_diff_nth (l : list Q) (k : nat) (a b : Q) :
  nth_error l k = Some a -> nth_error l (S k) = Some b ->
  nth_error (np_diff l) k = Some (b - a)%Q.
Proof.
  revert k. induction l as [|x l IH]; intros k Ha Hb.
  - destruct k; discriminate.
  - destruct l as [|y l]; [destruct k; discriminate|].
    destruct k as [|k].
    + simpl in Ha, Hb. injection Ha as ->. injection Hb as ->. reflexivity.
    + change (np_diff (x :: y :: l)) with ((y - x)%Q :: np_diff (y :: l)).
      simpl nth_error. apply IH; assumption.
Qed.

(** Points at a constant distance [t] have all their differences equal to
    [t]. *)
Lemma np_diff_affine (s t : Q) (n : nat) (a : Z) :
  Forall (fun v => v == t)%Q
         (np_diff (map (fun i => s + inject_Z i * t)%Q (count_from n a))).
Proof.
  revert a. induction n as [|n IH]; intros a; [constructor|].
  destruct n as [|n]; [constructor|].
  change (count_from (S (S n)) a) with (a :: count_from (S n) (a + 1)).
  change (count_from (S n) (a + 1))
    with ((a + 1)%Z :: count_from n (a + 1 + 1)) in *.
  simpl map. simpl np_diff.
  constructor.
  - rewrite inject_Z_plus. ring.
  - specialize (IH (a + 1)%Z).
    change (count_from (S n) (a + 1))
      with ((a + 1)%Z :: count_from n (a + 1 + 1)) in IH.
    exact IH.
Qed.

Lemma allclose_constant (d : list Q) (d0 t : Q) :
  (d0 == t)%Q -> Forall (fun v => v == t)%Q d -> allclose d d0 = true.
Proof.
  intros H0 Hall. unfold allclose. apply forallb_forall.
  intros v Hin. rewrite Forall_forall in Hall. specialize (Hall v Hin).
  apply Qle_bool_iff.
  assert (E : (v - d0 == 0)%Q) by (rewrite Hall, H0; ring).
  rewrite E. simpl Qabs.
  assert (0 <= Qabs d0)%Q by apply Qabs_nonneg.
  unfold atol, rtol. lra.
Qed.

Lemma check_equidistant_constant (xs : list Q) (t : Q) :
  Forall (fun v => v == t)%Q (np_diff xs) -> _check_equidistant xs = Ok tt.
Proof.
  intros Hall. unfold _check_equidistant.
  destruct (np_diff xs) as [|d0 d] eqn:E; [reflexivity|].
  rewrite (allclose_constant (d0 :: d) d0 t); [reflexivity| |exact Hall].
  inversion Hall; assumption.
Qed.

(** An axis made by [_create_axis] passes the checks of the constructors
    when its spacing is not negative. *)
Lemma create_axis_accepted (x0 dx : Q) (n : Z) :
  (0 <= n)%Z -> (0 <= dx)%Q ->
  exists xs,
    _create_axis x0 dx n = Ok xs
    /\ length xs = Z.to_nat n
    /\ _check_equidistant xs = Ok tt
    /\ decreasing xs = false.
Proof.
  intros Hn Hdx. unfold _create_axis, linspace.
  destruct (n <? 0)%Z eqn:En; [apply Z.ltb_lt in En; lia|].
  destruct (n =? 1)%Z eqn:E1.
  - apply Z.eqb_eq in E1. subst n. eexists. repeat split; reflexivity.
  - apply Z.eqb_neq in E1. eexists. split; [reflexivity|].
    set (step := ((x0 + dx * inject_Z (n - 1) - x0) / inject_Z (n - 1))%Q).
    unfold range. split; [|split].
    + rewrite length_map, count_from_length. reflexivity.
    + apply (check_equidistant_constant _ step). apply np_diff_affine.
    + destruct (Z.to_nat n) as [|[|m]] eqn:Em; [reflexivity|reflexivity|].
      assert (Hn1 : (0 < inject_Z (n - 1))%Q).
      { rewrite <- (Zlt_Qlt 0). lia. }
      assert (Estep : (step == dx)%Q).
      { unfold step. field. intro E0. rewrite E0 in Hn1.
        apply (Qlt_irrefl 0). exact Hn1. }
      change (count_from (S (S m)) 0) with (0%Z :: 1%Z :: count_from m 2).
      unfold decreasing. cbn [map].
      apply Qlt_bool_false.
      change ((x0 + inject_Z 0 * step)%Q :: (x0 + inject_Z 1 * step)%Q
              :: map (fun i : Z => (x0 + inject_Z i * step)%Q) (count_from m 2))
        with (map (fun i : Z => (x0 + inject_Z i * step)%Q)
                  (count_from (S (S m)) 0)).
      rewrite (last_map _ _ 0%Z) by discriminate.
      rewrite count_from_last.
      assert (0 <= inject_Z (0 + Z.of_nat (S m)))%Q.
      { rewrite <- (Zle_Qle 0). lia. }
      rewrite Estep.
      assert (0 <= inject_Z (0 + Z.of_nat (S m)) * dx)%Q
        by (apply Qmult_le_0_compat; assumption).
      change (inject_Z 0) with 0%Q. lra.
Qed.

Lemma py_index_in_range {A : Type} (l : list A) (i : Z) :
  (- Z.of_nat (length l) <= i < Z.of_nat (length l))%Z ->
  exists v, py_index l i = Ok v.
Proof.
  intros Hi. unfold py_index.
  set (n := Z.of_nat (length l)) in *.
  set (j := if (i <? 0)%Z then (i + n)%Z else i).
  assert (Hj : (0 <= j < n)%Z).
  { unfold j. destruct (i <? 0)%Z eqn:E;
      [apply Z.ltb_lt in E | apply Z.ltb_ge in E]; lia. }
  replace ((j <? 0)%Z || (n <=? j)%Z) with false.
  - destruct (nth_error l (Z.to_nat j)) as [v|] eqn:E; [eexists; reflexivity|].
    apply nth_error_None in E. unfold n in Hj. lia.
  - symmetry. apply orb_false_iff. split;
      [apply Z.ltb_ge | apply Z.leb_gt]; lia.
Qed.

Lemma inject_Z_sub (a b : Z) : (inject_Z (b - a) == inject_Z b - inject_Z a)%Q.
Proof.
  unfold Z.sub. rewrite inject_Z_plus, inject_Z_opp. reflexivity.
Qed.

Lemma consecutive_diff (idx : list Z) (k : nat) (a b : Z) :
  consecutive idx k a b ->
  nth_error (np_diff (map inject_Z idx)) k
  = Some (inject_Z b - inject_Z a)%Q.
Proof.
  intros [Ha Hb]. apply np_diff_nth; apply map_nth_error; assumption.
Qed.

Lemma not_equidistant_step_below_1 (idx : list Z) :
  has_step_below_1 idx -> not_equidistant idx = Ok true.
Proof.
  intros (k & a & b & Hc & Hlt). unfold not_equidistant.
  replace (any_lt_1 (np_diff (map inject_Z idx))) with true; [reflexivity|].
  symmetry. unfold any_lt_1. apply existsb_exists.
  exists (inject_Z b - inject_Z a)%Q. split.
  - eapply nth_error_In. apply consecutive_diff. exact Hc.
  - apply Qlt_bool_true. rewrite <- inject_Z_sub.
    change 1%Q with (inject_Z 1). rewrite <- Zlt_Qlt. exact Hlt.
Qed.

Lemma not_equidistant_step_not_close (idx : list Z) :
  has_step_not_close idx -> not_equidistant idx = Ok true.
Proof.
  intros (a0 & a1 & k & a & b & H0 & Hk & Hfar). unfold not_equidistant.
  destruct (any_lt_1 (np_diff (map inject_Z idx))); [reflexivity|].
  pose proof (consecutive_diff _ _ _ _ H0) as Hd0.
  pose proof (consecutive_diff _ _ _ _ Hk) as Hdk.
  destruct (np_diff (map inject_Z idx)) as [|d0 d] eqn:Ed; [discriminate|].
  simpl in Hd0. injection Hd0 as Hd0.
  change (py_index (d0 :: d) 0) with (first (d0 :: d)).
  rewrite first_cons. cbn [bind].
  destruct (allclose (d0 :: d) d0) eqn:Eclose; [|reflexivity].
  exfalso. unfold allclose in Eclose.
  rewrite forallb_forall in Eclose.
  specialize (Eclose _ (nth_error_In _ _ Hdk)).
  apply Qle_bool_iff in Eclose.
  rewrite Hd0 in Eclose. rewrite <- !inject_Z_sub in Eclose.
  rewrite (inject_Z_sub (a1 - a0) (b - a)) in Eclose.
  apply (Qlt_irrefl (atol + rtol * Qabs (inject_Z (a1 - a0)))).
  eapply Qlt_le_trans; eassumption.
Qed.

Lemma create_axis_length (x0 dx : Q) (n : Z) :
  (0 <= n)%Z ->
  exists xs, _create_axis x0 dx n = Ok xs /\ length xs = Z.to_nat n.
Proof.
  intros Hn. unfold _create_axis, linspace.
  destruct (n <? 0)%Z eqn:En; [apply Z.ltb_lt in En; lia|].
  destruct (n =? 1)%Z eqn:E1.
  - apply Z.eqb_eq in E1. subst n. eexists. split; reflexivity.
  - eexists. split; [reflexivity|].
    unfold range. rewrite length_map, count_from_length. reflexivity.
Qed.

(** A Grid1D over an accepted axis with one node per point. *)
Lemma Grid1D_init_accepted (xs : list Q) (nc : list (list Q))
  (proj : string) :
  _check_equidistant xs = Ok tt -> decreasing xs = false ->
  length nc = length xs ->
  Grid1D_init (Some xs) 0 None None proj (0, 0)%Q 0 (Some nc) "x"
  = Ok (mkGrid1D xs (spacing_of xs) proj (0, 0)%Q 0 (Some nc) "x").
Proof.
  intros He Hd Hl. unfold Grid1D_init. rewrite He, Hd. cbn [bind].
  rewrite Hl, Nat.eqb_refl. reflexivity.
Qed.

(** C8, as the code has it: an index array with a step smaller than 1, or
    with a step that [np.allclose] tells apart from the first one, makes
    [isel] return the undefined geometry, without an exception and without
    a warning; [_index_to_geometry] returns it with a warning.  A scalar
    index within the axis, on a grid of non-negative size and spacing,
    gives the Grid1D of the other axis, whose node coordinates all carry
    the selected coordinate. *)
Theorem isel_not_equidistant_is_undefined :
  (forall (g : Grid2D) (idx : list Z) (axis : Z),
      has_step_below_1 idx \/ has_step_not_close idx ->
      isel g (IArray idx) axis = Ok (GeometryUndefined, []))
  /\ (forall (g : Grid2D) (ii jj : list Z),
        (has_step_below_1 ii \/ has_step_not_close ii)
        \/ (not_equidistant ii = Ok false
            /\ (has_step_below_1 jj \/ has_step_not_close jj)) ->
        _index_to_geometry g ii jj
        = Ok (GeometryUndefined,
              ["Axis not equidistant! Will return GeometryUndefined()"%string]))
  /\ (forall (g : Grid2D) (i : Z),
        (0 <= _nx g)%Z -> (0 <= _dx g)%Q ->
        (- _ny g <= i < _ny g)%Z ->
        exists xs ys yi g1,
          Grid.x g = Ok xs /\ Grid.y g = Ok ys /\ py_index ys i = Ok yi
          /\ isel g (IScalar i) 0 = Ok (GGrid1D g1, [])
          /\ g1_x g1 = xs
          /\ g1_nc g1 = Some (map (fun xv => [xv; yi * 1]%Q) xs))
  /\ (forall (g : Grid2D) (i axis : Z),
        axis <> 0%Z ->
        (0 <= _ny g)%Z -> (0 <= _dy g)%Q ->
        (- _nx g <= i < _nx g)%Z ->
        exists xs ys xi g1,
          Grid.x g = Ok xs /\ Grid.y g = Ok ys /\ py_index xs i = Ok xi
          /\ isel g (IScalar i) axis = Ok (GGrid1D g1, [])
          /\ g1_x g1 = ys
          /\ g1_nc g1 = Some (map (fun yv => [xi * 1; yv]%Q) ys)).
Proof.
  assert (Hbad : forall idx, has_step_below_1 idx \/ has_step_not_close idx ->
                             not_equidistant idx = Ok true).
  { intros idx [H|H];
      [apply not_equidistant_step_below_1 | apply not_equidistant_step_not_close];
      exact H. }
  split; [|split; [|split]].
  - intros g idx axis H. unfold isel. rewrite (Hbad idx H). reflexivity.
  - intros g ii jj [H|[Hi H]]; unfold _index_to_geometry.
    + rewrite (Hbad ii H). reflexivity.
    + rewrite Hi. cbn [bind]. rewrite (Hbad jj H). reflexivity.
  - intros g i Hnx Hdx Hi.
    destruct (create_axis_accepted (_x0 g) (_dx g) (_nx g) Hnx Hdx)
      as (xs & Hx & Hlx & Hex & Hdecx).
    destruct (create_axis_length (_y0 g) (_dy g) (_ny g)) as (ys & Hy & Hly);
      [lia|].
    destruct (py_index_in_range ys i) as (yi & Hyi); [rewrite Hly; lia|].
    exists xs, ys, yi,
      (mkGrid1D xs (spacing_of xs) (_projection g) (0, 0)%Q 0
                (Some (map (fun xv => [xv; yi * 1]%Q) xs)) "x").
    split; [exact Hx|]. split; [exact Hy|]. split; [exact Hyi|].
    split; [|split; reflexivity].
    unfold isel. change (0 =? 0)%Z with true. cbv iota.
    unfold Grid.x, Grid.y. rewrite Hx, Hy. cbn [bind].
    rewrite Hyi. cbn [bind].
    rewrite Grid1D_init_accepted; [reflexivity|exact Hex|exact Hdecx|].
    apply length_map.
  - intros g i axis Hax Hny Hdy Hi.
    destruct (create_axis_accepted (_y0 g) (_dy g) (_ny g) Hny Hdy)
      as (ys & Hy & Hly & Hey & Hdecy).
    destruct (create_axis_length (_x0 g) (_dx g) (_nx g)) as (xs & Hx & Hlx);
      [lia|].
    destruct (py_index_in_range xs i) as (xi & Hxi); [rewrite Hlx; lia|].
    exists xs, ys, xi,
      (mkGrid1D ys (spacing_of ys) (_projection g) (0, 0)%Q 0
                (Some (map (fun yv => [xi * 1; yv]%Q) ys)) "x").
    split; [exact Hx|]. split; [exact Hy|]. split; [exact Hxi|].
    split; [|split; reflexivity].
    unfold isel. apply Z.eqb_neq in Hax. rewrite Hax.
    unfold Grid.x, Grid.y in *. rewrite Hx, Hy. cbn [bind].
    rewrite Hxi. cbn [bind].
    rewrite Grid1D_init_accepted; [reflexivity|exact Hey|exact Hdecy|].
    apply length_map.
Qed.

(** The first part at the index array [0; 1; 3] on the 5 by 4 grid. *)
Lemma isel_not_equidistant_is_undefined_witness :
  isel grid_5x4 (IArray [0; 1; 3]%Z) 0 = Ok (GeometryUndefined, []).
Proof.
  apply (proj1 isel_not_equidistant_is_undefined).
  right. exists 0%Z, 1%Z, 1%nat, 1%Z, 3%Z.
  split; [split; reflexivity|]. split; [split; reflexivity|].
  reflexivity.
Defined.

(** C8 as stated fails twice.  On the 5 by 4 grid the index array
    [0; 1; 3], whose steps 1 and 2 differ, gives the undefined geometry
    but no warning.  On a grid of 200002 columns the index array
    [0; 100000; 200001], whose steps 100000 and 100001 differ, is within
    the tolerance of [np.allclose], and [isel] returns a Grid2D of three
    columns. *)
Lemma isel_counterexample :
  isel grid_5x4 (IArray [0; 1; 3]%Z) 0 = Ok (GeometryUndefined, [])
  /\ exists g',
      isel grid_wide (IArray [0; 100000; 200001]%Z) 1 = Ok (GGrid2D g', [])
      /\ _nx g' = 3%Z.
Proof.
  split; [vm_compute; reflexivity|].
  eexists. split; vm_compute; reflexivity.
Qed.

(** ** The bounds of extract *)

Lemma Qlt_bool_spec (a b : Q) :
  BoolSpec (a < b)%Q (b <= a)%Q (Qlt_bool a b).
Proof.
  destruct (Qlt_le_dec a b) as [H|H].
  - rewrite (Qlt_bool_true _ _ H). constructor. exact H.
  - rewrite (Qlt_bool_false _ _ H). constructor. exact H.
Qed.


Lemma Qeq_bool_pos (d : Q) : (0 < d)%Q -> Qeq_bool d 0 = false.
Proof.
  intros H. destruct (Qeq_bool d 0) eqn:E; [|reflexivity].
  apply Qeq_bool_iff in E. rewrite E in H.
  exfalso. apply (Qlt_irrefl 0). exact H.
Qed.










(** ** extract over the full range *)

Lemma read_item_time_step_nth (f : DfsFile) (t j : nat)
  (row : list ItemData) (d : ItemData) :
  nth_error (steps f) t = Some row -> nth_error row j = Some d ->
  ReadItemTimeStep f (Z.of_nat j + 1) (Z.of_nat t) = Ok d.
Proof.
  intros Ht Hj. unfold ReadItemTimeStep.
  replace ((Z.of_nat j + 1 <? 1)%Z || (Z.of_nat t <? 0)%Z) with false.
  - rewrite Nat2Z.id, Ht.
    replace (Z.to_nat (Z.of_nat j + 1 - 1)) with j by lia.
    rewrite Hj. reflexivity.
  - symmetry. apply orb_false_iff. split; apply Z.ltb_ge; lia.
Qed.

(** The item loop of [extract] over the records [suf] of step [t] that
    are still to be copied, [pre] having been copied: every record is in
    the time window, so the whole row is written as the next step. *)
Lemma extract_items_copy_row (f : DfsFile) (ssec esec shift : Q) (t : nat)
  (o : DfsFile) :
  forall (suf pre : list ItemData) (tout : Z),
    nth_error (steps f) t = Some (pre ++ suf) ->
    length (steps o) = t ->
    length (ItemInfo o) = length (pre ++ suf) ->
    Forall (fun d => (ssec <= Time d)%Q /\ (Time d <= esec)%Q) suf ->
    tout = (if (length pre =? 0)%nat then Z.of_nat t - 1 else Z.of_nat t)%Z ->
    foldM (extract_item f 0 ssec esec shift (Z.of_nat t))
          (map (fun j => (j, j))
               (count_from (length suf) (Z.of_nat (length pre))))
          (mkES (mkWriter o (map (shift_record shift) pre)) tout false)
    = Ok (match suf with
          | [] => mkES (mkWriter o (map (shift_record shift) pre)) tout false
          | _ :: _ =>
              mkES (mkWriter (append_step o (map (shift_record shift)
                                                 (pre ++ suf))) [])
                   (Z.of_nat t) false
          end).
Proof.
  induction suf as [|d suf IH]; intros pre tout Hrow Hlen Hinfo Hin Htout.
  - reflexivity.
  - simpl length. cbn [count_from map foldM].
    unfold extract_item at 1. cbn [es_returned es_out es_timestep_out].
    rewrite (read_item_time_step_nth f t (length pre) (pre ++ d :: suf) d Hrow)
      by (rewrite nth_error_app2, Nat.sub_diag by lia; reflexivity).
    cbn [bind].
    destruct (Forall_inv Hin) as [Hlo Hhi].
    pose proof (Forall_inv_tail Hin) as Hin'.
    rewrite (Qlt_bool_false _ _ Hhi).
    replace (Qle_bool ssec (Time d)) with true
      by (symmetry; apply Qle_bool_iff; exact Hlo).
    assert (Htout' : (if (Z.of_nat (length pre) =? 0)%Z
                      then (tout + 1)%Z else tout) = Z.of_nat t).
    { rewrite Htout. destruct pre as [|p pre']; simpl length.
      - simpl. lia.
      - replace (Z.of_nat (S (length pre')) =? 0)%Z with false
          by (symmetry; apply Z.eqb_neq; lia).
        reflexivity. }
    rewrite Htout'.
    unfold WriteItemTimeStepAt. cbn [w_file w_row].
    rewrite Hlen, length_map.
    rewrite !Z.eqb_refl. cbn [andb bind].
    unfold WriteItemTimeStepNext. cbn [w_file w_row].
    rewrite length_app, length_map. simpl length. rewrite Hinfo.
    rewrite length_app. simpl length.
    destruct suf as [|d' suf'].
    + cbn [length count_from map foldM bind]. rewrite Nat.eqb_refl.
      rewrite map_app. reflexivity.
    + cbn [length].
      destruct (Nat.eqb_spec (length pre + 1)
                             (length pre + S (S (length suf')))) as [E|_];
        [lia|].
      assert (E1 : (Z.of_nat (length pre) + 1)%Z
                   = Z.of_nat (length (pre ++ [d])))
        by (rewrite length_app; simpl; lia).
      rewrite E1.
      change (S (length suf')) with (length (d' :: suf')).
      assert (E2 : map (shift_record shift) pre
                   ++ [mkItemData (Time d - shift)%Q (Data d)]
                   = map (shift_record shift) (pre ++ [d]))
        by (rewrite map_app; reflexivity).
      cbn [bind]. rewrite E2.
      rewrite (IH (pre ++ [d]) (Z.of_nat t)).
      * rewrite <- app_assoc. reflexivity.
      * rewrite <- app_assoc. exact Hrow.
      * exact Hlen.
      * rewrite <- app_assoc. exact Hinfo.
      * exact Hin'.
      * replace (length (pre ++ [d]) =? 0)%nat with false; [reflexivity|].
        symmetry. apply Nat.eqb_neq. rewrite length_app. simpl. lia.
Qed.

Lemma combine_diag {A : Type} (l : list A) :
  combine l l = map (fun j => (j, j)) l.
Proof.
  induction l as [|a l IH]; [reflexivity|]. simpl. rewrite IH. reflexivity.
Qed.

Lemma enumerate_range (n : nat) :
  enumerate (range n) = map (fun j => (j, j)) (count_from n 0).
Proof.
  unfold enumerate, range. rewrite count_from_length. apply combine_diag.
Qed.

(** The loop of [extract] over the steps [todo] still to be copied, the
    steps [done] having been copied. *)
Lemma extract_steps_copy (f : DfsFile) (ssec esec shift : Q) :
  forall (todo done : list (list ItemData)) (o : DfsFile),
    steps f = done ++ todo ->
    steps o = map (map (shift_record shift)) done ->
    length (ItemInfo o) = length (ItemInfo f) ->
    ItemInfo f <> [] ->
    Forall (fun row => length row = length (ItemInfo f)) todo ->
    Forall (Forall (fun d => (ssec <= Time d)%Q /\ (Time d <= esec)%Q)) todo ->
    foldM (fun st timestep =>
             foldM (extract_item f 0 ssec esec shift timestep)
                   (enumerate (range (length (ItemInfo f)))) st)
          (count_from (length todo) (Z.of_nat (length done)))
          (mkES (mkWriter o []) (Z.of_nat (length done) - 1) false)
    = Ok (mkES (mkWriter (mkDfs (TimeAxis o) (DeleteValueFloat o) (ItemInfo o)
                                (map (map (shift_record shift)) (steps f)))
                         [])
               (Z.of_nat (length (steps f)) - 1) false).
Proof.
  induction todo as [|row todo IH];
    intros done o Hsteps Ho Hinfo Hne Hrows Htimes.
  - rewrite app_nil_r in Hsteps. subst done.
    cbn [length count_from foldM]. rewrite <- Ho.
    destruct o; reflexivity.
  - cbn [length count_from foldM].
    pose proof (Forall_inv Hrows) as Hrow.
    rewrite enumerate_range, <- Hrow.
    pose proof (extract_items_copy_row f ssec esec shift (length done) o
                  row [] (Z.of_nat (length done) - 1)) as Hinner.
    cbn [length map app Z.of_nat Nat.eqb] in Hinner.
    rewrite Hinner.
    + destruct row as [|d row'].
      { exfalso. apply Hne. apply length_zero_iff_nil.
        rewrite <- Hrow. reflexivity. }
      cbn [bind app].
      replace (Z.of_nat (length done) + 1)%Z
        with (Z.of_nat (length (done ++ [d :: row'])))
        by (rewrite length_app; simpl; lia).
      replace (Z.of_nat (length done))
        with (Z.of_nat (length (done ++ [d :: row'])) - 1)%Z at 1
        by (rewrite length_app; simpl; lia).
      rewrite Hrow.
      rewrite <- enumerate_range.
      rewrite (IH (done ++ [d :: row'])
                  (append_step o (map (shift_record shift) (d :: row')))).
      * reflexivity.
      * rewrite <- app_assoc. exact Hsteps.
      * cbn [append_step steps]. rewrite Ho, map_app. reflexivity.
      * exact Hinfo.
      * exact Hne.
      * exact (Forall_inv_tail Hrows).
      * exact (Forall_inv_tail Htimes).
    + rewrite Hsteps, nth_error_app2, Nat.sub_diag by lia. reflexivity.
    + rewrite Ho. apply length_map.
    + rewrite Hinfo. symmetry. exact Hrow.
    + exact (Forall_inv Htimes).
    + reflexivity.
Qed.

Lemma count_from_bounds (n : nat) (a i : Z) :
  In i (count_from n a) -> (a <= i < a + Z.of_nat n)%Z.
Proof.
  revert a. induction n as [|n IH]; intros a Hin; [contradiction|].
  destruct Hin as [<-|Hin]; [lia|]. apply IH in Hin. lia.
Qed.

Lemma valid_item_numbers_all (info : list string) :
  _valid_item_numbers info (Some (range (length info)))
  = Ok (range (length info)).
Proof.
  unfold _valid_item_numbers.
  replace (forallb _ (range (length info))) with true; [reflexivity|].
  symmetry. apply forallb_forall. intros i Hin.
  apply count_from_bounds in Hin.
  apply andb_true_iff. split; [apply Z.leb_le | apply Z.ltb_lt]; lia.
Qed.

Lemma item_infos_all (info : list string) :
  forall (l pre : list string),
    info = pre ++ l ->
    mapM (item_info_at info) (count_from (length l) (Z.of_nat (length pre)))
    = Ok l.
Proof.
  induction l as [|x l IH]; intros pre Hinfo; [reflexivity|].
  cbn [length count_from mapM].
  unfold item_info_at at 1.
  replace (Z.of_nat (length pre) <? 0)%Z with false
    by (symmetry; apply Z.ltb_ge; lia).
  rewrite Nat2Z.id, Hinfo, nth_error_app2, Nat.sub_diag by lia.
  cbn [nth_error bind]. rewrite <- Hinfo.
  replace (Z.of_nat (length pre) + 1)%Z
    with (Z.of_nat (length (pre ++ [x])))
    by (rewrite length_app; simpl; lia).
  rewrite (IH (pre ++ [x])); [reflexivity|].
  rewrite <- app_assoc. exact Hinfo.
Qed.

(** [_clone] with every item selected by its number. *)
Lemma clone_all_items (f : DfsFile) (start_time : option Q) :
  ItemInfo f <> [] ->
  _clone f start_time (Some (range (length (ItemInfo f))))
  = Ok (mkWriter
          (mkDfs (match start_time with
                  | Some t => mkAxis (TimeAxisType (TimeAxis f)) t
                                     (StartTimeOffset (TimeAxis f))
                                     (TimeStep (TimeAxis f))
                                     (TimeSpan (TimeAxis f))
                  | None => TimeAxis f
                  end)
                 (DeleteValueFloat f) (ItemInfo f) [])
          []).
Proof.
  intros Hne. unfold _clone.
  rewrite valid_item_numbers_all.
  destruct (ItemInfo f) as [|x info] eqn:E; [contradiction Hne; reflexivity|].
  cbn [length range count_from bind].
  change (0%Z :: count_from (length info) (0 + 1))
    with (count_from (length (x :: info)) (Z.of_nat (length (@nil string)))).
  rewrite (item_infos_all (x :: info) (x :: info) []); reflexivity.
Qed.

Lemma hd_range (k : nat) : hd 0%Z (range k) = 0%Z.
Proof. destruct k; reflexivity. Qed.

Lemma shifted_rows_same (shift : Q) (rows : list (list ItemData)) :
  (shift == 0)%Q ->
  Forall2 (Forall2 same_record) (map (map (shift_record shift)) rows) rows.
Proof.
  intros Hs. induction rows as [|row rows IH]; [constructor|].
  simpl. constructor; [|exact IH].
  clear IH. induction row as [|d row IH]; [constructor|].
  simpl. constructor; [|exact IH].
  split; [|reflexivity]. simpl. rewrite Hs. ring.
Qed.

(** The start offset of a well-formed file is not after its end. *)
Lemma well_formed_start_before_end (f : DfsFile) :
  well_formed f ->
  (StartTimeOffset (TimeAxis f) <= file_end_sec f)%Q.
Proof.
  intros (_ & Hne & Hsteps & Hrows & Htimes).
  destruct (steps f) as [|row rows]; [contradiction Hsteps; reflexivity|].
  pose proof (Forall_inv Hrows) as Hrow.
  pose proof (Forall_inv Htimes) as Hrt.
  destruct row as [|d row].
  - exfalso. apply Hne. apply length_zero_iff_nil. rewrite <- Hrow.
    reflexivity.
  - destruct (Forall_inv Hrt) as [Hlo Hhi].
    eapply Qle_trans; eassumption.
Qed.

(** What [_parse_start_end] makes of [start=0], [end=-1]. *)
Lemma parse_full_range (f : DfsFile) :
  well_formed f ->
  _parse_start_end f (BInt 0) (BInt (-1))
  = Ok (mkSE (if (TimeAxisType (TimeAxis f) =? 3)%Z
              then Some (StartDateTime (TimeAxis f)
                         + inject_Z 0 * TimeStep (TimeAxis f))%Q
              else None)
             0 (StartTimeOffset (TimeAxis f))
             (Z.of_nat (NumberOfTimeSteps f)) (file_end_sec f),
        []).
Proof.
  intros Hwf. pose proof (well_formed_start_before_end f Hwf) as Hse.
  destruct Hwf as (Htype & _).
  unfold _parse_start_end, file_end_sec in *.
  set (n := Z.of_nat (NumberOfTimeSteps f)) in *.
  set (fss := StartTimeOffset (TimeAxis f)) in *.
  assert (Hn : (0 <= n)%Z) by (unfold n; lia).
  destruct Htype as [Ht|Ht]; rewrite Ht in *.
  - change (3 =? 3)%Z with true in *. cbv iota in *.
    cbn [bind parse_start parse_end].
    change (-1 <? 0)%Z with true. cbv iota.
    replace (n + -1 + 1)%Z with n by lia.
    unfold clamp_start_end. rewrite Ht.
    change (0 <? 0)%Z with false. cbv iota.
    fold fss.
    rewrite (Qlt_bool_false fss fss) by apply Qle_refl.
    rewrite (Qlt_bool_false _ _ Hse).
    replace (n <? 0)%Z with false by (symmetry; apply Z.ltb_ge; lia).
    rewrite Z.ltb_irrefl.
    rewrite ?(Qlt_bool_false _ _ (Qle_refl _)).
    cbn [orb andb].
    rewrite ?(Qlt_bool_false fss fss (Qle_refl _)).
    reflexivity.
  - change (4 =? 3)%Z with false in *. change (4 =? 4)%Z with true.
    cbv iota in *.
    cbn [bind parse_start parse_end].
    change (-1 <? 0)%Z with true. cbv iota.
    replace (n + -1 + 1)%Z with n by lia.
    unfold clamp_start_end. rewrite Ht.
    change (0 <? 0)%Z with false. cbv iota.
    fold fss.
    rewrite (Qlt_bool_false fss fss) by apply Qle_refl.
    rewrite (Qlt_bool_false _ _ Hse).
    replace (n <? 0)%Z with false by (symmetry; apply Z.ltb_ge; lia).
    rewrite Z.ltb_irrefl.
    rewrite ?(Qlt_bool_false _ _ (Qle_refl _)).
    cbn [orb andb].
    rewrite ?(Qlt_bool_false fss fss (Qle_refl _)).
    reflexivity.
Qed.

(** C5: on a well-formed file, [extract(start=0, end=-1)] with all items
    succeeds without a warning, and the output file has the items, the
    time axis and, step by step and item by item, the times and the data
    of the source. *)
Theorem extract_full_range_is_a_copy (f : DfsFile) :
  well_formed f ->
  exists out,
    extract f (BInt 0) (BInt (-1)) None = Ok (out, []) /\ same_file out f.
Proof.
  intros Hwf.
  pose proof (parse_full_range f Hwf) as Hparse.
  destruct Hwf as (Htype & Hne & Hsteps & Hrows & Htimes).
  unfold extract. rewrite Hparse. cbn [bind].
  unfold _valid_item_numbers at 1. cbn [bind file_start_new].
  rewrite (clone_all_items f _ Hne). cbn [bind].
  cbn [start_step end_step start_sec end_sec].
  rewrite hd_range.
  unfold range_from.
  replace (Z.to_nat (Z.of_nat (NumberOfTimeSteps f) - 0))
    with (length (steps f)) by (unfold NumberOfTimeSteps; lia).
  match goal with
  | |- context [foldM _ (count_from (length (steps f)) 0)
                      (mkES (mkWriter ?o []) (-1) false)] =>
      pose proof (extract_steps_copy f (StartTimeOffset (TimeAxis f))
                    (file_end_sec f)
                    (match (if (TimeAxisType (TimeAxis f) =? 3)%Z
                            then Some (StartDateTime (TimeAxis f)
                                       + inject_Z 0 * TimeStep (TimeAxis f))%Q
                            else None) with
                     | Some t => (t - StartDateTime (TimeAxis f))%Q
                     | None => 0%Q
                     end)
                    (steps f) [] o eq_refl eq_refl eq_refl Hne Hrows Htimes)
        as Hloop
  end.
  cbn [length Z.of_nat] in Hloop.
  change (0 - 1)%Z with (-1)%Z in Hloop.
  rewrite Hloop. cbn [bind es_out Close w_file].
  eexists. split; [reflexivity|].
  unfold same_file.
  cbn [ItemInfo DeleteValueFloat TimeAxis steps].
  destruct Htype as [Ht|Ht]; rewrite Ht.
  - change (3 =? 3)%Z with true. cbv iota.
    cbn [TimeAxisType StartDateTime StartTimeOffset TimeStep TimeSpan].
    do 3 (split; [reflexivity|]).
    split; [change (inject_Z 0) with 0%Q; ring|].
    do 3 (split; [reflexivity|]).
    apply shifted_rows_same. change (inject_Z 0) with 0%Q. ring.
  - change (4 =? 3)%Z with false. cbv iota.
    do 2 (split; [reflexivity|]).
    split; [exact Ht|].
    split; [apply Qeq_refl|].
    do 3 (split; [reflexivity|]).
    apply shifted_rows_same. apply Qeq_refl.
Qed.

(** The theorem on the file of ten steps. *)
Lemma extract_full_range_is_a_copy_witness :
  exists out,
    extract Examples.ten_steps (BInt 0) (BInt (-1)) None = Ok (out, [])
    /\ same_file out Examples.ten_steps.
Proof.
  apply extract_full_range_is_a_copy.
  split; [left; reflexivity|].
  split; [discriminate|].
  split; [discriminate|].
  split.
  - repeat constructor.
  - repeat (constructor; [repeat constructor; vm_compute; discriminate|]).
    constructor.
Defined.

(** ** concat *)









(** [_clone] with the items of the source. *)
Lemma clone_source_items (f : DfsFile) :
  _clone f None None
  = Ok (mkWriter (mkDfs (TimeAxis f) (DeleteValueFloat f) (ItemInfo f) []) []).
Proof.
  unfold _clone, _valid_item_numbers. cbn [bind]. unfold range.
  change 0%Z with (Z.of_nat (length (@nil string))).
  rewrite (item_infos_all (ItemInfo f) (ItemInfo f) []); reflexivity.
Qed.




(** * Further properties of the grids *)






Lemma py_index_last {A : Type} (l : list A) (d : A) :
  l <> [] -> py_index l (-1) = Ok (last l d).
Proof.
  intros Hne. unfold py_index.
  destruct (exists_last Hne) as (l' & a & ->).
  rewrite last_last, length_app. cbn [length].
  replace (-1 <? 0)%Z with true by reflexivity.
  replace ((-1 + Z.of_nat (length l' + 1) <? 0)%Z) with false
    by (symmetry; apply Z.ltb_ge; lia).
  replace ((Z.of_nat (length l' + 1) <=? -1 + Z.of_nat (length l' + 1))%Z)
    with false by (symmetry; apply Z.leb_gt; lia).
  cbn [orb].
  replace (Z.to_nat (-1 + Z.of_nat (length l' + 1))) with (length l' + 0)%nat
    by lia.
  rewrite nth_error_app2 by lia.
  replace (length l' + 0 - length l')%nat with 0%nat by lia. reflexivity.
Qed.

Lemma create_axis_last (x0 dx : Q) (n : Z) :
  (1 <= n)%Z ->
  exists xs,
    _create_axis x0 dx n = Ok xs
    /\ length xs = Z.to_nat n
    /\ (exists v, py_index xs (-1) = Ok v
                  /\ (v == x0 + dx * inject_Z (n - 1))%Q).
Proof.
  intros Hn. unfold _create_axis, linspace.
  replace (n <? 0)%Z with false by lia.
  destruct (n =? 1)%Z eqn:E1.
  - apply Z.eqb_eq in E1. subst n. eexists. split; [reflexivity|].
    split; [reflexivity|]. exists x0. split; [reflexivity|].
    change (inject_Z (1 - 1)) with 0%Q. ring.
  - apply Z.eqb_neq in E1. eexists. split; [reflexivity|].
    split; [rewrite length_map; apply count_from_length|].
    eexists. split.
    + apply py_index_last with (d := 0%Q).
      unfold range. destruct (Z.to_nat n) eqn:En; [lia|discriminate].
    + unfold range. destruct (Z.to_nat n) as [|k] eqn:En; [lia|].
      rewrite (last_map _ _ 0%Z) by discriminate.
      rewrite count_from_last.
      replace (0 + Z.of_nat k)%Z with (n - 1)%Z by lia.
      assert (Hk : ~ (inject_Z (n - 1) == 0)%Q).
      { change 0%Q with (inject_Z 0). rewrite inject_Z_injective. lia. }
      field. exact Hk.
Qed.

Lemma bbox_value (g : Grid2D) :
  (1 <= _nx g)%Z -> (1 <= _ny g)%Z ->
  exists xs ys b,
    x g = Ok xs /\ length xs = Z.to_nat (_nx g)
    /\ y g = Ok ys /\ length ys = Z.to_nat (_ny g)
    /\ bbox g = Ok b
    /\ left b = (_x0 g - _dx g / 2)%Q
    /\ bottom b = (_y0 g - _dy g / 2)%Q
    /\ (right b == _x0 g + _dx g * inject_Z (_nx g - 1) + _dx g / 2)%Q
    /\ (top b == _y0 g + _dy g * inject_Z (_ny g - 1) + _dy g / 2)%Q.
Proof.
  intros Hx Hy.
  destruct (create_axis_last (_x0 g) (_dx g) (_nx g) Hx)
    as (xs & Exs & Lxs & vx & Evx & Hvx).
  destruct (create_axis_last (_y0 g) (_dy g) (_ny g) Hy)
    as (ys & Eys & Lys & vy & Evy & Hvy).
  exists xs, ys. eexists.
  split; [exact Exs|]. split; [exact Lxs|].
  split; [exact Eys|]. split; [exact Lys|].
  split.
  - unfold bbox, x1, y1, x, y. rewrite Exs, Eys. cbn [bind].
    rewrite Evx, Evy. cbn [bind]. reflexivity.
  - cbn [left bottom right top]. split; [reflexivity|]. split; [reflexivity|].
    split; [rewrite Hvx|rewrite Hvy]; reflexivity.
Qed.

Lemma point_inside_iff (b : BoundingBox) (p : Q * Q) :
  point_inside b p = true
  <-> (left b <= fst p <= right b /\ bottom b <= snd p <= top b)%Q.
Proof.
  unfold point_inside. rewrite !andb_true_iff, !Qle_bool_iff. tauto.
Qed.




Lemma flat_map_length_const {A B : Type} (f : A -> list B) (l : list A)
  (c : nat) :
  (forall a, In a l -> length (f a) = c) ->
  length (flat_map f l) = (length l * c)%nat.
Proof.
  induction l as [|a l IH]; intros H; [reflexivity|].
  cbn [flat_map length]. rewrite length_app, (H a (or_introl eq_refl)), IH.
  - lia.
  - intros a' Ha'. apply H. right. exact Ha'.
Qed.

Lemma element_table_rows (g : Grid2D) (index_base : Z) :
  length (_to_element_table g index_base)
  = (Z.to_nat (_nx g - 1) * Z.to_nat (_ny g - 1))%nat
  /\ Forall (fun e =>
               length e = 4%nat
               /\ NoDup e
               /\ Forall (fun k =>
                            (index_base <= k < index_base + _nx g * _ny g)%Z)
                         e)
            (_to_element_table g index_base).
Proof.
  unfold _to_element_table. split.
  - rewrite (flat_map_length_const _ _ (Z.to_nat (_ny g - 1))).
    + unfold range. rewrite count_from_length. reflexivity.
    + intros a _. rewrite length_map. unfold range. apply count_from_length.
  - apply Forall_forall. intros e He.
    apply in_flat_map in He. destruct He as (elx & Hx & He).
    apply in_map_iff in He. destruct He as (ely & <- & Hy).
    apply count_from_bounds in Hx. apply count_from_bounds in Hy.
    split; [reflexivity|]. split.
    + repeat constructor; cbn [In]; nia.
    + repeat constructor; nia.
Qed.

(** X3: the element table of a grid of nx by ny points has
    (nx-1)*(ny-1) elements (none when an axis has fewer than two
    points); every element has four different node numbers, all within
    [index_base, index_base + nx*ny). *)
Theorem element_table_count_and_bounds (g : Grid2D) (index_base : Z) :
  length (_to_element_table g index_base)
  = (Z.to_nat (_nx g - 1) * Z.to_nat (_ny g - 1))%nat
  /\ Forall (fun e =>
               length e = 4%nat
               /\ NoDup e
               /\ Forall (fun k =>
                            (index_base <= k < index_base + _nx g * _ny g)%Z)
                         e)
            (_to_element_table g index_base).
Proof. exact (element_table_rows g index_base). Qed.

Lemma midpoints_cons2 (u v : Q) (t : list Q) :
  midpoints (u :: v :: t) = ((v + u) / 2)%Q :: midpoints (v :: t).
Proof. reflexivity. Qed.

Lemma np_diff_cons2 (u v : Q) (t : list Q) :
  np_diff (u :: v :: t) = (v - u)%Q :: np_diff (v :: t).
Proof. reflexivity. Qed.

Lemma midpoints_length (l : list Q) : length (midpoints l) = pred (length l).
Proof.
  induction l as [|u [|v t] IH]; try reflexivity.
  rewrite midpoints_cons2. cbn [length] in *. rewrite IH. reflexivity.
Qed.

(** Nodes mid-way between equidistant centres, with any end nodes half a
    step outside: the centres of the nodes are the centres again, and the
    nodes have the step of the centres. *)
Lemma nodes_of_equidistant (d r : Q) (t : list Q) :
  forall u h : Q,
    (h == u - d / 2)%Q ->
    (r == last (u :: t) 0 + d / 2)%Q ->
    Forall (fun v => v == d)%Q (np_diff (u :: t)) ->
    Forall2 Qeq (midpoints (h :: midpoints (u :: t) ++ [r])) (u :: t)
    /\ Forall (fun v => v == d)%Q (np_diff (h :: midpoints (u :: t) ++ [r])).
Proof.
  induction t as [|v t IH]; intros u h Hh Hr Hd.
  - cbn [midpoints app last] in *. cbn [np_diff]. split.
    + constructor; [|constructor]. rewrite Hr, Hh. field.
    + constructor; [|constructor]. rewrite Hr, Hh. field.
  - rewrite np_diff_cons2 in Hd.
    pose proof (Forall_inv Hd) as Hvu. pose proof (Forall_inv_tail Hd) as Hd'.
    cbn beta in Hvu.
    assert (Hm : ((v + u) / 2 == v - d / 2)%Q).
    { rewrite <- Hvu. field. }
    assert (Hr' : (r == last (v :: t) 0 + d / 2)%Q) by exact Hr.
    destruct (IH v ((v + u) / 2)%Q Hm Hr' Hd') as [IH1 IH2].
    rewrite midpoints_cons2. cbn [app].
    rewrite midpoints_cons2, np_diff_cons2. split.
    + constructor; [|exact IH1]. rewrite Hh, <- Hvu. field.
    + constructor; [|exact IH2]. rewrite Hh, <- Hvu. field.
Qed.

Lemma py_index_last_two {A : Type} (l : list A) (a b : A) :
  py_index (l ++ [a; b]) (-1) = Ok b /\ py_index (l ++ [a; b]) (-2) = Ok a.
Proof.
  unfold py_index. rewrite length_app. cbn [length].
  replace (-1 <? 0)%Z with true by reflexivity.
  replace (-2 <? 0)%Z with true by reflexivity.
  replace ((-1 + Z.of_nat (length l + 2) <? 0)%Z) with false
    by (symmetry; apply Z.ltb_ge; lia).
  replace ((-2 + Z.of_nat (length l + 2) <? 0)%Z) with false
    by (symmetry; apply Z.ltb_ge; lia).
  replace ((Z.of_nat (length l + 2) <=? -1 + Z.of_nat (length l + 2))%Z)
    with false by (symmetry; apply Z.leb_gt; lia).
  replace ((Z.of_nat (length l + 2) <=? -2 + Z.of_nat (length l + 2))%Z)
    with false by (symmetry; apply Z.leb_gt; lia).
  cbn [orb].
  replace (Z.to_nat (-1 + Z.of_nat (length l + 2))) with (length l + 1)%nat
    by lia.
  replace (Z.to_nat (-2 + Z.of_nat (length l + 2))) with (length l + 0)%nat
    by lia.
  rewrite !nth_error_app2 by lia.
  replace (length l + 1 - length l)%nat with 1%nat by lia.
  replace (length l + 0 - length l)%nat with 0%nat by lia.
  split; reflexivity.
Qed.

Lemma np_diff_last_two (P : Q -> Prop) (l : list Q) (a b : Q) :
  Forall P (np_diff (l ++ [a; b])) -> P (b - a)%Q.
Proof.
  induction l as [|u [|v t] IH]; intros H.
  - exact (Forall_inv H).
  - cbn [app] in *. rewrite np_diff_cons2 in H.
    apply IH. exact (Forall_inv_tail H).
  - apply IH. change ((u :: v :: t) ++ [a; b]) with (u :: v :: (t ++ [a; b])) in H.
    rewrite np_diff_cons2 in H. exact (Forall_inv_tail H).
Qed.

Lemma py_index_nth {A : Type} (l : list A) (k : nat) (v : A) :
  nth_error l k = Some v -> py_index l (Z.of_nat k) = Ok v.
Proof.
  intros H. unfold py_index.
  assert (Hk : (k < length l)%nat) by (apply nth_error_Some; congruence).
  assert (E1 : (Z.of_nat k <? 0)%Z = false) by (apply Z.ltb_ge; lia).
  assert (E2 : (Z.of_nat (length l) <=? Z.of_nat k)%Z = false)
    by (apply Z.leb_gt; lia).
  cbv zeta. rewrite E1. cbv iota. rewrite E1, E2.
  cbn [orb]. rewrite Nat2Z.id, H. reflexivity.
Qed.

Lemma last_two {A : Type} (l : list A) :
  (2 <= length l)%nat -> exists l' a b, l = l' ++ [a; b].
Proof.
  intros H.
  destruct (@exists_last _ l) as (l1 & b & ->).
  { destruct l; [cbn in H; lia|discriminate]. }
  rewrite length_app in H. cbn [length] in H.
  destruct (@exists_last _ l1) as (l2 & a & ->).
  { destruct l1; [cbn in H; lia|discriminate]. }
  exists l2, a, b. rewrite <- app_assoc. reflexivity.
Qed.

Lemma centers_to_nodes_equidistant (u v : Q) (t : list Q) (d : Q) :
  Forall (fun w => w == d)%Q (np_diff (u :: v :: t)) ->
  exists h rest,
    _centers_to_nodes (u :: v :: t) = Ok (h :: rest)
    /\ (h == u - d / 2)%Q
    /\ length (h :: rest) = S (length (u :: v :: t))
    /\ Forall (fun w => w == d)%Q (np_diff (h :: rest))
    /\ Forall2 Qeq (_nodes_to_centers (h :: rest)) (u :: v :: t).
Proof.
  intros Hd.
  destruct (last_two (u :: v :: t)) as (l' & a & b & El); [cbn; lia|].
  destruct (py_index_last_two l' a b) as [E1 E2].
  pose proof (np_diff_last_two (fun w => w == d)%Q l' a b) as Hab.
  rewrite <- El in E1, E2, Hab. specialize (Hab Hd). cbn beta in Hab.
  assert (Hlast : last (u :: v :: t) 0%Q = b).
  { rewrite El. change [a; b] with ([a] ++ [b]).
    rewrite app_assoc. apply last_last. }
  pose proof (Forall_inv Hd) as Hvu. cbn beta in Hvu.
  unfold _centers_to_nodes.
  pose proof (py_index_nth (u :: v :: t) 0 u eq_refl) as P0.
  pose proof (py_index_nth (u :: v :: t) 1 v eq_refl) as P1.
  change (Z.of_nat 0) with 0%Z in P0. change (Z.of_nat 1) with 1%Z in P1.
  rewrite P0, P1.
  cbn [bind]. rewrite E1. cbn [bind]. rewrite E2. cbn [bind].
  eexists. eexists. split; [reflexivity|].
  assert (Hh : (u - (v - u) / 2 == u - d / 2)%Q) by (rewrite <- Hvu; field).
  assert (Hr : (b + (b - a) / 2 == last (u :: v :: t) 0 + d / 2)%Q).
  { rewrite Hlast, <- Hab. field. }
  destruct (nodes_of_equidistant d _ (v :: t) u _ Hh Hr Hd) as [H1 H2].
  split; [exact Hh|]. split.
  - cbn [length]. rewrite length_app, midpoints_length. cbn [length]. lia.
  - split; [exact H2|exact H1].
Qed.



Lemma create_axis_elements (x0 dx : Q) (n : Z) :
  (1 <= n)%Z -> (0 <= dx)%Q ->
  exists xs,
    _create_axis x0 dx n = Ok xs
    /\ length xs = Z.to_nat n
    /\ Forall (fun v => x0 <= v <= x0 + dx * inject_Z (n - 1))%Q xs.
Proof.
  intros Hn Hd. unfold _create_axis, linspace.
  replace (n <? 0)%Z with false by (symmetry; apply Z.ltb_ge; lia).
  destruct (n =? 1)%Z eqn:E1.
  - apply Z.eqb_eq in E1. subst n. eexists. split; [reflexivity|].
    split; [reflexivity|]. constructor; [|constructor].
    change (inject_Z (1 - 1)) with 0%Q. lra.
  - apply Z.eqb_neq in E1. eexists. split; [reflexivity|].
    split; [rewrite length_map; apply count_from_length|].
    apply Forall_forall. intros v Hv.
    apply in_map_iff in Hv. destruct Hv as (i & <- & Hi).
    apply count_from_bounds in Hi.
    assert (Hk : (0 < inject_Z (n - 1))%Q).
    { change 0%Q with (inject_Z 0). rewrite <- Zlt_Qlt. lia. }
    assert (Hi0 : (0 <= inject_Z i)%Q).
    { change 0%Q with (inject_Z 0). rewrite <- Zle_Qle. lia. }
    assert (Hi1 : (inject_Z i <= inject_Z (n - 1))%Q).
    { rewrite <- Zle_Qle. lia. }
    assert (Es : ((x0 + dx * inject_Z (n - 1) - x0) / inject_Z (n - 1)
                  == dx)%Q) by (field; lra).
    rewrite Es. split; nra.
Qed.

Lemma create_axis_equidistant (x0 dx : Q) (n : Z) :
  (2 <= n)%Z ->
  exists u v t,
    _create_axis x0 dx n = Ok (u :: v :: t)
    /\ (u == x0)%Q
    /\ length (u :: v :: t) = Z.to_nat n
    /\ Forall (fun w => w == dx)%Q (np_diff (u :: v :: t)).
Proof.
  intros Hn. unfold _create_axis, linspace.
  replace (n <? 0)%Z with false by (symmetry; apply Z.ltb_ge; lia).
  replace (n =? 1)%Z with false by (symmetry; apply Z.eqb_neq; lia).
  assert (Hk : ~ (inject_Z (n - 1) == 0)%Q).
  { change 0%Q with (inject_Z 0). rewrite inject_Z_injective. lia. }
  pose proof (np_diff_affine x0
                ((x0 + dx * inject_Z (n - 1) - x0) / inject_Z (n - 1))
                (Z.to_nat n) 0) as Hd.
  pose proof (count_from_length (Z.to_nat n) 0) as Hl.
  unfold range.
  destruct (Z.to_nat n) as [|[|k]] eqn:En; try lia.
  cbn [count_from map] in *.
  eexists. eexists. eexists. split; [reflexivity|].
  split; [change (inject_Z 0) with 0%Q; ring|].
  split; [cbn [length] in *; rewrite length_map; lia|].
  eapply Forall_impl; [|exact Hd].
  intros w Hw. cbn beta in Hw. rewrite Hw. field. exact Hk.
Qed.

Lemma equidistant_last_ge (d : Q) (l : list Q) :
  (0 <= d)%Q ->
  forall a, Forall (fun w => w == d)%Q (np_diff (a :: l)) ->
            (a <= last (a :: l) 0)%Q.
Proof.
  intros Hd. induction l as [|b l IH]; intros a H.
  - cbn [last]. lra.
  - rewrite np_diff_cons2 in H.
    pose proof (Forall_inv H) as Hab. cbn beta in Hab.
    specialize (IH b (Forall_inv_tail H)).
    change (last (a :: b :: l) 0%Q) with (last (b :: l) 0%Q). lra.
Qed.

Lemma equidistant_accepted (d : Q) (a b : Q) (l : list Q) :
  (0 <= d)%Q ->
  Forall (fun w => w == d)%Q (np_diff (a :: b :: l)) ->
  _check_equidistant (a :: b :: l) = Ok tt
  /\ decreasing (a :: b :: l) = false
  /\ (spacing_of (a :: b :: l) == d)%Q.
Proof.
  intros Hd H. split; [eapply check_equidistant_constant; exact H|]. split.
  - unfold decreasing. apply Qlt_bool_false.
    apply (equidistant_last_ge d); assumption.
  - exact (Forall_inv H).
Qed.

Lemma centers_to_nodes_short (xc : list Q) :
  (length xc < 2)%nat -> _centers_to_nodes xc = Raise IndexError.
Proof.
  destruct xc as [|u [|v t]]; cbn [length]; intros H; try lia; reflexivity.
Qed.

Lemma centers_to_nodes_long (xc : list Q) :
  (2 <= length xc)%nat -> exists xn, _centers_to_nodes xc = Ok xn.
Proof.
  intros H. destruct xc as [|u [|v t]]; try (cbn in H; lia).
  destruct (last_two (u :: v :: t) H) as (l' & a & b & El).
  destruct (py_index_last_two l' a b) as [E1 E2].
  rewrite <- El in E1, E2.
  pose proof (py_index_nth (u :: v :: t) 0 u eq_refl) as P0.
  pose proof (py_index_nth (u :: v :: t) 1 v eq_refl) as P1.
  change (Z.of_nat 0) with 0%Z in P0. change (Z.of_nat 1) with 1%Z in P1.
  unfold _centers_to_nodes. rewrite P0, P1. cbn [bind].
  rewrite E1. cbn [bind]. rewrite E2. cbn [bind].
  eexists. reflexivity.
Qed.

Lemma node_grid_value (g : Grid2D) :
  (2 <= _nx g)%Z -> (2 <= _ny g)%Z -> (0 <= _dx g)%Q -> (0 <= _dy g)%Q ->
  exists gn,
    node_grid g = Ok gn
    /\ _nx gn = (_nx g + 1)%Z /\ _ny gn = (_ny g + 1)%Z
    /\ (_x0 gn == _x0 g - _dx g / 2)%Q /\ (_dx gn == _dx g)%Q
    /\ (_y0 gn == _y0 g - _dy g / 2)%Q /\ (_dy gn == _dy g)%Q.
Proof.
  intros Hnx Hny Hdx Hdy.
  destruct (create_axis_equidistant (_x0 g) (_dx g) (_nx g) Hnx)
    as (ux & vx & tx & Ex & Hux & Lx & Dx).
  destruct (create_axis_equidistant (_y0 g) (_dy g) (_ny g) Hny)
    as (uy & vy & ty & Ey & Huy & Ly & Dy).
  destruct (centers_to_nodes_equidistant ux vx tx (_dx g) Dx)
    as (hx & rx & Enx & Hhx & Lnx & Dnx & _).
  destruct (centers_to_nodes_equidistant uy vy ty (_dy g) Dy)
    as (hy & ry & Eny & Hhy & Lny & Dny & _).
  destruct rx as [|bx rx]; [cbn [length] in Lnx; lia|].
  destruct ry as [|b_y ry]; [cbn [length] in Lny; lia|].
  destruct (equidistant_accepted (_dx g) hx bx rx Hdx Dnx) as (Cx & Ix & Sx).
  destruct (equidistant_accepted (_dy g) hy b_y ry Hdy Dny) as (Cy & Iy & Sy).
  eexists. split.
  - unfold node_grid, x, y. rewrite Ex. cbn [bind]. rewrite Enx. cbn [bind].
    rewrite Ey. cbn [bind]. rewrite Eny. cbn [bind].
    unfold Grid2D_init. cbn [bind].
    destruct (length (hx :: bx :: rx) =? 4)%nat;
      apply (create_from_x_and_y_accepted _ _ _ hx hy (bx :: rx) (b_y :: ry));
      try reflexivity; assumption.
  - cbn [_nx _ny _x0 _dx _y0 _dy].
    split; [rewrite Lnx, Lx; lia|]. split; [rewrite Lny, Ly; lia|].
    split; [rewrite Hhx, Hux; reflexivity|]. split; [exact Sx|].
    split; [rewrite Hhy, Huy; reflexivity|exact Sy].
Qed.

Lemma xy_length (g : Grid2D) :
  (0 <= _nx g)%Z -> (0 <= _ny g)%Z ->
  exists gxy,
    xy g = Ok gxy /\ length gxy = (Z.to_nat (_nx g) * Z.to_nat (_ny g))%nat.
Proof.
  intros Hx Hy.
  destruct (create_axis_length (_x0 g) (_dx g) (_nx g) Hx) as (xs & Ex & Lx).
  destruct (create_axis_length (_y0 g) (_dy g) (_ny g) Hy) as (ys & Ey & Ly).
  eexists. split.
  - unfold xy, x, y. rewrite Ex, Ey. cbn [bind]. reflexivity.
  - rewrite (flat_map_length_const _ _ (length xs)).
    + rewrite Lx, Ly. lia.
    + intros a _. apply length_map.
Qed.

(** X5: for a grid with at least two points per axis and spacings that
    are not negative, [get_node_coordinates] gives (nx+1)*(ny+1) nodes. *)
Theorem get_node_coordinates_count (g : Grid2D) :
  (2 <= _nx g)%Z -> (2 <= _ny g)%Z -> (0 <= _dx g)%Q -> (0 <= _dy g)%Q ->
  exists nc,
    get_node_coordinates g = Ok nc
    /\ Z.of_nat (length nc) = ((_nx g + 1) * (_ny g + 1))%Z.
Proof.
  intros Hnx Hny Hdx Hdy.
  destruct (node_grid_value g Hnx Hny Hdx Hdy) as (gn & Egn & Nx & Ny & _).
  destruct (xy_length gn) as (gxy & Exy & Lxy); try lia.
  exists gxy. split.
  - unfold get_node_coordinates. rewrite Egn. cbn [bind]. exact Exy.
  - rewrite Lxy, Nx, Ny. lia.
Qed.

Lemma get_node_coordinates_count_witness :
  exists nc,
    get_node_coordinates (mkGrid2D 0 1 3 0 2 2 "LONG/LAT") = Ok nc
    /\ Z.of_nat (length nc) = ((3 + 1) * (2 + 1))%Z.
Proof.
  apply (get_node_coordinates_count (mkGrid2D 0 1 3 0 2 2 "LONG/LAT"));
    cbn [_nx _ny _dx _dy]; try lia; lra.
Defined.

(** X6: a grid with a single point (or none) on one of its axes has no
    node coordinates and no mesh: both [get_node_coordinates] and
    [to_mesh] raise [IndexError]. *)
Theorem single_row_grid_has_no_nodes (g : Grid2D) (projection : option string)
  (z : z_arg) :
  (0 <= _nx g)%Z -> (0 <= _ny g)%Z -> (_nx g <= 1 \/ _ny g <= 1)%Z ->
  get_node_coordinates g = Raise IndexError
  /\ to_mesh g projection z = Raise IndexError.
Proof.
  intros Hx Hy Hone.
  destruct (create_axis_length (_x0 g) (_dx g) (_nx g) Hx) as (xs & Ex & Lx).
  destruct (create_axis_length (_y0 g) (_dy g) (_ny g) Hy) as (ys & Ey & Ly).
  assert (E : node_grid g = Raise IndexError).
  { unfold node_grid, x, y. rewrite Ex. cbn [bind].
    destruct (Z_le_gt_dec (_nx g) 1) as [H1|H1].
    - rewrite centers_to_nodes_short by lia. reflexivity.
    - destruct (centers_to_nodes_long xs) as (xn & ->); [lia|].
      cbn [bind]. rewrite Ey. cbn [bind].
      rewrite centers_to_nodes_short by lia. reflexivity. }
  unfold get_node_coordinates, to_mesh. rewrite E. split; reflexivity.
Qed.

Lemma single_row_grid_has_no_nodes_witness :
  get_node_coordinates (mkGrid2D 0 1 1 0 1 5 "LONG/LAT") = Raise IndexError
  /\ to_mesh (mkGrid2D 0 1 1 0 1 5 "LONG/LAT") None ZNone = Raise IndexError.
Proof.
  apply (single_row_grid_has_no_nodes (mkGrid2D 0 1 1 0 1 5 "LONG/LAT"));
    cbn [_nx _ny]; lia.
Defined.

Lemma xy_points (g : Grid2D) :
  (1 <= _nx g)%Z -> (1 <= _ny g)%Z -> (0 <= _dx g)%Q -> (0 <= _dy g)%Q ->
  exists gxy,
    xy g = Ok gxy
    /\ length gxy = (Z.to_nat (_nx g) * Z.to_nat (_ny g))%nat
    /\ Forall (fun p =>
                 (_x0 g <= fst p <= _x0 g + _dx g * inject_Z (_nx g - 1))%Q
                 /\ (_y0 g <= snd p
                     <= _y0 g + _dy g * inject_Z (_ny g - 1))%Q) gxy.
Proof.
  intros Hx Hy Hdx Hdy.
  destruct (create_axis_elements (_x0 g) (_dx g) (_nx g) Hx Hdx)
    as (xs & Ex & Lx & Bx).
  destruct (create_axis_elements (_y0 g) (_dy g) (_ny g) Hy Hdy)
    as (ys & Ey & Ly & By).
  eexists. split; [|split].
  - unfold xy, x, y. rewrite Ex, Ey. cbn [bind]. reflexivity.
  - rewrite (flat_map_length_const _ _ (length xs)).
    + rewrite Lx, Ly. lia.
    + intros a _. apply length_map.
  - apply Forall_forall. intros p Hp.
    apply in_flat_map in Hp. destruct Hp as (yv & Hyv & Hp).
    apply in_map_iff in Hp. destruct Hp as (xv & <- & Hxv).
    rewrite Forall_forall in Bx, By. cbn [fst snd].
    split; [apply Bx|apply By]; assumption.
Qed.

(** X7: for a grid with at least two points per axis and spacings that
    are not negative, [to_mesh] with [z] left out, a scalar, or an array of
    (nx+1)*(ny+1) values hands the builder (nx+1)*(ny+1) nodes (as many x,
    y, z values and codes) and nx*ny elements, one per grid point, whose
    node numbers all lie in 1..(nx+1)*(ny+1); an array [z] of another
    length raises [ValueError]. *)
Theorem to_mesh_nodes_and_elements (g : Grid2D) (projection : option string)
  (z : z_arg) :
  (2 <= _nx g)%Z -> (2 <= _ny g)%Z -> (0 <= _dx g)%Q -> (0 <= _dy g)%Q ->
  match z with
  | ZArray za =>
      Z.of_nat (length za) <> ((_nx g + 1) * (_ny g + 1))%Z ->
      exists msg, to_mesh g projection z = Raise (ValueError msg)
  | _ => True
  end
  /\ (match z with
      | ZArray za => Z.of_nat (length za) = ((_nx g + 1) * (_ny g + 1))%Z
      | _ => True
      end ->
      exists m,
        to_mesh g projection z = Ok m
        /\ Z.of_nat (length (m_x m)) = ((_nx g + 1) * (_ny g + 1))%Z
        /\ Z.of_nat (length (m_y m)) = ((_nx g + 1) * (_ny g + 1))%Z
        /\ Z.of_nat (length (m_z m)) = ((_nx g + 1) * (_ny g + 1))%Z
        /\ Z.of_nat (length (m_codes m)) = ((_nx g + 1) * (_ny g + 1))%Z
        /\ Z.of_nat (length (m_elem_table m)) = (_nx g * _ny g)%Z
        /\ Forall (Forall (fun k => (1 <= k <= (_nx g + 1) * (_ny g + 1))%Z))
                  (m_elem_table m)).
Proof.
  intros Hnx Hny Hdx Hdy.
  set (nodes := ((_nx g + 1) * (_ny g + 1))%Z).
  destruct (node_grid_value g Hnx Hny Hdx Hdy)
    as (gn & Egn & Nx & Ny & _ & Dx & _ & Dy).
  destruct (xy_length gn) as (gxy & Exy & Lxy); try lia.
  destruct (bbox_value gn) as (_ & _ & b & _ & _ & _ & _ & Eb & _); try lia.
  assert (En : n gn = nodes) by (unfold n, nodes; rewrite Nx, Ny; reflexivity).
  split.
  - destruct z as [| |za]; try exact I. intros Hza.
    unfold to_mesh. rewrite Egn. cbn [bind]. rewrite Exy. cbn [bind].
    rewrite En. apply Z.eqb_neq in Hza. rewrite Hza. cbn [negb bind].
    eexists. reflexivity.
  - intros Hz.
    assert (Ez : exists zv,
               match z with
               | ZNone => Ok (repeat 0%Q (Z.to_nat (n gn)))
               | ZScalar z0 => Ok (repeat (z0 * 1)%Q (Z.to_nat (n gn)))
               | ZArray z0 =>
                   if negb (Z.of_nat (length z0) =? n gn)%Z
                   then Raise (ValueError
                     "z must either be scalar or have length of nodes ((nx+1)*(ny+1))")
                   else Ok z0
               end = Ok zv /\ Z.of_nat (length zv) = nodes).
    { destruct z as [|z0|za].
      - eexists. split; [reflexivity|]. rewrite repeat_length, En.
        unfold nodes. lia.
      - eexists. split; [reflexivity|]. rewrite repeat_length, En.
        unfold nodes. lia.
      - exists za. rewrite En. apply Z.eqb_eq in Hz. rewrite Hz.
        split; [reflexivity|]. apply Z.eqb_eq. exact Hz. }
    destruct Ez as (zv & Ezv & Lzv).
    eexists. split.
    + unfold to_mesh. rewrite Egn. cbn [bind]. rewrite Exy. cbn [bind].
      rewrite Ezv. cbn [bind]. rewrite Eb. cbn [bind]. reflexivity.
    + cbn [m_x m_y m_z m_codes m_elem_table].
      rewrite !length_map, Lxy, Nx, Ny.
      destruct (element_table_rows gn 1) as [Lt Bt].
      repeat split; try (unfold nodes; lia); try exact Lzv.
      eapply Forall_impl; [|exact Bt].
      intros e (_ & _ & He). eapply Forall_impl; [|exact He].
      intros k Hk. cbn beta in Hk. rewrite Nx, Ny in Hk.
      unfold nodes. lia.
Qed.

Lemma to_mesh_nodes_and_elements_witness :
  exists m,
    to_mesh (mkGrid2D 0 1 3 0 2 2 "LONG/LAT") None
            (ZArray [0; 1; 2; 3; 4; 5; 6; 7; 8; 9; 10; 11]%Q) = Ok m
    /\ Z.of_nat (length (m_x m)) = 12%Z
    /\ Z.of_nat (length (m_y m)) = 12%Z
    /\ Z.of_nat (length (m_z m)) = 12%Z
    /\ Z.of_nat (length (m_codes m)) = 12%Z
    /\ Z.of_nat (length (m_elem_table m)) = 6%Z
    /\ Forall (Forall (fun k => (1 <= k <= 12)%Z)) (m_elem_table m).
Proof.
  assert (H2 : (2 <= 2)%Z) by lia.
  assert (H3 : (2 <= 3)%Z) by lia.
  assert (Q1 : (0 <= 1)%Q) by (apply Qle_bool_iff; reflexivity).
  assert (Q2 : (0 <= 2)%Q) by (apply Qle_bool_iff; reflexivity).
  exact (proj2 (to_mesh_nodes_and_elements
                  (mkGrid2D 0 1 3 0 2 2 "LONG/LAT") None
                  (ZArray [0; 1; 2; 3; 4; 5; 6; 7; 8; 9; 10; 11]%Q)
                  H3 H2 Q1 Q2) eq_refl).
Defined.

Lemma node_code_inside (b : BoundingBox) (p : Q * Q) :
  (left b < fst p < right b)%Q -> (bottom b < snd p < top b)%Q ->
  node_code b p = 0%Z.
Proof.
  intros [Hl Hr] [Hb Ht]. unfold node_code.
  assert (E1 : Qeq_bool (snd p) (top b) = false).
  { apply not_true_is_false. intros E. apply Qeq_bool_iff in E. lra. }
  assert (E2 : Qeq_bool (fst p) (right b) = false).
  { apply not_true_is_false. intros E. apply Qeq_bool_iff in E. lra. }
  assert (E3 : Qeq_bool (snd p) (bottom b) = false).
  { apply not_true_is_false. intros E. apply Qeq_bool_iff in E. lra. }
  assert (E4 : Qeq_bool (fst p) (left b) = false).
  { apply not_true_is_false. intros E. apply Qeq_bool_iff in E. lra. }
  rewrite E1, E2, E3, E4. reflexivity.
Qed.

(** X8: for a grid with at least two points per axis and positive
    spacings, every node that [to_mesh] hands to the builder has code 0:
    the edges of the node grid's bounding box, with which the node
    coordinates are compared, lie half a cell outside the outermost
    nodes. *)
Theorem to_mesh_codes_all_zero (g : Grid2D) (projection : option string) :
  (2 <= _nx g)%Z -> (2 <= _ny g)%Z -> (0 < _dx g)%Q -> (0 < _dy g)%Q ->
  exists m,
    to_mesh g projection ZNone = Ok m
    /\ m_codes m <> []
    /\ Forall (fun c => c = 0%Z) (m_codes m).
Proof.
  intros Hnx Hny Hdx Hdy.
  destruct (node_grid_value g Hnx Hny) as (gn & Egn & Nx & Ny & _ & Dx & _ & Dy);
    try lra.
  destruct (xy_points gn) as (gxy & Exy & Lxy & Pxy); try lia; try lra.
  destruct (bbox_value gn) as (_ & _ & b & _ & _ & _ & _ & Eb & Hl & Hb & Hr & Ht);
    try lia.
  eexists. split; [|split].
  - unfold to_mesh. rewrite Egn. cbn [bind]. rewrite Exy. cbn [bind].
    rewrite Eb. cbn [bind]. reflexivity.
  - cbn [m_codes]. intros E. apply (f_equal (@length Z)) in E.
    rewrite length_map, Lxy in E. cbn [length] in E. nia.
  - cbn [m_codes]. apply Forall_map.
    eapply Forall_impl; [|exact Pxy].
    intros p [[Hx0 Hx1] [Hy0 Hy1]].
    assert (Px : (0 < _dx gn)%Q) by (rewrite Dx; exact Hdx).
    assert (Py : (0 < _dy gn)%Q) by (rewrite Dy; exact Hdy).
    apply node_code_inside; rewrite ?Hl, ?Hb, ?Hr, ?Ht; split;
      unfold Qdiv; change (/ 2)%Q with (1 # 2)%Q; lra.
Qed.

Lemma to_mesh_codes_all_zero_witness :
  exists m,
    to_mesh (mkGrid2D 0 1 3 0 2 2 "LONG/LAT") None ZNone = Ok m
    /\ m_codes m <> []
    /\ Forall (fun c => c = 0%Z) (m_codes m).
Proof.
  apply (to_mesh_codes_all_zero (mkGrid2D 0 1 3 0 2 2 "LONG/LAT") None);
    cbn [_nx _ny _dx _dy]; try lia; reflexivity.
Defined.

Lemma fold_min_spec (l : list Q) :
  forall m0,
    (fold_left (fun m u => if Qlt_bool u m then u else m) l m0 <= m0)%Q
    /\ Forall (fun v =>
                 fold_left (fun m u => if Qlt_bool u m then u else m) l m0
                 <= v)%Q l.
Proof.
  induction l as [|a l IH]; intros m0; cbn [fold_left].
  - split; [lra|constructor].
  - destruct (Qlt_bool_spec a m0) as [H|H].
    + destruct (IH a) as [H1 H2]. split; [lra|]. constructor; assumption.
    + destruct (IH m0) as [H1 H2]. split; [lra|]. constructor; [lra|assumption].
Qed.

Lemma fold_max_spec (l : list Q) :
  forall m0,
    (m0 <= fold_left (fun m u => if Qlt_bool m u then u else m) l m0)%Q
    /\ Forall (fun v =>
                 v <= fold_left (fun m u => if Qlt_bool m u then u else m)
                                l m0)%Q l.
Proof.
  induction l as [|a l IH]; intros m0; cbn [fold_left].
  - split; [lra|constructor].
  - destruct (Qlt_bool_spec m0 a) as [H|H].
    + destruct (IH a) as [H1 H2]. split; [lra|]. constructor; assumption.
    + destruct (IH m0) as [H1 H2]. split; [lra|]. constructor; [lra|assumption].
Qed.

Lemma np_min_spec (l : list Q) :
  l <> [] -> exists m, np_min l = Ok m /\ Forall (fun v => m <= v)%Q l.
Proof.
  destruct l as [|a l]; [congruence|]. intros _.
  destruct (fold_min_spec l a) as [H1 H2].
  eexists. split; [reflexivity|]. constructor; assumption.
Qed.

Lemma np_max_spec (l : list Q) :
  l <> [] -> exists m, np_max l = Ok m /\ Forall (fun v => v <= m)%Q l.
Proof.
  destruct l as [|a l]; [congruence|]. intros _.
  destruct (fold_max_spec l a) as [H1 H2].
  eexists. split; [reflexivity|]. constructor; assumption.
Qed.

Lemma xy_to_bbox_spec (xy : list (Q * Q)) (buffer : option Q) :
  xy <> [] ->
  exists l b r t,
    xy_to_bbox xy buffer
    = Ok (mkBoundingBox (l - match buffer with Some v => v | None => 0 end)
                        (b - match buffer with Some v => v | None => 0 end)
                        (r + match buffer with Some v => v | None => 0 end)
                        (t + match buffer with Some v => v | None => 0 end))
    /\ Forall (fun p => l <= fst p <= r /\ b <= snd p <= t)%Q xy.
Proof.
  intros Hne.
  assert (Nf : map fst xy <> []) by (destruct xy; [congruence|discriminate]).
  assert (Ns : map snd xy <> []) by (destruct xy; [congruence|discriminate]).
  destruct (np_min_spec _ Nf) as (l & El & Hl).
  destruct (np_min_spec _ Ns) as (b & Eb & Hb).
  destruct (np_max_spec _ Nf) as (r & Er & Hr).
  destruct (np_max_spec _ Ns) as (t & Et & Ht).
  exists l, b, r, t. split.
  - unfold xy_to_bbox. rewrite El. cbn [bind]. rewrite Eb. cbn [bind].
    rewrite Er. cbn [bind]. rewrite Et. cbn [bind]. reflexivity.
  - rewrite Forall_map in Hl, Hb, Hr, Ht.
    rewrite Forall_forall in *. intros p Hp.
    specialize (Hl p Hp). specialize (Hb p Hp).
    specialize (Hr p Hp). specialize (Ht p Hp). cbn beta in *. lra.
Qed.

(** X9: [xy_to_bbox] of at least one point, with a buffer that is not
    negative (or left out), is a box that holds every one of the points;
    without points it raises [ValueError]. *)
Theorem xy_to_bbox_holds_every_point (xy : list (Q * Q)) (buffer : option Q) :
  (0 <= match buffer with Some v => v | None => 0 end)%Q ->
  match xy with
  | [] => exists msg, xy_to_bbox xy buffer = Raise (ValueError msg)
  | _ :: _ =>
      exists b,
        xy_to_bbox xy buffer = Ok b
        /\ Forall (fun p => point_inside b p = true) xy
  end.
Proof.
  intros Hbuf. destruct xy as [|p0 xy'] eqn:Exy.
  - eexists. reflexivity.
  - rewrite <- Exy.
    destruct (xy_to_bbox_spec xy buffer) as (l & b & r & t & E & H);
      [rewrite Exy; discriminate|].
    eexists. split; [exact E|].
    eapply Forall_impl; [|exact H].
    intros p Hp. cbn beta in Hp. apply point_inside_iff.
    cbn [left bottom right top]. lra.
Qed.

Lemma xy_to_bbox_holds_every_point_witness :
  exists b,
    xy_to_bbox [(0, 3); (2, 1 # 2); (-1, 1)]%Q (Some (1 # 10)) = Ok b
    /\ Forall (fun p => point_inside b p = true)
              [(0, 3); (2, 1 # 2); (-1, 1)]%Q.
Proof.
  apply (xy_to_bbox_holds_every_point [(0, 3); (2, 1 # 2); (-1, 1)]%Q
                                      (Some (1 # 10))).
  apply Qle_bool_iff. reflexivity.
Defined.

Lemma ceil_positive (q : Q) : (0 < q)%Q -> (1 <= ceil q)%Z.
Proof.
  intros H. unfold ceil. pose proof (Qle_ceiling q) as Hc.
  assert (Hz : (inject_Z 0 < inject_Z (Qceiling q))%Q).
  { change (inject_Z 0) with 0%Q. lra. }
  rewrite <- Zlt_Qlt in Hz. lia.
Qed.

(** * Further properties of the file operations *)

Lemma count_from_nth (n : nat) : forall (a : Z) (j : nat),
  (j < n)%nat -> nth_error (count_from n a) j = Some (a + Z.of_nat j)%Z.
Proof.
  induction n as [|n IH]; intros a j Hj; [lia|].
  destruct j as [|j]; cbn [count_from nth_error].
  - f_equal. lia.
  - rewrite IH by lia. f_equal. lia.
Qed.

Lemma list_set_middle {A : Type} (pre : list A) (x y : A) (post : list A) :
  list_set (pre ++ x :: post) (length pre) y = Some (pre ++ y :: post).
Proof.
  induction pre as [|a pre IH]; cbn [app length list_set]; [reflexivity|].
  rewrite IH. reflexivity.
Qed.

Lemma nth_error_middle {A : Type} (pre : list A) (x : A) (post : list A) :
  nth_error (pre ++ x :: post) (length pre) = Some x.
Proof.
  rewrite nth_error_app2 by lia. rewrite Nat.sub_diag. reflexivity.
Qed.

(** Writing a record of a file in place. *)
Lemma write_in_place (ax : TemporalAxis) (dv : Q) (info : list string)
  (pre post : list (list ItemData)) (done todo : list ItemData)
  (d : ItemData) (time : Q) (data : list fval) :
  WriteItemTimeStep (mkDfs ax dv info (pre ++ (done ++ d :: todo) :: post))
                    (Z.of_nat (length done) + 1) (Z.of_nat (length pre))
                    time data
  = Ok (mkDfs ax dv info
              (pre ++ (done ++ mkItemData time data :: todo) :: post)).
Proof.
  unfold WriteItemTimeStep. cbn [steps TimeAxis DeleteValueFloat ItemInfo].
  replace (Z.of_nat (length done) + 1 <? 1)%Z with false
    by (symmetry; apply Z.ltb_ge; lia).
  replace (Z.of_nat (length pre) <? 0)%Z with false
    by (symmetry; apply Z.ltb_ge; lia).
  cbn [orb]. rewrite Nat2Z.id, nth_error_middle.
  replace (Z.to_nat (Z.of_nat (length done) + 1 - 1)) with (length done) by lia.
  rewrite list_set_middle, list_set_middle. reflexivity.
Qed.

Lemma record_at_middle {A : Type} (pre post : list (list A))
  (done todo : list A) (d : A) :
  record_at (pre ++ (done ++ d :: todo) :: post) (length pre) (length done)
  = Some d.
Proof.
  unfold record_at. rewrite nth_error_middle. apply nth_error_middle.
Qed.

Section EditLoop.

Variable X : Type.
Variable body : DfsFile -> Z -> Z -> result DfsFile.
Variable F : ItemData -> X -> ItemData.
Variable R : ItemData -> X -> Prop.
Variable S0 : list (list ItemData).
Variable aux : list (list X).
Variable n_items : nat.

(** The body of the loops rewrites the record it is at: where the file
    being written still holds the record [d] of the original rows [S0],
    it stores [F d x] for the element [x] of [aux] at the same place. *)
Hypothesis Hbody :
  forall (o : DfsFile) (t j : nat) (d : ItemData) (x : X),
    (j < n_items)%nat ->
    record_at (steps o) t j = Some d ->
    record_at S0 t j = Some d ->
    record_at aux t j = Some x ->
    R d x ->
    body o (Z.of_nat t) (Z.of_nat j)
    = WriteItemTimeStep o (Z.of_nat j + 1) (Z.of_nat t)
                        (Time (F d x)) (Data (F d x)).

Hypothesis F_record : forall d x, mkItemData (Time (F d x)) (Data (F d x)) = F d x.

Lemma edit_items (ax : TemporalAxis) (dv : Q) (info : list string)
  (pre post : list (list ItemData)) :
  forall (todo : list ItemData) (atodo : list X) (done : list ItemData),
    Forall2 R todo atodo ->
    (length done + length todo <= n_items)%nat ->
    (forall i d, nth_error todo i = Some d ->
                 record_at S0 (length pre) (length done + i) = Some d) ->
    (forall i x, nth_error atodo i = Some x ->
                 record_at aux (length pre) (length done + i) = Some x) ->
    foldM (fun o j => body o (Z.of_nat (length pre)) j)
          (count_from (length todo) (Z.of_nat (length done)))
          (mkDfs ax dv info (pre ++ (done ++ todo) :: post))
    = Ok (mkDfs ax dv info (pre ++ (done ++ map2 F todo atodo) :: post)).
Proof.
  induction todo as [|d todo IH]; intros atodo done HR Hlen H0 Ha.
  - inversion HR; subst. reflexivity.
  - inversion HR as [|d' x todo' atodo' Hdx HR' E1 E2]; subst.
    cbn [length count_from foldM map2].
    rewrite (Hbody _ (length pre) (length done) d x).
    + rewrite write_in_place. cbn [bind]. rewrite F_record.
      specialize (IH atodo' (done ++ [F d x]) HR').
      rewrite length_app in IH. cbn [length] in IH.
      replace (Z.of_nat (length done + 1)) with (Z.of_nat (length done) + 1)%Z
        in IH by lia.
      rewrite <- !app_assoc in IH. cbn [app] in IH.
      apply IH.
      * cbn [length] in Hlen. lia.
      * intros i d0 Hi.
        replace (length done + 1 + i)%nat with (length done + S i)%nat by lia.
        apply H0. exact Hi.
      * intros i x0 Hi.
        replace (length done + 1 + i)%nat with (length done + S i)%nat by lia.
        apply Ha. exact Hi.
    + cbn [length] in Hlen. lia.
    + cbn [steps]. apply record_at_middle.
    + specialize (H0 0%nat d eq_refl). rewrite Nat.add_0_r in H0. exact H0.
    + specialize (Ha 0%nat x eq_refl). rewrite Nat.add_0_r in Ha. exact Ha.
    + exact Hdx.
Qed.

Lemma edit_steps (ax : TemporalAxis) (dv : Q) (info : list string) :
  forall (todo : list (list ItemData)) (atodo : list (list X))
         (pre : list (list ItemData)),
    Forall2 (Forall2 R) todo atodo ->
    Forall (fun row => length row = n_items) todo ->
    (forall i row, nth_error todo i = Some row ->
                   nth_error S0 (length pre + i) = Some row) ->
    (forall i row, nth_error atodo i = Some row ->
                   nth_error aux (length pre + i) = Some row) ->
    foldM (fun o t => foldM (fun o j => body o t j) (range n_items) o)
          (count_from (length todo) (Z.of_nat (length pre)))
          (mkDfs ax dv info (pre ++ todo))
    = Ok (mkDfs ax dv info (pre ++ map2 (map2 F) todo atodo)).
Proof.
  induction todo as [|row todo IH]; intros atodo pre HR Hn H0 Ha.
  - inversion HR; subst. reflexivity.
  - inversion HR as [|row' arow todo' atodo' Hrow HR' E1 E2]; subst.
    cbn [length count_from foldM map2].
    pose proof (Forall_inv Hn) as Hrown. cbn beta in Hrown.
    pose proof (edit_items ax dv info pre todo row arow [] Hrow) as Hi.
    cbn [length app Nat.add] in Hi. change (Z.of_nat 0) with 0%Z in Hi.
    rewrite Hrown in Hi. unfold range. rewrite Hi.
    + cbn [bind].
      specialize (IH atodo' (pre ++ [map2 F row arow]) HR'
                     (Forall_inv_tail Hn)).
      rewrite length_app in IH. cbn [length] in IH.
      replace (Z.of_nat (length pre + 1)) with (Z.of_nat (length pre) + 1)%Z
        in IH by lia.
      rewrite <- !app_assoc in IH. cbn [app] in IH.
      apply IH.
      * intros i r Hr.
        replace (length pre + 1 + i)%nat with (length pre + S i)%nat by lia.
        apply H0. exact Hr.
      * intros i r Hr.
        replace (length pre + 1 + i)%nat with (length pre + S i)%nat by lia.
        apply Ha. exact Hr.
    + lia.
    + intros i d Hd. unfold record_at.
      specialize (H0 0%nat row eq_refl). rewrite Nat.add_0_r in H0.
      rewrite H0. exact Hd.
    + intros i x Hx. unfold record_at.
      specialize (Ha 0%nat arow eq_refl). rewrite Nat.add_0_r in Ha.
      rewrite Ha. exact Hx.
Qed.

End EditLoop.

Lemma map2_diag {A B : Type} (f : A -> A -> B) (l : list A) :
  map2 f l l = map (fun a => f a a) l.
Proof.
  induction l as [|a l IH]; [reflexivity|]. cbn [map2 map]. rewrite IH.
  reflexivity.
Qed.

Lemma map2_ext_in {A B C : Type} (f g : A -> B -> C) :
  forall (l1 : list A) (l2 : list B),
    Forall2 (fun a b => f a b = g a b) l1 l2 -> map2 f l1 l2 = map2 g l1 l2.
Proof.
  intros l1 l2 H. induction H as [|a b l1 l2 Hab _ IH]; [reflexivity|].
  cbn [map2]. rewrite Hab, IH. reflexivity.
Qed.

Lemma map2_map {A A' B B' C : Type} (f : A' -> B' -> C) (p : A -> A')
  (q : B -> B') :
  forall (l1 : list A) (l2 : list B),
    map2 f (map p l1) (map q l2) = map2 (fun a b => f (p a) (q b)) l1 l2.
Proof.
  induction l1 as [|a l1 IH]; intros [|b l2]; try reflexivity.
  cbn [map map2]. rewrite IH. reflexivity.
Qed.

Lemma arr_zip_map2 (op : fval -> fval -> fval) :
  forall a b : list fval,
    length a = length b -> arr_zip op a b = Ok (map2 op a b).
Proof.
  induction a as [|x a IH]; intros [|y b] H; try discriminate.
  - reflexivity.
  - cbn [arr_zip map2]. rewrite IH by (cbn [length] in H; lia). reflexivity.
Qed.

Lemma Forall2_diag {A : Type} (P : A -> A -> Prop) (l : list A) :
  Forall (fun a => P a a) l -> Forall2 P l l.
Proof. induction 1; constructor; assumption. Qed.

Lemma record_at_read (f : DfsFile) (t j : nat) (d : ItemData) :
  record_at (steps f) t j = Some d ->
  ReadItemTimeStep f (Z.of_nat j + 1) (Z.of_nat t) = Ok d.
Proof.
  unfold record_at. destruct (nth_error (steps f) t) as [row|] eqn:E;
    [|discriminate].
  intros H. eapply read_item_time_step_nth; eassumption.
Qed.

Lemma list_get_range (n j : nat) :
  (j < n)%nat -> list_get (range n) (Z.of_nat j) = Ok (Z.of_nat j).
Proof.
  intros H. unfold list_get, range.
  replace (Z.of_nat j <? 0)%Z with false by (symmetry; apply Z.ltb_ge; lia).
  rewrite Nat2Z.id, count_from_nth by exact H. reflexivity.
Qed.

Lemma count_from_length_range (n : nat) : length (range n) = n.
Proof. apply count_from_length. Qed.

(** The element [scale] writes for an element read. *)
Lemma scale_element (dv offset factor : Q) (d : list fval) :
  astype_float32
    (fill_nan dv
       (map (fun v => fadd (fmul v (Num factor)) (Num offset))
            (null_delete dv d)))
  = map (fun v => match v with
                  | NaN => Num dv
                  | Num x => if Qeq_bool x dv then Num dv
                             else Num (x * factor + offset)%Q
                  end) d.
Proof.
  unfold astype_float32, fill_nan, null_delete. rewrite !map_map.
  apply map_ext. intros [|x]; cbn [feqb]; [reflexivity|].
  destruct (Qeq_bool x dv); reflexivity.
Qed.

(** X12: on a file with one record per item in every step, [scale]
    without an item selection rewrites every record in place: the header
    and the record times are kept; an element that is the delete value or
    NaN becomes the delete value; any other element x becomes
    x * factor + offset.  No NaN is written. *)
Theorem scale_rewrites_every_record (f : DfsFile) (offset factor : Q) :
  conformant (length (ItemInfo f)) f ->
  scale f offset factor None
  = Ok (mkDfs (TimeAxis f) (DeleteValueFloat f) (ItemInfo f)
          (map (map (fun d =>
                  mkItemData (Time d)
                    (map (fun v =>
                            match v with
                            | NaN => Num (DeleteValueFloat f)
                            | Num x =>
                                if Qeq_bool x (DeleteValueFloat f)
                                then Num (DeleteValueFloat f)
                                else Num (x * factor + offset)%Q
                            end) (Data d))))
               (steps f))).
Proof.
  destruct f as [ax dv info S]. cbn [TimeAxis DeleteValueFloat ItemInfo steps].
  intros Hc. unfold conformant in Hc. cbn [steps] in Hc.
  unfold scale, _valid_item_numbers, NumberOfTimeSteps.
  cbn [bind TimeAxis DeleteValueFloat ItemInfo steps].
  rewrite count_from_length_range.
  set (n := length info) in *.
  set (G := fun d : ItemData =>
              mkItemData (Time d)
                (map (fun v => match v with
                               | NaN => Num dv
                               | Num x => if Qeq_bool x dv then Num dv
                                          else Num (x * factor + offset)%Q
                               end) (Data d))).
  assert (Hbody : forall (o : DfsFile) (t j : nat) (d x : ItemData),
             (j < n)%nat ->
             record_at (steps o) t j = Some d ->
             record_at S t j = Some d ->
             record_at S t j = Some x ->
             True ->
             scale_item (range n) dv offset factor (Z.of_nat t) o (Z.of_nat j)
             = WriteItemTimeStep o (Z.of_nat j + 1) (Z.of_nat t)
                                 (Time (G d)) (Data (G d))).
  { intros o t j d x Hj Ho _ _ _. unfold scale_item.
    rewrite (list_get_range n j Hj). cbn [bind].
    rewrite (record_at_read o t j d Ho). cbn [bind].
    rewrite scale_element. reflexivity. }
  pose proof (edit_steps ItemData
                (fun o t j => scale_item (range n) dv offset factor t o j)
                (fun d _ => G d) (fun _ _ => True) S S n
                Hbody (fun d _ => eq_refl) ax dv info S S []) as H.
  cbn [app length Nat.add] in H. change (Z.of_nat 0) with 0%Z in H.
  assert (HR : Forall2 (Forall2 (fun _ _ : ItemData => True)) S S).
  { apply Forall2_diag. apply Forall_forall. intros row _.
    apply Forall2_diag. apply Forall_forall. intros d _. exact I. }
  specialize (H HR Hc (fun i row Hr => Hr) (fun i row Hr => Hr)).
  etransitivity; [exact H|].
  assert (E : map2 (map2 (fun d _ : ItemData => G d)) S S = map (map G) S).
  { rewrite map2_diag. apply map_ext. intros row.
    exact (map2_diag (fun d _ : ItemData => G d) row). }
  rewrite E. reflexivity.
Qed.

Lemma scale_rewrites_every_record_witness :
  exists out,
    scale Examples.avg_three 10 2 None = Ok out
    /\ file_data out
       = [[[Num 12; Num 18]];
          [[Num 14; Num Examples.deletevalue]];
          [[Num 22; Num 20]]].
Proof.
  eexists. split.
  - apply (scale_rewrites_every_record Examples.avg_three 10 2).
    repeat constructor.
  - vm_compute. reflexivity.
Defined.

Lemma null_delete_length (dv : Q) (d : list fval) :
  length (null_delete dv d) = length d.
Proof. apply length_map. Qed.

(** The elements [diff] and [sum] write for a pair of elements read. *)
Lemma diff_element (dv : Q) (va vb : fval) :
  fsub (if feqb va (Num dv) then NaN else va)
       (if feqb vb (Num dv) then NaN else vb)
  = if no_data dv va || no_data dv vb then NaN else fsub va vb.
Proof.
  destruct va as [|p]; destruct vb as [|q];
    cbn [feqb no_data orb fsub]; try reflexivity.
  - destruct (Qeq_bool p dv); reflexivity.
  - destruct (Qeq_bool p dv), (Qeq_bool q dv); reflexivity.
Qed.

Lemma sum_element (dv : Q) (va vb : fval) :
  fadd (if feqb (if feqb va (Num dv) then NaN else va) (Num dv)
        then NaN else (if feqb va (Num dv) then NaN else va)) vb
  = if no_data dv va then NaN else fadd va vb.
Proof.
  destruct va as [|p]; cbn [feqb no_data]; [reflexivity|].
  destruct (Qeq_bool p dv) eqn:E; cbn [feqb]; [reflexivity|].
  rewrite E. reflexivity.
Qed.

Lemma map2_ext {A B C : Type} (f g : A -> B -> C) :
  (forall a b, f a b = g a b) ->
  forall (l1 : list A) (l2 : list B), map2 f l1 l2 = map2 g l1 l2.
Proof.
  intros H. induction l1 as [|a l1 IH]; intros [|b l2]; try reflexivity.
  cbn [map2]. rewrite H, IH. reflexivity.
Qed.

Lemma null_delete_twice (dv : Q) (d : list fval) :
  null_delete dv (null_delete dv d) = null_delete dv d.
Proof.
  unfold null_delete. rewrite map_map. apply map_ext.
  intros [|p]; cbn [feqb]; [reflexivity|].
  destruct (Qeq_bool p dv) eqn:Ep; cbn [feqb]; [reflexivity|].
  rewrite Ep. reflexivity.
Qed.

Section Combine.

Variable item_body : DfsFile -> DfsFile -> Q -> Z -> DfsFile -> Z -> result DfsFile.
Variable null_b : Q -> list fval -> list fval.
Variable op : fval -> fval -> fval.
Variable elt : Q -> fval -> fval -> fval.

Hypothesis item_body_eq :
  forall a b dv t o j,
    item_body a b dv t o j
    = (itemdata_a <- ReadItemTimeStep a (j + 1) t ;;
       itemdata_b <- ReadItemTimeStep b (j + 1) t ;;
       outdata <- arr_zip op (null_delete dv (null_delete dv (Data itemdata_a)))
                          (null_b dv (Data itemdata_b)) ;;
       WriteItemTimeStep o (j + 1) t (Time itemdata_a) outdata).

Hypothesis null_b_length : forall dv d, length (null_b dv d) = length d.

Hypothesis elt_eq :
  forall dv da db,
    map2 op (null_delete dv (null_delete dv da)) (null_b dv db)
    = map2 (elt dv) da db.

(** Both [sum] and [diff]: the records of file a combined with the records
    of file b, element by element. *)
Lemma combine_files (a b : DfsFile) :
  conformant (length (ItemInfo a)) a ->
  same_shape a b ->
  foldM (fun o timestep =>
           foldM (item_body a b (DeleteValueFloat a) timestep)
                 (range (length (ItemInfo a))) o)
        (range (NumberOfTimeSteps a)) a
  = Ok (mkDfs (TimeAxis a) (DeleteValueFloat a) (ItemInfo a)
          (map2 (map2 (fun da db =>
                         mkItemData (Time da)
                                    (map2 (elt (DeleteValueFloat a))
                                          (Data da) (Data db))))
                (steps a) (steps b))).
Proof.
  intros Hc Hs. unfold same_shape in Hs. unfold conformant in Hc.
  set (dv := DeleteValueFloat a). set (n := length (ItemInfo a)) in *.
  set (G := fun da db : ItemData =>
              mkItemData (Time da) (map2 (elt dv) (Data da) (Data db))).
  assert (Hbody : forall (o : DfsFile) (t j : nat) (d x : ItemData),
             (j < n)%nat ->
             record_at (steps o) t j = Some d ->
             record_at (steps a) t j = Some d ->
             record_at (steps b) t j = Some x ->
             length (Data d) = length (Data x) ->
             item_body a b dv (Z.of_nat t) o (Z.of_nat j)
             = WriteItemTimeStep o (Z.of_nat j + 1) (Z.of_nat t)
                                 (Time (G d x)) (Data (G d x))).
  { intros o t j d x _ _ Ha Hb Hl. rewrite item_body_eq.
    rewrite (record_at_read a t j d Ha). cbn [bind].
    rewrite (record_at_read b t j x Hb). cbn [bind].
    rewrite arr_zip_map2
      by (rewrite !null_delete_length, null_b_length; exact Hl).
    cbn [bind]. rewrite elt_eq. reflexivity. }
  pose proof (edit_steps ItemData
                (fun o t j => item_body a b dv t o j)
                G (fun d x => length (Data d) = length (Data x))
                (steps a) (steps b) n
                Hbody (fun d _ => eq_refl)
                (TimeAxis a) dv (ItemInfo a) (steps a) (steps b) []
                Hs Hc (fun i row Hr => Hr) (fun i row Hr => Hr)) as H.
  cbn [app length Nat.add] in H. change (Z.of_nat 0) with 0%Z in H.
  destruct a as [ax dv0 info S]. exact H.
Qed.

End Combine.

Lemma diff_rows (a b : DfsFile) :
  conformant (length (ItemInfo a)) a ->
  same_shape a b ->
  diff a b
  = Ok (mkDfs (TimeAxis a) (DeleteValueFloat a) (ItemInfo a)
          (map2 (map2 (fun da db =>
                  mkItemData (Time da)
                    (map2 (fun va vb =>
                             if no_data (DeleteValueFloat a) va
                                || no_data (DeleteValueFloat a) vb
                             then NaN else fsub va vb)
                          (Data da) (Data db))))
                (steps a) (steps b))).
Proof.
  intros Hc Hs. unfold diff.
  apply (combine_files diff_item null_delete fsub
           (fun dv va vb =>
              if no_data dv va || no_data dv vb then NaN else fsub va vb));
    try assumption.
  - intros a0 b0 dv t o j. unfold diff_item, astype_float32.
    destruct (ReadItemTimeStep a0 (j + 1) t) as [da|e]; [|reflexivity].
    cbn [bind].
    destruct (ReadItemTimeStep b0 (j + 1) t) as [db|e]; [|reflexivity].
    cbn [bind]. rewrite null_delete_twice. reflexivity.
  - intros dv d. apply null_delete_length.
  - intros dv da db. rewrite null_delete_twice. unfold null_delete.
    rewrite map2_map. apply map2_ext. intros va vb. apply diff_element.
Qed.

(** X13: for a file a with one record per item in every step and a file
    b of the same shape, [diff] writes the header and the record times of
    a, and for every element NaN where the element of a or of b is the
    delete value (of a) or NaN, and the difference a - b elsewhere. *)
Theorem diff_element_by_element (a b : DfsFile) :
  conformant (length (ItemInfo a)) a ->
  same_shape a b ->
  diff a b
  = Ok (mkDfs (TimeAxis a) (DeleteValueFloat a) (ItemInfo a)
          (map2 (map2 (fun da db =>
                  mkItemData (Time da)
                    (map2 (fun va vb =>
                             if no_data (DeleteValueFloat a) va
                                || no_data (DeleteValueFloat a) vb
                             then NaN else fsub va vb)
                          (Data da) (Data db))))
                (steps a) (steps b))).
Proof. exact (diff_rows a b). Qed.

Lemma sum_rows (a b : DfsFile) :
  conformant (length (ItemInfo a)) a ->
  same_shape a b ->
  sum a b
  = Ok (mkDfs (TimeAxis a) (DeleteValueFloat a) (ItemInfo a)
          (map2 (map2 (fun da db =>
                  mkItemData (Time da)
                    (map2 (fun va vb =>
                             if no_data (DeleteValueFloat a) va
                             then NaN else fadd va vb)
                          (Data da) (Data db))))
                (steps a) (steps b))).
Proof.
  intros Hc Hs. unfold sum.
  apply (combine_files sum_item (fun _ d => d) fadd
           (fun dv va vb => if no_data dv va then NaN else fadd va vb));
    try assumption.
  - intros a0 b0 dv t o j. unfold sum_item, astype_float32. reflexivity.
  - intros dv d. reflexivity.
  - intros dv da db. unfold null_delete. rewrite map_map.
    rewrite <- (map_id db) at 1. rewrite map2_map.
    apply map2_ext. intros va vb. apply sum_element.
Qed.

(** X14: for a file a with one record per item in every step and a file
    b of the same shape, [sum] writes the header and the record times of
    a, and for every element NaN where the element of a is the delete
    value or NaN, and the sum a + b elsewhere; a delete value in b is
    added like any other number. *)
Theorem sum_element_by_element (a b : DfsFile) :
  conformant (length (ItemInfo a)) a ->
  same_shape a b ->
  sum a b
  = Ok (mkDfs (TimeAxis a) (DeleteValueFloat a) (ItemInfo a)
          (map2 (map2 (fun da db =>
                  mkItemData (Time da)
                    (map2 (fun va vb =>
                             if no_data (DeleteValueFloat a) va
                             then NaN else fadd va vb)
                          (Data da) (Data db))))
                (steps a) (steps b))).
Proof. exact (sum_rows a b). Qed.

Lemma diff_element_by_element_witness :
  exists out,
    diff Examples.avg_three Examples.avg_three = Ok out
    /\ file_data out = [[[Num 0; Num 0]]; [[Num 0; NaN]]; [[Num 0; Num 0]]].
Proof.
  eexists. split.
  - apply (diff_element_by_element Examples.avg_three Examples.avg_three);
      repeat constructor.
  - vm_compute. reflexivity.
Defined.

Lemma sum_element_by_element_witness :
  exists out,
    sum Examples.avg_three Examples.avg_three = Ok out
    /\ file_data out = [[[Num 2; Num 8]]; [[Num 4; NaN]]; [[Num 12; Num 10]]].
Proof.
  eexists. split.
  - apply (sum_element_by_element Examples.avg_three Examples.avg_three);
      repeat constructor.
  - vm_compute. reflexivity.
Defined.

(** ** concat: overlapping files *)




(** ** extract: a range of steps *)







(** ** avg_time in general *)

Lemma masked_add_map2 (dv : Q) :
  forall (out d : list fval),
    length out = length d ->
    masked_add (has_value_mask dv d) out d = Ok (map2 (add_value dv) out d).
Proof.
  induction out as [|o out IH]; intros [|v d] H; try discriminate.
  - reflexivity.
  - cbn [has_value_mask map masked_add map2].
    fold (has_value_mask dv d).
    rewrite IH by (cbn [length] in H; lia). reflexivity.
Qed.

Lemma masked_incr_map2 (dv : Q) :
  forall (st : list Z) (d : list fval),
    length st = length d ->
    masked_incr (has_value_mask dv d) st = Ok (map2 (count_value dv) st d).
Proof.
  induction st as [|c st IH]; intros [|v d] H; try discriminate.
  - reflexivity.
  - cbn [has_value_mask map masked_incr map2].
    fold (has_value_mask dv d).
    rewrite IH by (cbn [length] in H; lia). reflexivity.
Qed.

Lemma step0_values (dv : Q) (d : list fval) :
  map (fun p : bool * fval => if fst p then snd p else NaN)
      (combine (has_value_mask dv d) d)
  = map (first_value dv) d.
Proof.
  induction d as [|v d IH]; [reflexivity|].
  cbn [has_value_mask map combine fst snd].
  fold (has_value_mask dv d). rewrite IH. reflexivity.
Qed.

Lemma step0_counts (dv : Q) (d : list fval) :
  map (fun h : bool => if h then 1%Z else 0%Z) (has_value_mask dv d)
  = map (first_count dv) d.
Proof. unfold has_value_mask. rewrite map_map. reflexivity. Qed.

(** The loop over the items at step 0. *)
Lemma avg_step0_all (f : DfsFile) (dv : Q) :
  forall (suf pre : list ItemData),
    nth_error (steps f) 0 = Some (pre ++ suf) ->
    foldM (avg_step0 f dv)
          (count_from (length suf) (Z.of_nat (length pre)))
          (mkAcc (map (fun d => map (first_value dv) (Data d)) pre)
                 (map (fun d => map (first_count dv) (Data d)) pre))
    = Ok (mkAcc (map (fun d => map (first_value dv) (Data d)) (pre ++ suf))
                (map (fun d => map (first_count dv) (Data d)) (pre ++ suf))).
Proof.
  induction suf as [|d suf IH]; intros pre Hrow.
  - rewrite app_nil_r. reflexivity.
  - cbn [length count_from foldM]. unfold avg_step0 at 1.
    pose proof (read_item_time_step_nth f 0 (length pre) _ d Hrow
                  (nth_error_middle pre d suf)) as Hread.
    change (Z.of_nat 0) with 0%Z in Hread. rewrite Hread. cbn [bind].
    rewrite step0_values, step0_counts.
    cbn [outdatalist steps_list].
    replace (Z.of_nat (length pre) + 1)%Z with (Z.of_nat (length (pre ++ [d])))
      by (rewrite length_app; cbn [length]; lia).
    specialize (IH (pre ++ [d])). rewrite !map_app in IH. cbn [map] in IH.
    rewrite <- !app_assoc in IH. cbn [app] in IH.
    rewrite IH by exact Hrow. rewrite !map_app. reflexivity.
Qed.

Lemma list_get_middle {A : Type} (l1 : list A) (a : A) (l2 : list A) :
  list_get (l1 ++ a :: l2) (Z.of_nat (length l1)) = Ok a.
Proof.
  unfold list_get.
  replace (Z.of_nat (length l1) <? 0)%Z with false
    by (symmetry; apply Z.ltb_ge; lia).
  rewrite Nat2Z.id, nth_error_middle. reflexivity.
Qed.

Lemma list_put_middle {A : Type} (l1 : list A) (a b : A) (l2 : list A) :
  list_put (l1 ++ a :: l2) (Z.of_nat (length l1)) b = Ok (l1 ++ b :: l2).
Proof.
  unfold list_put.
  replace (Z.of_nat (length l1) <? 0)%Z with false
    by (symmetry; apply Z.ltb_ge; lia).
  rewrite Nat2Z.id, list_set_middle. reflexivity.
Qed.

(** The loop over the items at a later step: the record of every item is
    added to the accumulators of the item. *)
Lemma avg_accumulate_row (f : DfsFile) (dv : Q) (n t : nat) :
  forall (suf pre : list ItemData)
         (osuf opre : list (list fval)) (ssuf spre : list (list Z)),
    nth_error (steps f) t = Some (pre ++ suf) ->
    (length pre + length suf <= n)%nat ->
    length opre = length pre -> length spre = length pre ->
    Forall2 (fun o d => length o = length (Data d)) osuf suf ->
    Forall2 (fun c d => length c = length (Data d)) ssuf suf ->
    foldM (avg_accumulate f dv (range n) (Z.of_nat t))
          (count_from (length suf) (Z.of_nat (length pre)))
          (mkAcc (opre ++ osuf) (spre ++ ssuf))
    = Ok (mkAcc
            (opre ++ map2 (fun o d => map2 (add_value dv) o (Data d)) osuf suf)
            (spre ++ map2 (fun c d => map2 (count_value dv) c (Data d))
                          ssuf suf)).
Proof.
  induction suf as [|d suf IH];
    intros pre osuf opre ssuf spre Hrow Hn Lo Ls Ho Hs.
  - inversion Ho; subst. inversion Hs; subst. reflexivity.
  - inversion Ho as [|o d' osuf' suf' Hod Ho' E1 E2]; subst.
    inversion Hs as [|c d' ssuf' suf' Hcd Hs' E1 E2]; subst.
    cbn [length count_from foldM map2]. unfold avg_accumulate at 1.
    rewrite (list_get_range n (length pre)) by (cbn [length] in Hn; lia).
    cbn [bind].
    rewrite (read_item_time_step_nth f t (length pre) _ d Hrow
               (nth_error_middle pre d suf)).
    cbn [bind outdatalist steps_list].
    rewrite <- Lo at 1. rewrite list_get_middle. cbn [bind].
    rewrite (masked_add_map2 dv o (Data d) Hod). cbn [bind].
    rewrite <- Lo at 1. rewrite list_put_middle. cbn [bind].
    rewrite <- Ls at 1. rewrite list_get_middle. cbn [bind].
    rewrite (masked_incr_map2 dv c (Data d) Hcd). cbn [bind].
    rewrite <- Ls at 1. rewrite list_put_middle. cbn [bind].
    replace (Z.of_nat (length pre) + 1)%Z with (Z.of_nat (length (pre ++ [d])))
      by (rewrite length_app; cbn [length]; lia).
    specialize (IH (pre ++ [d]) osuf'
                   (opre ++ [map2 (add_value dv) o (Data d)])
                   ssuf'
                   (spre ++ [map2 (count_value dv) c (Data d)])).
    rewrite <- !app_assoc in IH. cbn [app] in IH.
    rewrite IH; try assumption.
    + reflexivity.
    + rewrite length_app. cbn [length] in *. lia.
    + rewrite !length_app. cbn [length]. lia.
    + rewrite !length_app. cbn [length]. lia.
Qed.

Lemma map2_length_eq {A B C : Type} (f : A -> B -> C) :
  forall (l1 : list A) (l2 : list B),
    length l1 = length l2 -> length (map2 f l1 l2) = length l1.
Proof.
  induction l1 as [|a l1 IH]; intros [|b l2] H; try discriminate.
  - reflexivity.
  - cbn [map2 length]. rewrite IH by (cbn [length] in H; lia). reflexivity.
Qed.

Lemma map2_nth {A B C : Type} (f : A -> B -> C) :
  forall (l1 : list A) (l2 : list B) (k : nat) (a : A) (b : B),
    nth_error l1 k = Some a -> nth_error l2 k = Some b ->
    nth_error (map2 f l1 l2) k = Some (f a b).
Proof.
  induction l1 as [|a1 l1 IH]; intros [|b1 l2] [|k] a b Ha Hb;
    try discriminate.
  - cbn in *. congruence.
  - cbn [map2 nth_error] in *. eapply IH; eassumption.
Qed.

(** An element of accumulators folded over rows is the fold of the
    elements at its place. *)
Lemma fold_map2_nth {A B : Type} (h : A -> B -> A) :
  forall (cols : list (list B)) (bs : list B) (init : list A) (k : nat)
         (a : A),
    nth_error init k = Some a ->
    Forall2 (fun col b => nth_error col k = Some b) cols bs ->
    nth_error (fold_left (map2 h) cols init) k = Some (fold_left h bs a).
Proof.
  induction cols as [|col cols IH]; intros bs init k a Ha Hc.
  - inversion Hc; subst. exact Ha.
  - inversion Hc as [|col' b cols' bs' Hb Hc' E1 E2]; subst.
    cbn [fold_left]. apply IH; [|exact Hc'].
    apply map2_nth; assumption.
Qed.

Lemma shape_kept {A : Type} (g : list A -> ItemData -> list A) :
  (forall o d, length o = length (Data d) -> length (g o d) = length o) ->
  forall (O : list (list A)) (row row' : list ItemData),
    Forall2 (fun o d => length o = length (Data d)) O row ->
    Forall2 (fun o d => length o = length (Data d)) O row' ->
    Forall2 (fun o d => length o = length (Data d)) (map2 g O row) row'.
Proof.
  intros Hg O row. revert O.
  induction row as [|d row IH]; intros O row' H H'.
  - inversion H; subst. inversion H'; subst. constructor.
  - inversion H as [|o d0 O' row0 Hod HO E1 E2]; subst.
    inversion H' as [|o0 d' O0 row1 Hod' HO' E1 E2]; subst.
    cbn [map2]. constructor.
    + rewrite Hg by exact Hod. exact Hod'.
    + apply IH; assumption.
Qed.

(** The loop over the later steps. *)
Lemma avg_accumulate_steps (f : DfsFile) (dv : Q) (n : nat) :
  forall (todo done : list (list ItemData))
         (O : list (list fval)) (C0 : list (list Z)),
    steps f = done ++ todo ->
    length O = n ->
    Forall (Forall2 (fun o d => length o = length (Data d)) O) todo ->
    Forall (Forall2 (fun c d => length c = length (Data d)) C0) todo ->
    foldM (fun acc timestep =>
             foldM (avg_accumulate f dv (range n) timestep) (range n) acc)
          (count_from (length todo) (Z.of_nat (length done)))
          (mkAcc O C0)
    = Ok (mkAcc
            (fold_left (map2 (fun o d => map2 (add_value dv) o (Data d)))
                       todo O)
            (fold_left (map2 (fun c d => map2 (count_value dv) c (Data d)))
                       todo C0)).
Proof.
  induction todo as [|row todo IH]; intros done O C0 Hsteps LO HO HS.
  - reflexivity.
  - cbn [length count_from foldM fold_left].
    pose proof (Forall_inv HO) as HOr. pose proof (Forall_inv HS) as HSr.
    assert (Lrow : length row = n).
    { rewrite <- LO. symmetry. eapply Forall2_length. exact HOr. }
    pose proof (avg_accumulate_row f dv n (length done) row [] O [] C0 []) as H.
    cbn [app length Nat.add] in H. change (Z.of_nat 0) with 0%Z in H.
    rewrite Lrow in H. unfold range at 2. rewrite H; try assumption;
      try reflexivity; try lia.
    + cbn [bind].
      replace (Z.of_nat (length done) + 1)%Z
        with (Z.of_nat (length (done ++ [row])))
        by (rewrite length_app; cbn [length]; lia).
      apply IH.
      * rewrite <- app_assoc. exact Hsteps.
      * rewrite map2_length_eq; [exact LO|]. rewrite LO, Lrow. reflexivity.
      * apply Forall_forall. intros row' Hin.
        apply shape_kept; [|exact HOr|].
        -- intros o d Hod. apply map2_length_eq. exact Hod.
        -- pose proof (Forall_inv_tail HO) as HO'.
           rewrite Forall_forall in HO'. apply HO'. exact Hin.
      * apply Forall_forall. intros row' Hin.
        apply shape_kept; [|exact HSr|].
        -- intros o d Hod. apply map2_length_eq. exact Hod.
        -- pose proof (Forall_inv_tail HS) as HS'.
           rewrite Forall_forall in HS'. apply HS'. exact Hin.
    + rewrite Hsteps. apply nth_error_middle.
Qed.

(** The final loop: one record per item, which together make the single
    step of the output file. *)
Lemma avg_item_all (dv : Q) (nts : Z) (skipna : bool)
  (Oall : list (list fval)) (Sall : list (list Z)) (o : DfsFile) :
  forall (osuf opre : list (list fval)) (ssuf spre : list (list Z))
         (wrow : list ItemData),
    Oall = opre ++ osuf -> Sall = spre ++ ssuf ->
    length spre = length opre -> length wrow = length opre ->
    length ssuf = length osuf ->
    length (ItemInfo o) = length Oall ->
    foldM (avg_item dv nts skipna (mkAcc Oall Sall))
          (count_from (length osuf) (Z.of_nat (length opre)))
          (mkWriter o wrow)
    = Ok (match osuf with
          | [] => mkWriter o wrow
          | _ :: _ =>
              mkWriter
                (append_step o
                   (wrow ++
                    map2 (fun out st =>
                            mkItemData 0
                              (map (fun p : fval * Z =>
                                      if (if skipna then snd p =? nts
                                          else 0 <? snd p)%Z
                                      then fdiv (fst p)
                                                (Num (inject_Z (snd p)))
                                      else Num dv)
                                   (combine out st)))
                         osuf ssuf))
                []
          end).
Proof.
  induction osuf as [|out osuf IH];
    intros opre ssuf spre wrow EO ES Ls Lw Lss Linfo.
  - reflexivity.
  - destruct ssuf as [|st ssuf]; [discriminate|].
    cbn [length count_from foldM map2]. unfold avg_item at 1.
    cbn [outdatalist steps_list].
    assert (G1 : list_get Oall (Z.of_nat (length opre)) = Ok out)
      by (rewrite EO; apply list_get_middle).
    assert (G2 : list_get Sall (Z.of_nat (length opre)) = Ok st)
      by (rewrite ES, <- Ls; apply list_get_middle).
    rewrite G1. cbn [bind]. rewrite G2. cbn [bind].
    unfold WriteItemTimeStepNext. cbn [w_file w_row].
    assert (LO : length Oall = (length opre + S (length osuf))%nat)
      by (rewrite EO, length_app; reflexivity).
    rewrite length_app, Lw, Linfo, LO. cbn [length].
    destruct osuf as [|out' osuf'].
    + cbn [length]. rewrite Nat.eqb_refl.
      destruct ssuf; [|discriminate]. reflexivity.
    + destruct (Nat.eqb_spec (length opre + 1)
                             (length opre + S (length (out' :: osuf'))))
        as [E|_]; [cbn [length] in E; lia|].
      replace (Z.of_nat (length opre) + 1)%Z
        with (Z.of_nat (length (opre ++ [out])))
        by (rewrite length_app; cbn [length]; lia).
      rewrite (IH (opre ++ [out]) ssuf (spre ++ [st])).
      * rewrite <- app_assoc. reflexivity.
      * rewrite <- app_assoc. exact EO.
      * rewrite <- app_assoc. exact ES.
      * rewrite !length_app. cbn [length]. lia.
      * rewrite !length_app. cbn [length]. lia.
      * cbn [length] in Lss |- *. lia.
      * exact Linfo.
Qed.

Lemma fold_map2_length {A B : Type} (h : A -> B -> A) :
  forall (cols : list (list B)) (init : list A),
    Forall (fun col => length col = length init) cols ->
    length (fold_left (map2 h) cols init) = length init.
Proof.
  induction cols as [|col cols IH]; intros init H; [reflexivity|].
  cbn [fold_left].
  assert (L : length (map2 h init col) = length init).
  { apply map2_length_eq. symmetry. exact (Forall_inv H). }
  rewrite IH; [exact L|].
  eapply Forall_impl; [|exact (Forall_inv_tail H)].
  intros c Hc. cbn beta in Hc. rewrite L. exact Hc.
Qed.

Lemma fold_left_map_arg {A B C : Type} (h : A -> C -> A) (p : B -> C) :
  forall (l : list B) (a : A),
    fold_left (fun s b => h s (p b)) l a = fold_left h (map p l) a.
Proof. induction l as [|b l IH]; intros a; [reflexivity|]. apply IH. Qed.

Lemma nth_error_combine {A B : Type} :
  forall (l1 : list A) (l2 : list B) (k : nat) (a : A) (b : B),
    nth_error l1 k = Some a -> nth_error l2 k = Some b ->
    nth_error (combine l1 l2) k = Some (a, b).
Proof.
  induction l1 as [|a1 l1 IH]; intros [|b1 l2] [|k] a b Ha Hb;
    try discriminate.
  - cbn in *. congruence.
  - cbn [combine nth_error] in *. eapply IH; eassumption.
Qed.

Lemma Forall2_exists_split {A B C : Type} (P : A -> B -> Prop)
  (Q : B -> C -> Prop) :
  forall (l1 : list A) (l3 : list C),
    Forall2 (fun a c => exists b, P a b /\ Q b c) l1 l3 ->
    exists l2, Forall2 P l1 l2 /\ Forall2 Q l2 l3.
Proof.
  intros l1 l3 H. induction H as [|a c l1 l3 (b & Hp & Hq) _ (l2 & H1 & H2)].
  - exists []. split; constructor.
  - exists (b :: l2). split; constructor; assumption.
Qed.

(** The element of item [j] at place [k] in the output of [avg_time]:
    [v0] is the element at step 0 and [vs] are the elements at the later
    steps. *)
Lemma avg_time_element (f : DfsFile) (skipna : bool) (j k : nat)
  (v0 : fval) (vs : list fval) :
  ItemInfo f <> [] ->
  conformant (length (ItemInfo f)) f ->
  uniform f ->
  Forall2 (fun row v => exists d, nth_error row j = Some d
                                  /\ nth_error (Data d) k = Some v)
          (steps f) (v0 :: vs) ->
  exists out row rec,
    avg_time f skipna = Ok out
    /\ ItemInfo out = ItemInfo f
    /\ DeleteValueFloat out = DeleteValueFloat f
    /\ steps out = [row]
    /\ nth_error row j = Some rec
    /\ Time rec = 0%Q
    /\ nth_error (Data rec) k
       = Some (if (if skipna
                   then fold_left (count_value (DeleteValueFloat f)) vs
                                  (first_count (DeleteValueFloat f) v0)
                        =? Z.of_nat (NumberOfTimeSteps f)
                   else 0 <? fold_left (count_value (DeleteValueFloat f)) vs
                                       (first_count (DeleteValueFloat f) v0))%Z
               then fdiv (fold_left (add_value (DeleteValueFloat f)) vs
                                    (first_value (DeleteValueFloat f) v0))
                         (Num (inject_Z
                                 (fold_left
                                    (count_value (DeleteValueFloat f)) vs
                                    (first_count (DeleteValueFloat f) v0))))
               else Num (DeleteValueFloat f)).
Proof.
  intros Hne Hc Hu Hcol.
  set (dv := DeleteValueFloat f) in *.
  set (n := length (ItemInfo f)) in *.
  assert (Hn : n <> O)
    by (intro E; apply Hne; apply length_zero_iff_nil; exact E).
  unfold conformant in Hc. unfold uniform in Hu.
  destruct (steps f) as [|row0 rows] eqn:Esteps; [inversion Hcol|].
  cbn [hd] in Hu.
  inversion Hcol as [|r0 v0' rows' vs' (d0 & Hd0 & Hv0) Hcols E1 E2]; subst.
  pose proof (Forall_inv Hc) as L0. cbn beta in L0.
  pose proof (Forall_inv_tail Hu) as Hu'.
  set (O := map (fun d => map (first_value dv) (Data d)) row0).
  set (C0 := map (fun d => map (first_count dv) (Data d)) row0).
  assert (HO : Forall (Forall2 (fun o d => length o = length (Data d)) O) rows).
  { eapply Forall_impl; [|exact Hu']. intros row Hrow. unfold O.
    clear - Hrow. induction Hrow; cbn [map]; constructor; [|assumption].
    rewrite length_map. assumption. }
  assert (HS : Forall (Forall2 (fun c d => length c = length (Data d)) C0) rows).
  { eapply Forall_impl; [|exact Hu']. intros row Hrow. unfold C0.
    clear - Hrow. induction Hrow; cbn [map]; constructor; [|assumption].
    rewrite length_map. assumption. }
  assert (LO : length O = n) by (unfold O; rewrite length_map; exact L0).
  assert (LS : length C0 = n) by (unfold C0; rewrite length_map; exact L0).
  set (Of := fold_left (map2 (fun o d => map2 (add_value dv) o (Data d)))
                       rows O).
  set (Sf := fold_left (map2 (fun c d => map2 (count_value dv) c (Data d)))
                       rows C0).
  assert (LOf : length Of = n).
  { unfold Of. rewrite fold_map2_length; [exact LO|].
    eapply Forall_impl; [|exact HO]. intros row Hrow.
    symmetry. eapply Forall2_length. exact Hrow. }
  assert (LSf : length Sf = n).
  { unfold Sf. rewrite fold_map2_length; [exact LS|].
    eapply Forall_impl; [|exact HS]. intros row Hrow.
    symmetry. eapply Forall2_length. exact Hrow. }
  (* the records of item j and their elements at place k *)
  destruct (Forall2_exists_split
              (fun row d => nth_error row j = Some d)
              (fun d v => nth_error (Data d) k = Some v) rows vs Hcols)
    as (ds & Hds & Hvs).
  assert (Oj : nth_error Of j
               = Some (fold_left (fun o d => map2 (add_value dv) o (Data d))
                                 ds (map (first_value dv) (Data d0)))).
  { unfold Of. apply fold_map2_nth; [|exact Hds].
    unfold O. rewrite nth_error_map, Hd0. reflexivity. }
  assert (Sj : nth_error Sf j
               = Some (fold_left (fun c d => map2 (count_value dv) c (Data d))
                                 ds (map (first_count dv) (Data d0)))).
  { unfold Sf. apply fold_map2_nth; [|exact Hds].
    unfold C0. rewrite nth_error_map, Hd0. reflexivity. }
  assert (Hvs' : Forall2 (fun col v => nth_error col k = Some v)
                         (map Data ds) vs).
  { clear - Hvs. induction Hvs; cbn [map]; constructor; assumption. }
  assert (Ojk : nth_error
                  (fold_left (fun o d => map2 (add_value dv) o (Data d))
                             ds (map (first_value dv) (Data d0))) k
                = Some (fold_left (add_value dv) vs (first_value dv v0))).
  { rewrite (fold_left_map_arg (map2 (add_value dv)) Data).
    apply fold_map2_nth; [|exact Hvs'].
    rewrite nth_error_map, Hv0. reflexivity. }
  assert (Sjk : nth_error
                  (fold_left (fun c d => map2 (count_value dv) c (Data d))
                             ds (map (first_count dv) (Data d0))) k
                = Some (fold_left (count_value dv) vs (first_count dv v0))).
  { rewrite (fold_left_map_arg (map2 (count_value dv)) Data).
    apply fold_map2_nth; [|exact Hvs'].
    rewrite nth_error_map, Hv0. reflexivity. }
  (* the run of avg_time *)
  assert (Erun : avg_time f skipna
                 = Ok (mkDfs (TimeAxis f) dv (ItemInfo f)
                         [map2 (fun out st =>
                                  mkItemData 0
                                    (map (fun p : fval * Z =>
                                            if (if skipna
                                                then snd p =? Z.of_nat
                                                       (NumberOfTimeSteps f)
                                                else 0 <? snd p)%Z
                                            then fdiv (fst p)
                                                   (Num (inject_Z (snd p)))
                                            else Num dv)
                                         (combine out st)))
                               Of Sf])).
  { unfold avg_time. rewrite clone_source_items. cbn [bind].
    fold n dv. unfold NumberOfTimeSteps. rewrite Esteps.
    pose proof (avg_step0_all f dv row0 []) as H0.
    cbn [length app map] in H0. change (Z.of_nat 0) with 0%Z in H0.
    rewrite L0 in H0. unfold range at 1. rewrite H0 by (rewrite Esteps; reflexivity).
    cbn [bind]. fold O C0.
    unfold range_from.
    replace (Z.to_nat (Z.of_nat (length (row0 :: rows)) - 1))
      with (length rows) by (cbn [length]; lia).
    pose proof (avg_accumulate_steps f dv n rows [row0] O C0) as H1.
    cbn [length] in H1. change (Z.of_nat 1) with 1%Z in H1.
    rewrite H1; [|rewrite Esteps; reflexivity|exact LO|exact HO|exact HS].
    cbn [bind]. fold Of Sf.
    pose proof (avg_item_all dv (Z.of_nat (length (row0 :: rows))) skipna
                  Of Sf (mkDfs (TimeAxis f) dv (ItemInfo f) [])
                  Of [] Sf [] [] eq_refl eq_refl eq_refl eq_refl) as H2.
    cbn [app] in H2. change (length (@nil (list fval))) with 0%nat in H2.
    change (Z.of_nat 0) with 0%Z in H2.
    rewrite LOf in H2. unfold range. rewrite H2;
      [|rewrite LSf; reflexivity|cbn [ItemInfo]; reflexivity].
    destruct Of as [|o1 Of']; [cbn [length] in LOf; congruence|].
    cbn [bind Close w_file append_step TimeAxis DeleteValueFloat ItemInfo
         steps app]. reflexivity. }
  eexists. eexists. eexists. split; [exact Erun|].
  cbn [ItemInfo DeleteValueFloat steps].
  split; [reflexivity|]. split; [reflexivity|]. split; [reflexivity|].
  split; [apply map2_nth; [exact Oj|exact Sj]|].
  cbn [Time Data]. split; [reflexivity|].
  rewrite nth_error_map, (nth_error_combine _ _ k _ _ Ojk Sjk).
  cbn [option_map fst snd]. unfold NumberOfTimeSteps. rewrite Esteps.
  reflexivity.
Qed.

Lemma count_value_filter (dv : Q) (vs : list fval) :
  forall c0 : Z,
    fold_left (count_value dv) vs c0
    = (c0 + Z.of_nat (length (filter (has_value dv) vs)))%Z.
Proof.
  induction vs as [|v vs IH]; intros c0; cbn [fold_left filter length].
  - lia.
  - rewrite IH. unfold count_value. destruct (has_value dv v); cbn [length]; lia.
Qed.

Lemma add_value_filter (dv : Q) (vs : list fval) :
  forall s : fval,
    fold_left (add_value dv) vs s
    = fold_left fadd (filter (has_value dv) vs) s.
Proof.
  induction vs as [|v vs IH]; intros s; cbn [fold_left filter]; [reflexivity|].
  rewrite IH. unfold add_value. destruct (has_value dv v); reflexivity.
Qed.

Lemma filter_all {A : Type} (p : A -> bool) (l : list A) :
  forallb p l = true -> filter p l = l.
Proof.
  induction l as [|a l IH]; intros H; [reflexivity|].
  cbn [forallb] in H. apply andb_true_iff in H. destruct H as [Ha Hl].
  cbn [filter]. rewrite Ha, IH by exact Hl. reflexivity.
Qed.

Lemma filter_not_all {A : Type} (p : A -> bool) (l : list A) :
  forallb p l = false -> (length (filter p l) < length l)%nat.
Proof.
  induction l as [|a l IH]; intros H; [discriminate|].
  cbn [forallb] in H. cbn [filter length].
  pose proof (filter_length_le p l) as Hle.
  destruct (p a); cbn [andb length] in *; [specialize (IH H)|]; lia.
Qed.

Lemma filter_none_iff {A : Type} (p : A -> bool) (l : list A) :
  existsb p l = false -> filter p l = [].
Proof.
  induction l as [|a l IH]; intros H; [reflexivity|].
  cbn [existsb] in H. apply orb_false_iff in H. destruct H as [Ha Hl].
  cbn [filter]. rewrite Ha. apply IH. exact Hl.
Qed.

Lemma filter_some {A : Type} (p : A -> bool) (l : list A) :
  existsb p l = true -> (0 < length (filter p l))%nat.
Proof.
  induction l as [|a l IH]; intros H; [discriminate|].
  cbn [existsb] in H. cbn [filter].
  destruct (p a); cbn [orb length] in *; [lia|]. apply IH. exact H.
Qed.

Lemma fold_fadd_nan (l : list fval) : fold_left fadd l NaN = NaN.
Proof. induction l as [|v l IH]; [reflexivity|]. exact IH. Qed.

(** X18: [avg_time] with skipna=True.  For a file with at least one item
    and one step, one record per item in every step and records of the
    same size in every step, the output has one step, with time 0, and an
    element of it is the arithmetic mean over all steps when the element
    has a value (is not the delete value) at every step, and the delete
    value as soon as it is deleted at one step.  [v0 :: vs] are the
    values of the element, step by step. *)
Theorem avg_time_skipna_mean_of_complete_elements (f : DfsFile) (j k : nat)
  (v0 : fval) (vs : list fval) :
  ItemInfo f <> [] ->
  conformant (length (ItemInfo f)) f ->
  uniform f ->
  Forall2 (fun row v => exists d, nth_error row j = Some d
                                  /\ nth_error (Data d) k = Some v)
          (steps f) (v0 :: vs) ->
  exists out row rec,
    avg_time f true = Ok out
    /\ steps out = [row]
    /\ nth_error row j = Some rec
    /\ Time rec = 0%Q
    /\ nth_error (Data rec) k
       = Some (if forallb (has_value (DeleteValueFloat f)) (v0 :: vs)
               then fdiv (fold_left fadd vs v0)
                         (Num (inject_Z (Z.of_nat (NumberOfTimeSteps f))))
               else Num (DeleteValueFloat f)).
Proof.
  intros Hne Hc Hu Hcol.
  destruct (avg_time_element f true j k v0 vs Hne Hc Hu Hcol)
    as (out & row & rec & E & _ & _ & Es & Hj & Ht & Hk).
  exists out, row, rec. repeat (split; [assumption|]).
  rewrite Hk. f_equal.
  assert (Ln : NumberOfTimeSteps f = Datatypes.S (length vs)).
  { unfold NumberOfTimeSteps. rewrite (Forall2_length Hcol). reflexivity. }
  set (dv := DeleteValueFloat f) in *.
  rewrite count_value_filter, add_value_filter, Ln.
  cbn [forallb]. unfold first_count, first_value.
  destruct (has_value dv v0) eqn:E0; cbn [andb].
  - destruct (forallb (has_value dv) vs) eqn:Ea.
    + rewrite (filter_all _ _ Ea).
      replace (1 + Z.of_nat (length vs))%Z
        with (Z.of_nat (Datatypes.S (length vs))) by lia.
      rewrite Z.eqb_refl. reflexivity.
    + pose proof (filter_not_all _ _ Ea) as Hlt.
      replace (1 + Z.of_nat (length (filter (has_value dv) vs))
               =? Z.of_nat (Datatypes.S (length vs)))%Z with false
        by (symmetry; apply Z.eqb_neq; lia).
      reflexivity.
  - pose proof (filter_length_le (has_value dv) vs) as Hle.
    replace (0 + Z.of_nat (length (filter (has_value dv) vs))
             =? Z.of_nat (Datatypes.S (length vs)))%Z with false
      by (symmetry; apply Z.eqb_neq; lia).
    reflexivity.
Qed.

Lemma avg_time_skipna_mean_of_complete_elements_witness :
  exists out row rec,
    avg_time Examples.avg_three true = Ok out
    /\ steps out = [row]
    /\ nth_error row 0 = Some rec
    /\ Time rec = 0%Q
    /\ nth_error (Data rec) 1
       = Some (if forallb (has_value (DeleteValueFloat Examples.avg_three))
                          [Num 4; Num Examples.deletevalue; Num 5]
               then fdiv (fold_left fadd [Num Examples.deletevalue; Num 5]
                                    (Num 4))
                         (Num (inject_Z (Z.of_nat
                                 (NumberOfTimeSteps Examples.avg_three))))
               else Num (DeleteValueFloat Examples.avg_three)).
Proof.
  apply (avg_time_skipna_mean_of_complete_elements Examples.avg_three 0 1).
  - discriminate.
  - repeat constructor.
  - repeat constructor.
  - repeat (constructor; [eexists; split; reflexivity|]). constructor.
Defined.

(** X19: [avg_time] with skipna=False, element by element, for a file as
    in X18.  An element that has a value at step 0 gets the mean of its
    values over the steps at which it has one.  An element deleted at
    step 0 gets NaN when it has a value at some later step, and the
    delete value when it is deleted at every step. *)
Theorem avg_time_no_skipna_element_by_element (f : DfsFile) (j k : nat)
  (v0 : fval) (vs : list fval) :
  ItemInfo f <> [] ->
  conformant (length (ItemInfo f)) f ->
  uniform f ->
  Forall2 (fun row v => exists d, nth_error row j = Some d
                                  /\ nth_error (Data d) k = Some v)
          (steps f) (v0 :: vs) ->
  exists out row rec,
    avg_time f false = Ok out
    /\ steps out = [row]
    /\ nth_error row j = Some rec
    /\ Time rec = 0%Q
    /\ nth_error (Data rec) k
       = Some (if has_value (DeleteValueFloat f) v0
               then fdiv (fold_left fadd
                            (filter (has_value (DeleteValueFloat f)) vs) v0)
                         (Num (inject_Z
                                 (Z.of_nat
                                    (length
                                       (filter
                                          (has_value (DeleteValueFloat f))
                                          (v0 :: vs))))))
               else if existsb (has_value (DeleteValueFloat f)) vs
                    then NaN
                    else Num (DeleteValueFloat f)).
Proof.
  intros Hne Hc Hu Hcol.
  destruct (avg_time_element f false j k v0 vs Hne Hc Hu Hcol)
    as (out & row & rec & E & _ & _ & Es & Hj & Ht & Hk).
  exists out, row, rec. repeat (split; [assumption|]).
  rewrite Hk. f_equal.
  set (dv := DeleteValueFloat f) in *.
  rewrite count_value_filter, add_value_filter.
  cbn [filter]. unfold first_count, first_value.
  destruct (has_value dv v0) eqn:E0.
  - cbn [length].
    replace (0 <? 1 + Z.of_nat (length (filter (has_value dv) vs)))%Z
      with true by (symmetry; apply Z.ltb_lt; lia).
    replace (1 + Z.of_nat (length (filter (has_value dv) vs)))%Z
      with (Z.of_nat (Datatypes.S (length (filter (has_value dv) vs))))
      by lia.
    reflexivity.
  - destruct (existsb (has_value dv) vs) eqn:Ee.
    + pose proof (filter_some _ _ Ee) as Hpos.
      replace (0 <? 0 + Z.of_nat (length (filter (has_value dv) vs)))%Z
        with true by (symmetry; apply Z.ltb_lt; lia).
      rewrite fold_fadd_nan. reflexivity.
    + rewrite (filter_none_iff _ _ Ee). reflexivity.
Qed.

Lemma avg_time_no_skipna_element_by_element_witness :
  exists out row rec,
    avg_time Examples.avg_three false = Ok out
    /\ steps out = [row]
    /\ nth_error row 0 = Some rec
    /\ Time rec = 0%Q
    /\ nth_error (Data rec) 1
       = Some (if has_value (DeleteValueFloat Examples.avg_three) (Num 4)
               then fdiv (fold_left fadd
                            (filter (has_value
                                       (DeleteValueFloat Examples.avg_three))
                                    [Num Examples.deletevalue; Num 5])
                            (Num 4))
                         (Num (inject_Z
                                 (Z.of_nat
                                    (length
                                       (filter
                                          (has_value
                                             (DeleteValueFloat
                                                Examples.avg_three))
                                          [Num 4; Num Examples.deletevalue;
                                           Num 5])))))
               else if existsb (has_value
                                  (DeleteValueFloat Examples.avg_three))
                               [Num Examples.deletevalue; Num 5]
                    then NaN
                    else Num (DeleteValueFloat Examples.avg_three)).
Proof.
  apply (avg_time_no_skipna_element_by_element Examples.avg_three 0 1).
  - discriminate.
  - repeat constructor.
  - repeat constructor.
  - repeat (constructor; [eexists; split; reflexivity|]). constructor.
Defined.

(** ** What a successful read returns *)

Lemma mapM_length {A B : Type} (f : A -> result B) :
  forall (l : list A) (r : list B), mapM f l = Ok r -> length r = length l.
Proof.
  induction l as [|a l IH]; intros r H; cbn [mapM] in H.
  - injection H as <-. reflexivity.
  - destruct (f a) as [b|e]; [|discriminate]. cbn [bind] in H.
    destruct (mapM f l) as [r'|e]; [|discriminate]. cbn [bind] in H.
    injection H as <-. cbn [length]. rewrite (IH r' eq_refl). reflexivity.
Qed.

Lemma mapM_Forall {A B : Type} (f : A -> result B) (P : B -> Prop) :
  (forall a b, f a = Ok b -> P b) ->
  forall (l : list A) (r : list B), mapM f l = Ok r -> Forall P r.
Proof.
  intros Hf. induction l as [|a l IH]; intros r H; cbn [mapM] in H.
  - injection H as <-. constructor.
  - destruct (f a) as [b|e] eqn:Ea; [|discriminate]. cbn [bind] in H.
    destruct (mapM f l) as [r'|e]; [|discriminate]. cbn [bind] in H.
    injection H as <-. constructor; [eapply Hf; exact Ea|].
    apply IH. reflexivity.
Qed.

Section ReadBlocks.

Import Dfsu.

Variables (Geometry Area Coord : Type).
Variable self_geometry : Geometry.
Variable n_elements : Geometry -> nat.
Variable _elements_in_area : Area -> result (option elements_arg).
Variable find_index :
  option Coord -> option Coord -> result (option elements_arg).
Variable elements_to_geometry : list Z -> result Geometry.
Variable _read_item_time_step : Z -> Z -> result (list fval).

(** The loop of [_read], when no read fails: one block per item, one
    array per selected step in every block, one record read per step and
    item, and arrays of the selected elements. *)
Lemma read_steps_blocks (elements : option (list Z)) (items : list Z) :
  forall (time_steps : list Z) (count : nat) (data : list (list (list fval)))
         (c : nat),
    read_steps _read_item_time_step elements items time_steps count = (Ok data, c) ->
    length data = length items
    /\ Forall (fun block => length block = length time_steps) data
    /\ c = (count + length time_steps * length items)%nat
    /\ (forall l, elements = Some l ->
                  Forall (Forall (fun d => length d = length l)) data).
Proof.
  induction time_steps as [|it rest IH]; intros count data c H.
  - cbn [read_steps] in H. inversion H. subst.
    rewrite length_map. split; [reflexivity|]. split.
    + apply Forall_forall. intros b Hb. apply in_map_iff in Hb.
      destruct Hb as (i & <- & _). reflexivity.
    + split; [cbn [length]; lia|]. intros l _.
      apply Forall_forall. intros b Hb. apply in_map_iff in Hb.
      destruct Hb as (i & <- & _). constructor.
  - cbn [read_steps] in H.
    match type of H with
    | context [mapM ?F items] => destruct (mapM F items) as [row|e] eqn:Erow
    end; [|discriminate].
    destruct (read_steps _read_item_time_step elements items rest
                         (count + length items)) as [r c'] eqn:Er.
    destruct r as [data'|e]; cbn [bind] in H; [|discriminate].
    inversion H. subst.
    destruct (IH _ _ _ Er) as (Ld & Hb & Hc & He).
    pose proof (mapM_length _ _ _ Erow) as Lrow.
    rewrite length_map, length_combine, Lrow, Ld, Nat.min_id.
    split; [reflexivity|]. split; [|split].
    + apply Forall_forall. intros b Hin. apply in_map_iff in Hin.
      destruct Hin as ([d blk] & <- & Hin). cbn [fst snd length].
      apply in_combine_r in Hin. rewrite Forall_forall in Hb.
      rewrite (Hb blk Hin). reflexivity.
    + rewrite Hc. cbn [length]. lia.
    + intros l El. specialize (He l El).
      assert (Hrow : Forall (fun d => length d = length l) row).
      { eapply mapM_Forall; [|exact Erow]. intros item d Hd. cbn beta in Hd.
        destruct (_read_item_time_step item it) as [d0|e]; [|discriminate].
        cbn [bind] in Hd. rewrite El in Hd.
        unfold py_take in Hd. apply mapM_length in Hd. exact Hd. }
      apply Forall_forall. intros b Hin. apply in_map_iff in Hin.
      destruct Hin as ([d blk] & <- & Hin). cbn [fst snd].
      constructor.
      * rewrite Forall_forall in Hrow. apply Hrow.
        eapply in_combine_l. exact Hin.
      * rewrite Forall_forall in He. apply He.
        eapply in_combine_r. exact Hin.
Qed.

(** X20: whenever [_read] returns a Dataset, the Dataset holds one block
    per item and, in every block, one array per selected time step; one
    record was read from the file per selected step and item; the
    dimension names are as many as the axes of a block; and with an
    explicit list of elements every array holds one value per listed
    element. *)
Theorem read_blocks_match_selection (dtype_ok : bool)
  (valid_timesteps : result (bool * list Z)) (valid_items : result (list Z))
  (elements : option elements_arg) (area : option Area) (x y : option Coord)
  (keepdims : bool) (ds : Dataset Geometry) (c : nat) :
  _read Geometry Area Coord self_geometry n_elements _elements_in_area
        find_index elements_to_geometry _read_item_time_step
        dtype_ok valid_timesteps valid_items elements area x y keepdims
  = (Ok ds, c) ->
  length (ds_data ds) = length (ds_items ds)
  /\ Forall (fun block => length block = length (ds_time ds)) (ds_data ds)
  /\ c = (length (ds_time ds) * length (ds_items ds))%nat
  /\ length (ds_shape ds) = length (ds_dims ds)
  /\ (forall e, elements = Some e ->
        Forall (Forall (fun d => length d = length (elements_list e)))
               (ds_data ds)).
Proof.
  unfold _read. intros H.
  match type of H with
  | (match ?b with Ok _ => _ | Raise _ => _ end) = _ =>
      destruct b as [[[[[[single ts] g] ne] el] its]|e] eqn:Eb
  end; [|discriminate].
  destruct (read_steps _read_item_time_step el its ts 0) as [r c'] eqn:Er.
  destruct r as [data|e]; cbn [bind] in H; [|discriminate].
  inversion H. subst.
  destruct (read_steps_blocks _ _ _ _ _ _ Er) as (Ld & Hb & Hc & He).
  cbn [ds_data ds_items ds_time ds_shape ds_dims].
  split; [exact Ld|]. split; [exact Hb|]. split; [exact Hc|]. split.
  - destruct (single && negb keepdims);
      destruct el as [[|e0 [|e1 l]]|]; reflexivity.
  - intros e Ee. apply He. subst elements.
    destruct dtype_ok; cbn [negb bind] in Eb; [|discriminate].
    destruct valid_timesteps as [[s0 t0]|e0]; cbn [bind] in Eb;
      [|discriminate].
    destruct (_validate_elements_and_geometry_sel Area Coord (Some e) area x y);
      cbn [bind] in Eb; [|discriminate].
    destruct (elements_to_geometry (elements_list e)); cbn [bind] in Eb;
      [|discriminate].
    destruct valid_items; cbn [bind] in Eb; [|discriminate].
    injection Eb as _ _ _ _ <- _. reflexivity.
Qed.

End ReadBlocks.

(** The theorem for a file whose records hold three values: two time
    steps, one item and the elements 0 and 2. *)
Lemma read_blocks_match_selection_witness :
  exists ds c,
    Dfsu._read nat unit Q 3%nat (fun n => n)
               (fun _ => Ok None) (fun _ _ => Ok None)
               (fun l => Ok (length l))
               (fun _ _ => Ok [Num 1; Num 2; Num 3])
               true (Ok (false, [0; 1]%Z)) (Ok [0%Z])
               (Some (Dfsu.EList [0; 2]%Z)) None None None false
    = (Ok ds, c)
    /\ length (Dfsu.ds_data ds) = length (Dfsu.ds_items ds)
    /\ Forall (fun block => length block = length (Dfsu.ds_time ds))
              (Dfsu.ds_data ds)
    /\ c = (length (Dfsu.ds_time ds) * length (Dfsu.ds_items ds))%nat
    /\ length (Dfsu.ds_shape ds) = length (Dfsu.ds_dims ds)
    /\ (forall e, Some (Dfsu.EList [0; 2]%Z) = Some e ->
          Forall (Forall (fun d => length d
                                   = length (Dfsu.elements_list e)))
                 (Dfsu.ds_data ds)).
Proof.
  eexists. eexists. split; [vm_compute; reflexivity|].
  apply (read_blocks_match_selection nat unit Q 3%nat (fun n => n)
           (fun _ => Ok None) (fun _ _ => Ok None)
           (fun l => Ok (length l))
           (fun _ _ => Ok [Num 1; Num 2; Num 3])
           true (Ok (false, [0; 1]%Z)) (Ok [0%Z])
           (Some (Dfsu.EList [0; 2]%Z)) None None None false).
  vm_compute. reflexivity.
Defined.

(** ** quantile: the chunks tile the elements *)

Lemma count_from_app (n m : nat) (a : Z) :
  count_from (n + m) a = count_from n a ++ count_from m (a + Z.of_nat n).
Proof.
  revert a. induction n as [|n IH]; intros a.
  - cbn [Nat.add count_from app]. f_equal. cbn. lia.
  - cbn [Nat.add count_from app]. rewrite IH. f_equal. f_equal. f_equal. lia.
Qed.

Lemma range_from_app (a b c : Z) :
  (a <= b <= c)%Z -> range_from a b ++ range_from b c = range_from a c.
Proof.
  intros H. unfold range_from.
  replace (Z.to_nat (c - a)) with (Z.to_nat (b - a) + Z.to_nat (c - b))%nat
    by lia.
  rewrite count_from_app. f_equal. f_equal. lia.
Qed.

Lemma chunk_ranges_tile (chunk_size n_data : Z) :
  (0 <= chunk_size)%Z ->
  forall (chunks : nat) (e1 : Z),
    (0 <= e1 <= n_data)%Z ->
    length (chunk_ranges chunks e1 chunk_size n_data) = chunks
    /\ Forall (fun r => (e1 <= fst r <= snd r)%Z
                        /\ (snd r - fst r <= chunk_size)%Z
                        /\ (snd r <= n_data)%Z)
              (chunk_ranges chunks e1 chunk_size n_data)
    /\ flat_map (fun r => range_from (fst r) (snd r))
                (chunk_ranges chunks e1 chunk_size n_data)
       = range_from e1 (Z.min (e1 + Z.of_nat chunks * chunk_size) n_data).
Proof.
  intros Hcs. induction chunks as [|k IH]; intros e1 He.
  - cbn [chunk_ranges length flat_map]. split; [reflexivity|].
    split; [constructor|].
    unfold range_from.
    replace (Z.to_nat (Z.min (e1 + Z.of_nat 0 * chunk_size) n_data - e1))
      with 0%nat by lia.
    reflexivity.
  - cbn [chunk_ranges length flat_map fst snd].
    set (e2 := Z.min (e1 + chunk_size) n_data).
    assert (He2 : (0 <= e2 <= n_data)%Z) by (unfold e2; lia).
    destruct (IH e2 He2) as (L & B & T).
    split; [rewrite L; reflexivity|]. split.
    + constructor; [cbn [fst snd]; unfold e2; lia|].
      eapply Forall_impl; [|exact B]. intros r Hr. cbn beta in Hr.
      unfold e2 in Hr. lia.
    + rewrite T.
      replace (Z.min (e2 + Z.of_nat k * chunk_size) n_data)
        with (Z.min (e1 + Z.of_nat (S k) * chunk_size) n_data)
        by (unfold e2; nia).
      apply range_from_app. unfold e2. nia.
Qed.

(** X21: the chunks of [quantile] tile the elements.  For a file with at
    least one item, one time step and one element per item, and a positive
    buffer size, the chunking has at least one chunk; the element ranges
    [e1:e2] of its chunks are in order, each within 0..n_data and at most
    [chunk_size] long, and together they hold every element 0..n_data-1
    exactly once. *)
Theorem quantile_chunks_tile_the_elements (n_items n_data n_time_steps : Z)
  (buffer_size : Q) :
  (1 <= n_items)%Z -> (n_items <= n_data)%Z -> (1 <= n_time_steps)%Z ->
  (0 < buffer_size)%Q ->
  exists n_chunks chunk_size ranges,
    quantile_chunks n_items n_data n_time_steps buffer_size
    = Ok (n_chunks, chunk_size, ranges)
    /\ (1 <= n_chunks)%Z
    /\ Z.of_nat (length ranges) = n_chunks
    /\ Forall (fun r => (0 <= fst r <= snd r)%Z
                        /\ (snd r - fst r <= chunk_size)%Z
                        /\ (snd r <= n_data / n_items)%Z) ranges
    /\ flat_map (fun r => range_from (fst r) (snd r)) ranges
       = range (Z.to_nat (n_data / n_items)).
Proof.
  intros Hi Hd Ht Hb.
  unfold quantile_chunks.
  rewrite (Qeq_bool_pos buffer_size Hb). cbn [bind].
  replace (n_items =? 0)%Z with false by (symmetry; apply Z.eqb_neq; lia).
  cbn [bind].
  set (nc := Qceiling (inject_Z (8 * n_time_steps * n_data) / buffer_size)).
  assert (Hnc : (1 <= nc)%Z).
  { apply ceil_positive. apply Qlt_shift_div_l; [exact Hb|].
    rewrite Qmult_0_l. change 0%Q with (inject_Z 0). rewrite <- Zlt_Qlt. nia. }
  replace (nc =? 0)%Z with false by (symmetry; apply Z.eqb_neq; lia).
  cbn [bind].
  set (nd := py_int (inject_Z n_data / inject_Z n_items)).
  assert (End : nd = (n_data / n_items)%Z).
  { unfold nd, py_int.
    destruct n_items as [|p|p]; try lia.
    unfold Qdiv, Qinv, inject_Z, Qmult. cbn [Qnum Qden].
    rewrite Z.mul_1_r, Pos.mul_1_l.
    apply Z.quot_div_nonneg; lia. }
  assert (Hnd : (1 <= nd)%Z).
  { rewrite End. apply Z.div_le_lower_bound; lia. }
  set (cs := Qceiling (inject_Z nd / inject_Z nc)).
  assert (Hcover : (nd <= nc * cs)%Z).
  { pose proof (Qle_ceiling (inject_Z nd / inject_Z nc)) as Hc. fold cs in Hc.
    assert (Pn : (0 < inject_Z nc)%Q).
    { change 0%Q with (inject_Z 0). rewrite <- Zlt_Qlt. lia. }
    assert (Hm : (inject_Z nd <= inject_Z cs * inject_Z nc)%Q).
    { setoid_replace (inject_Z nd)
        with (inject_Z nd / inject_Z nc * inject_Z nc)%Q by (field; lra).
      apply Qmult_le_compat_r; [exact Hc|lra]. }
    rewrite <- inject_Z_mult in Hm. rewrite <- Zle_Qle in Hm. lia. }
  assert (Hcs : (0 <= cs)%Z) by nia.
  destruct (chunk_ranges_tile cs nd Hcs (Z.to_nat nc) 0) as (L & B & T);
    [lia|].
  exists nc, cs, (chunk_ranges (Z.to_nat nc) 0 cs nd).
  split; [reflexivity|]. split; [exact Hnc|]. split; [rewrite L; lia|].
  rewrite <- End. split; [exact B|].
  rewrite T.
  replace (Z.min (0 + Z.of_nat (Z.to_nat nc) * cs) nd) with nd by lia.
  unfold range_from, range. rewrite Z.sub_0_r. reflexivity.
Qed.

Lemma quantile_chunks_tile_the_elements_witness :
  exists n_chunks chunk_size ranges,
    quantile_chunks 2 20 100 3000 = Ok (n_chunks, chunk_size, ranges)
    /\ (1 <= n_chunks)%Z
    /\ Z.of_nat (length ranges) = n_chunks
    /\ Forall (fun r => (0 <= fst r <= snd r)%Z
                        /\ (snd r - fst r <= chunk_size)%Z
                        /\ (snd r <= 20 / 2)%Z) ranges
    /\ flat_map (fun r => range_from (fst r) (snd r)) ranges
       = range (Z.to_nat (20 / 2)).
Proof.
  apply (quantile_chunks_tile_the_elements 2 20 100 3000); try lia.
  reflexivity.
Defined.
